(** * Red Tape Reducer: the grievance request handler of [main.py]

    A shallow embedding of the request handler [redtape_reducer] and of the
    helpers it calls, with the properties of its input-normalisation and
    response-reconciliation pipeline.

    Python [str] values are modelled as [string]; a character is a code point
    below 256, on which [str.isspace], [str.lower] and the regular expression
    class [\s] are written out exactly.  External collaborators (base64 and
    UTF-8 codecs, the PDF, DOCX and OCR libraries, the generative model and
    the JSON parser) are fields of a [World] record; the file system, the
    temporary names and the calls made are threaded through a state and
    exception monad. *)

From Stdlib Require Import String Ascii ZArith Lia Bool.
From Stdlib Require Floats.SpecFloat.
From stdpp Require Import gmap strings list pretty.

Open Scope string_scope.

#[local] Arguments String.append !s1 s2 : simpl nomatch.

(** ** Python string primitives *)

Module PyStr.

(** [str.isspace] on one character (also the class [\s] of [re] on [str]
    patterns): TAB..CR, FS..US, SPACE, NEL and NBSP. *)
Definition isspace (c : ascii) : bool :=
  let n := nat_of_ascii c in
  (((9 <=? n) && (n <=? 13)) || ((28 <=? n) && (n <=? 32))
   || (n =? 133) || (n =? 160))%nat.

(** [str.lower] on one character: A..Z, and the upper-case letters
    U+00C0..U+00DE except the multiplication sign U+00D7. *)
Definition lower_char (c : ascii) : ascii :=
  let n := nat_of_ascii c in
  if (((65 <=? n) && (n <=? 90))
      || ((192 <=? n) && (n <=? 222) && negb (n =? 215)))%nat
  then ascii_of_nat (n + 32) else c.

Fixpoint lower (s : string) : string :=
  match s with
  | "" => ""
  | String c r => String (lower_char c) (lower r)
  end.

Fixpoint lstrip (s : string) : string :=
  match s with
  | "" => ""
  | String c r => if isspace c then lstrip r else s
  end.

Fixpoint rstrip (s : string) : string :=
  match s with
  | "" => ""
  | String c r =>
      match rstrip r with
      | "" => if isspace c then "" else String c ""
      | r' => String c r'
      end
  end.

Definition strip (s : string) : string := lstrip (rstrip s).

(** Truth value of a [str]: non-empty. *)
Definition truthy (s : string) : bool :=
  match s with "" => false | _ => true end.

(** [s.startswith(p)] *)
Fixpoint startswith (s p : string) {struct p} : bool :=
  match p, s with
  | "", _ => true
  | String _ _, "" => false
  | String a p', String b s' => Ascii.eqb a b && startswith s' p'
  end.

Fixpoint drop (n : nat) (s : string) : string :=
  match n, s with
  | 0, _ => s
  | S n', String _ r => drop n' r
  | S _, "" => ""
  end.

Fixpoint take (n : nat) (s : string) : string :=
  match n, s with
  | 0, _ => ""
  | S n', String c r => String c (take n' r)
  | S _, "" => ""
  end.

(** [s.endswith(p)] *)
Definition endswith (s p : string) : bool :=
  (String.length p <=? String.length s)%nat
  && String.eqb (drop (String.length s - String.length p) s) p.

(** [s.split(sep)] for a one-character separator: never empty. *)
Fixpoint split (sep : ascii) (s : string) : list string :=
  match s with
  | "" => [""]
  | String c r =>
      if Ascii.eqb c sep then "" :: split sep r
      else match split sep r with
           | h :: t => String c h :: t
           | [] => [String c ""]
           end
  end.

(** [sep.join(parts)] *)
Fixpoint join (sep : string) (parts : list string) : string :=
  match parts with
  | [] => ""
  | [p] => p
  | p :: ps => p +:+ sep +:+ join sep ps
  end.

(** [s.rfind(c)] for a one-character needle, [-1] when absent; [i] is the
    index of the first character of [s]. *)
Fixpoint rfind_from (c : ascii) (s : string) (i : Z) : Z :=
  match s with
  | "" => (-1)%Z
  | String a r =>
      let k := rfind_from c r (i + 1)%Z in
      if (0 <=? k)%Z then k else if Ascii.eqb a c then i else (-1)%Z
  end.

Definition rfind (c : ascii) (s : string) : Z := rfind_from c s 0%Z.

Fixpoint all_chars (f : ascii -> bool) (s : string) : bool :=
  match s with
  | "" => true
  | String c r => f c && all_chars f r
  end.

(** [os.path.splitext(p)] (posixpath): the extension starts at the last
    dot of the last path component, unless that component consists of
    leading dots up to there. *)
Definition splitext (p : string) : string * string :=
  let sepIndex := rfind "/" p in
  let dotIndex := rfind "." p in
  if (sepIndex <? dotIndex)%Z then
    let stem := take (Z.to_nat (dotIndex - (sepIndex + 1)))
                     (drop (Z.to_nat (sepIndex + 1)) p) in
    if all_chars (Ascii.eqb ".") stem then (p, "")
    else (take (Z.to_nat dotIndex) p, drop (Z.to_nat dotIndex) p)
  else (p, "").

(** [c in s] for one character. *)
Definition contains (c : ascii) (s : string) : bool :=
  negb (all_chars (fun a => negb (Ascii.eqb a c)) s).

(** The number of bytes of [s.encode("utf-8")]: a character below U+0080
    takes one byte, the others (below U+0100) two. *)
Fixpoint utf8_length (s : string) : nat :=
  match s with
  | "" => 0
  | String c r => (if (nat_of_ascii c <? 128)%nat then 1 else 2) + utf8_length r
  end.

Definition head_char (s : string) : option ascii :=
  match s with "" => None | String c _ => Some c end.

Fixpoint last_char (s : string) : option ascii :=
  match s with
  | "" => None
  | String c r => match r with "" => Some c | _ => last_char r end
  end.

Definition is_space_opt (c : option ascii) : bool :=
  match c with Some a => isspace a | None => false end.

(** No white space at either end. *)
Definition trimmed (s : string) : bool :=
  negb (is_space_opt (head_char s)) && negb (is_space_opt (last_char s)).

End PyStr.

(** ** The response sanitizer

    [re.sub(r"```(json)?\s*([\s\S]*?)```", r"\2", result).strip()] *)

Module Sanitizer.
Import PyStr.

Definition fence : string := "```".

(** [([\s\S]*?)```]: the lazy group takes the fewest characters after
    which the closing fence matches; yields group 2 and the text after
    the match. *)
Fixpoint lazy_body (s : string) : option (string * string) :=
  if startswith s fence then Some ("", drop 3 s)
  else match s with
       | "" => None
       | String c r =>
           match lazy_body r with
           | Some (body, rest) => Some (String c body, rest)
           | None => None
           end
       end.

(** [\s*] followed by the rest of the pattern: greedy, the longest run of
    white space is tried first and given back one character at a time. *)
Fixpoint space_star (s : string) : option (string * string) :=
  match s with
  | String c r =>
      if isspace c then
        match space_star r with
        | Some m => Some m
        | None => lazy_body s
        end
      else lazy_body s
  | "" => lazy_body s
  end.

(** [(json)?] followed by the rest of the pattern: greedy, the tag is
    taken when present and given back when the rest fails. *)
Definition opt_json (s : string) : option (string * string) :=
  if startswith s "json" then
    match space_star (drop 4 s) with
    | Some m => Some m
    | None => space_star s
    end
  else space_star s.

(** The whole pattern anchored at the head of [s]. *)
Definition match_here (s : string) : option (string * string) :=
  if startswith s fence then opt_json (drop 3 s) else None.

(** [re.sub] with replacement [\2]: leftmost matches, scanned left to
    right; after a match the scan resumes behind it.  The fuel bounds the
    number of scan steps; [re_sub] gives one more than the length. *)
Fixpoint sub_fuel (n : nat) (s : string) : string :=
  match n with
  | 0 => s
  | S n' =>
      match match_here s with
      | Some (body, rest) => body +:+ sub_fuel n' rest
      | None =>
          match s with
          | "" => ""
          | String c r => String c (sub_fuel n' r)
          end
      end
  end.

Definition re_sub (s : string) : string := sub_fuel (S (String.length s)) s.

Definition sanitize (result : string) : string := strip (re_sub result).

(** [s] contains a fence. *)
Definition has_fence (s : string) : bool :=
  match lazy_body s with Some _ => true | None => false end.

(** What is left of [s] behind [(json)?\s*] when nothing is given back. *)
Definition skip_tag (s : string) : string :=
  lstrip (if startswith s "json" then drop 4 s else s).

(** The pattern matches somewhere in [s]: [s] holds two fences that do not
    overlap. *)
Fixpoint matchable (s : string) : bool :=
  (startswith s fence && has_fence (drop 3 s))
  || match s with "" => false | String _ r => matchable r end.

End Sanitizer.

(** ** JSON values as Python objects *)

Module Json.
Import PyStr.

(** What [json.loads] and [request.get_json] produce; [JNull] is [None].
    A [dict] is kept as the list of its items (keys distinct). *)
#[warnings="-register-all"] Inductive json : Type :=
| JNull
| JBool (b : bool)
| JInt (n : Z)
| JFloat (f : SpecFloat.spec_float)
| JStr (s : string)
| JArr (items : list json)
| JObj (fields : list (string * json)).

Definition float_is_zero (f : SpecFloat.spec_float) : bool :=
  match f with SpecFloat.S754_zero _ => true | _ => false end.

(** Truth value of an object, as tested by [if not data]. *)
Definition json_truthy (v : json) : bool :=
  match v with
  | JNull => false
  | JBool b => b
  | JInt n => negb (n =? 0)%Z
  | JFloat f => negb (float_is_zero f)
  | JStr s => truthy s
  | JArr l => match l with [] => false | _ => true end
  | JObj l => match l with [] => false | _ => true end
  end.

Fixpoint lookup_field (k : string) (fields : list (string * json))
  : option json :=
  match fields with
  | [] => None
  | (k', v) :: rest => if String.eqb k' k then Some v else lookup_field k rest
  end.

Definition is_str (k : string) (v : json) : bool :=
  match v with JStr s => String.eqb s k | _ => false end.

(** [k in s] on two [str]: [k] occurs in [s]. *)
Fixpoint occurs (k s : string) : bool :=
  startswith s k
  || match s with "" => false | String _ r => occurs k r end.

(** Ways in which the interpreter itself faults on an operation. *)
Inductive fault : Type :=
| NotContainer (v : json)
| NotSubscriptable (v : json) (k : string)
| MissingKey (k : string)
| NoAttribute (v : json) (attr : string)
| NotBytesLike (v : json)
| NoSuchFile (path : string)
| EmbeddedNull
| CannotCreate.

End Json.

(** ** The handler *)

Module Handler.
Import PyStr Json Sanitizer.

Definition bytes : Type := list Byte.byte.

(** An exception (every one below derives from [Exception]). *)
Inductive exn : Type :=
| Builtin (f : fault)
| Library (msg : string).

Inductive res (A : Type) : Type :=
| Ok (a : A)
| Raise (e : exn).
Arguments Ok {A} a.
Arguments Raise {A} e.

(** One argument of [model.generate_content]. *)
Inductive part : Type :=
| Text (s : string)
| Image (content : bytes).

(** The collaborators outside the program. *)
Record World : Type := {
  (** [base64.b64decode] on a [str] *)
  b64decode : string -> res bytes;
  (** directory, prefix and random part of the n-th temporary file name *)
  tmp_stem : nat -> string;
  (** the longest suffix, in bytes, with which such a name is still a file
      name that the file system takes *)
  suffix_max : nat;
  (** [open(p, "r", encoding="utf-8").read()] on a file of these bytes *)
  read_text : bytes -> res string;
  (** [pdfplumber]: [extract_text()] of every page, in order *)
  pdf_pages : bytes -> res (list (option string));
  (** [docx2txt.process] *)
  docx_text : bytes -> res string;
  (** [Image.open] and [reader.readtext]: the text of every result *)
  ocr_fragments : bytes -> res (list string);
  (** [model.generate_content(...).text] *)
  generate : list part -> res string;
  (** [bytes.decode("utf-8")] *)
  utf8_decode : bytes -> res string;
  (** [json.loads] *)
  loads : string -> res json;
  (** [str(e)] of an interpreter fault *)
  describe : fault -> string;
  (** the fixed instruction text that opens the analysis prompt *)
  instructions : string
}.

Definition str_exn (w : World) (e : exn) : string :=
  match e with
  | Builtin f => describe w f
  | Library msg => msg
  end.

(** The calls that the properties below speak about; the handler is
    instrumented to record them, in order: a call is recorded when it is
    made, the temporary file when it has been created. *)
Inductive event : Type :=
| EvB64Decode
| EvTempFile (path : string)
| EvExtractFile (path : string)
| EvExtractImage (path : string)
| EvClassify (path : string)
| EvRemove (path : string)
| EvDecodeBody
| EvAnalyze (text : string) (override : option string).

(** The file system, the number of temporary files created so far, and the
    calls made so far (oldest first). *)
Record state : Type := {
  fs : gmap string bytes;
  tmp_count : nat;
  trace : list event
}.

Definition M (A : Type) : Type := state -> res A * state.

Definition ret {A} (a : A) : M A := fun st => (Ok a, st).

Definition raise {A} (e : exn) : M A := fun st => (Raise e, st).

Definition bind {A B} (m : M A) (k : A -> M B) : M B :=
  fun st =>
    match m st with
    | (Ok a, st') => k a st'
    | (Raise e, st') => (Raise e, st')
    end.

(** [try: m except Exception as e: h e] *)
Definition catch {A} (m : M A) (h : exn -> M A) : M A :=
  fun st =>
    match m st with
    | (Ok a, st') => (Ok a, st')
    | (Raise e, st') => h e st'
    end.

Definition lift {A} (r : res A) : M A := fun st => (r, st).

Definition log (e : event) : M unit :=
  fun st =>
    (Ok tt, {| fs := fs st; tmp_count := tmp_count st;
               trace := trace st ++ [e] |}).

Declare Scope py_scope.
Delimit Scope py_scope with py.
Notation "x <- m ;; k" := (bind m (fun x => k))
  (at level 20, m at level 99, k at level 200) : py_scope.
Notation "m ;; k" := (bind m (fun _ => k))
  (at level 100, k at level 200, right associativity) : py_scope.
Open Scope py_scope.

(** *** File system operations *)

Definition read_file (path : string) : M bytes :=
  fun st =>
    match fs st !! path with
    | Some b => (Ok b, st)
    | None => (Raise (Builtin (NoSuchFile path)), st)
    end.

Definition write_file (path : string) (b : bytes) : M unit :=
  fun st =>
    (Ok tt, {| fs := <[path := b]> (fs st); tmp_count := tmp_count st;
               trace := trace st |}).

(** What [os.open] makes of the name [tempfile] builds with [suffix]: a NUL
    is refused before the system is asked ([ValueError]); a path separator
    points into a directory that is not there, and a name that is too long
    is not taken ([OSError]). *)
Definition temp_fault (w : World) (suffix : string) : option fault :=
  if contains Ascii.zero suffix then Some EmbeddedNull
  else if contains "/" suffix || (suffix_max w <? utf8_length suffix)%nat
       then Some CannotCreate
  else None.

(** [tempfile.NamedTemporaryFile(delete=False, suffix=suffix)]: an empty
    file under a name drawn for this call, which stays when closed.  With a
    suffix that makes no file name the creation raises and nothing is
    created; otherwise it is taken to succeed, under a name that [tempfile]
    found unused. *)
Definition named_temporary_file (w : World) (suffix : string) : M string :=
  fun st =>
    match temp_fault w suffix with
    | Some f => (Raise (Builtin f), st)
    | None =>
        let path := tmp_stem w (tmp_count st) +:+ suffix in
        (Ok path, {| fs := <[path := []]> (fs st);
                     tmp_count := S (tmp_count st);
                     trace := trace st ++ [EvTempFile path] |})
    end.

(** [os.remove] *)
Definition os_remove (path : string) : M unit :=
  fun st =>
    match fs st !! path with
    | Some _ =>
        (Ok tt, {| fs := delete path (fs st); tmp_count := tmp_count st;
                   trace := trace st ++ [EvRemove path] |})
    | None => (Raise (Builtin (NoSuchFile path)), st)
    end.

(** *** Operations on request data *)

(** [k in data] *)
Definition py_in (k : string) (data : json) : res bool :=
  match data with
  | JObj fields =>
      Ok (match lookup_field k fields with Some _ => true | None => false end)
  | JArr items => Ok (existsb (is_str k) items)
  | JStr s => Ok (occurs k s)
  | _ => Raise (Builtin (NotContainer data))
  end.

(** [data[k]] *)
Definition py_getitem (data : json) (k : string) : res json :=
  match data with
  | JObj fields =>
      match lookup_field k fields with
      | Some v => Ok v
      | None => Raise (Builtin (MissingKey k))
      end
  | _ => Raise (Builtin (NotSubscriptable data k))
  end.

(** The [str] behind [v], for a call of its method [attr]. *)
Definition as_str (v : json) (attr : string) : res string :=
  match v with
  | JStr s => Ok s
  | _ => Raise (Builtin (NoAttribute v attr))
  end.

(** [base64.b64decode(v)] *)
Definition py_b64decode (w : World) (v : json) : res bytes :=
  match v with
  | JStr s => b64decode w s
  | _ => Raise (Builtin (NotBytesLike v))
  end.

(** [x in [...]] on a list of [str] *)
Definition mem (x : string) (l : list string) : bool :=
  existsb (String.eqb x) l.

(** *** The helpers of [main.py] *)

Definition nl : string := String (ascii_of_nat 10) "".
Definition dq : string := String (ascii_of_nat 34) "".

(** The loop over [pdf.pages]: pages without text contribute nothing. *)
Definition pdf_concat (pages : list (option string)) : string :=
  fold_left
    (fun text page_text =>
       match page_text with
       | Some t => if truthy t then text +:+ t +:+ nl else text
       | None => text
       end)
    pages "".

Definition extract_text_from_file (w : World) (upload_file : string)
  : M string :=
  let ext := lower upload_file in
  text <- (if endswith ext ".txt" then
             content <- read_file upload_file ;;
             lift (read_text w content)
           else if endswith ext ".pdf" then
             content <- read_file upload_file ;;
             pages <- lift (pdf_pages w content) ;;
             ret (pdf_concat pages)
           else if endswith ext ".docx" then
             content <- read_file upload_file ;;
             lift (docx_text w content)
           else ret "") ;;
  ret (strip text).

Definition extract_text_from_image (w : World) (uploaded_image : string)
  : M string :=
  image <- read_file uploaded_image ;;
  results <- lift (ocr_fragments w image) ;;
  ret (strip (join " " results)).

Definition classify_prompt : string := "
    You are an AI that classifies grievance-related images.
    Possible Categories:
    1. infrastructure hazard / road damage
    2. flood / water logging
    3. water leakage / pipe burst
    4. electricity outage / fallen poles
    5. sanitation / garbage / drainage issues

    Output only the best fitting category from the list above.
    ".

Definition classify_image_with_gemini (w : World) (uploaded_image : string)
  : M string :=
  image <- read_file uploaded_image ;;
  text <- lift (generate w [Text classify_prompt; Image image]) ;;
  ret (strip text).

Definition category_note (category_override : string) : string :=
  "
        NOTE: The image was classified as **" +:+ category_override +:+ "**. 
        Consider this as the complaint category even if no text is available.
        ".

Definition analyze_grievance (w : World) (input_data input_type : string)
  (category_override : option string) : M string :=
  let category_str :=
    match category_override with
    | Some c => if truthy c then category_note c else ""
    | None => ""
    end in
  let prompt :=
    instructions w +:+ category_str +:+ "

    Complaint:
    " +:+ dq +:+ dq +:+ dq +:+ input_data +:+ dq +:+ dq +:+ dq +:+ "

    " in
  if String.eqb input_type "image" then
    lift (generate w [Text prompt; Text input_data])
  else
    lift (generate w [Text (prompt +:+ nl +:+ "Grievance: " +:+ input_data)]).

(** *** The request and the response *)

(** One uploaded part of a multipart form ([FileStorage]). *)
Record upload : Type := {
  filename : string;
  content : bytes
}.

(** What the handler reads of a Flask request.  The parsed body and the raw
    body are given side by side: no parser relates them here. *)
Record request : Type := {
  method : string;
  is_json : bool;
  (** [request.get_json(silent=True)] *)
  get_json : json;
  (** [request.files], in order *)
  files : list (string * upload);
  (** [request.data] *)
  data : bytes
}.

Record response : Type := {
  body : json;
  status : nat
}.

Definition jsonify (v : json) : response := {| body := v; status := 200 |}.

Definition with_status (r : response) (code : nat) : response :=
  {| body := body r; status := code |}.

Definition error_body (msg : string) : json := JObj [("error", JStr msg)].

(** [request.files.get("file")] *)
Fixpoint files_get (k : string) (l : list (string * upload)) : option upload :=
  match l with
  | [] => None
  | (k', u) :: rest => if String.eqb k' k then Some u else files_get k rest
  end.

Definition sentinel : string := "No text provided".

(** The values of [grievance_text] and [category_override]. *)
Definition resolved : Type := string * option string.

(** The branch on the declared extension, between the creation and the
    removal of the temporary file; [texts] is the list of document
    extensions of the calling branch. *)
Definition extract_by_extension (w : World) (texts : list string)
  (ext tmp_path : string) : M resolved :=
  if mem ext texts then
    log (EvExtractFile tmp_path) ;;
    grievance_text <- extract_text_from_file w tmp_path ;;
    ret (grievance_text, None)
  else if mem ext ["jpg"; "jpeg"; "png"] then
    log (EvExtractImage tmp_path) ;;
    grievance_text <- extract_text_from_image w tmp_path ;;
    if negb (truthy (strip grievance_text)) then
      log (EvClassify tmp_path) ;;
      category_override <- classify_image_with_gemini w tmp_path ;;
      ret (sentinel, Some category_override)
    else ret (grievance_text, None)
  else ret ("", None).

(** Lines 143-156: the base64 file of a JSON request. *)
Definition json_file_case (w : World) (data : json) : M resolved :=
  payload <- lift (py_getitem data "file") ;;
  log EvB64Decode ;;
  file_bytes <- lift (py_b64decode w payload) ;;
  declared <- lift (py_getitem data "file_type") ;;
  declared_str <- lift (as_str declared "lower") ;;
  let file_ext := lower declared_str in
  tmp_path <- named_temporary_file w ("." +:+ file_ext) ;;
  write_file tmp_path file_bytes ;;
  r <- extract_by_extension w ["pdf"; "docx"; "doc"; "txt"] file_ext tmp_path ;;
  os_remove tmp_path ;;
  ret r.

(** Lines 138-156: a JSON request whose body is [data]. *)
Definition json_case (w : World) (data : json) : M resolved :=
  has_text <- lift (py_in "text" data) ;;
  text <- (if has_text then
             v <- lift (py_getitem data "text") ;;
             s <- lift (as_str v "strip") ;;
             ret (if truthy (strip s) then Some s else None)
           else ret None) ;;
  match text with
  | Some grievance_text => ret (grievance_text, None)
  | None =>
      has_file <- lift (py_in "file" data) ;;
      has_type <- (if has_file then lift (py_in "file_type" data)
                   else ret false) ;;
      if has_type then json_file_case w data else ret ("", None)
  end.

(** Lines 160-172: a multipart request. *)
Definition multipart_case (w : World) (req : request) : M resolved :=
  match files_get "file" (files req) with
  | Some uploaded_file =>
      if truthy (filename uploaded_file) then
        tmp_path <- named_temporary_file w
                      (snd (splitext (filename uploaded_file))) ;;
        write_file tmp_path (content uploaded_file) ;;
        let ext := lower (List.last (split "." (filename uploaded_file)) "") in
        r <- extract_by_extension w ["pdf"; "docx"; "txt"] ext tmp_path ;;
        os_remove tmp_path ;;
        ret r
      else ret ("", None)
  | None => ret ("", None)
  end.

(** Lines 129-172: the shape of the request; [inl] is an early return. *)
Definition extract_content (w : World) (req : request)
  : M (response + resolved) :=
  if is_json req then
    let data := get_json req in
    if negb (json_truthy data) then
      ret (inl (with_status (jsonify (error_body "Invalid JSON")) 400))
    else
      r <- json_case w data ;;
      ret (inr r)
  else
    match files req with
    | _ :: _ =>
        r <- multipart_case w req ;;
        ret (inr r)
    | [] => ret (inr ("", None))
    end.

(** Lines 175-181: the plain text body, when no text was found so far. *)
Definition plain_text_case (w : World) (req : request) (r : resolved)
  : M resolved :=
  let '(grievance_text, category_override) := r in
  if negb (truthy grievance_text) then
    log EvDecodeBody ;;
    catch
      (decoded <- lift (utf8_decode w (data req)) ;;
       let raw_text := strip decoded in
       if truthy raw_text then ret (raw_text, category_override)
       else ret (grievance_text, category_override))
      (fun _ => ret (grievance_text, category_override))
  else ret (grievance_text, category_override).

(** Lines 190-196: sanitize the reply of the model and parse it. *)
Definition sanitize_and_parse (w : World) (result : string) : response :=
  let clean_result := sanitize result in
  match loads w clean_result with
  | Ok parsed => jsonify parsed
  | Raise e =>
      jsonify (JObj [("error", JStr "Failed to parse JSON");
                     ("raw_response", JStr clean_result);
                     ("exception", JStr (str_exn w e))])
  end.

(** Lines 183-196. *)
Definition analyze_and_respond (w : World) (r : resolved) : M response :=
  let '(grievance_text, category_override) := r in
  if negb (truthy grievance_text) then
    ret (with_status (jsonify (error_body "No text or file provided")) 400)
  else
    log (EvAnalyze grievance_text category_override) ;;
    result <- analyze_grievance w grievance_text "text" category_override ;;
    ret (sanitize_and_parse w result).

(** The body of the outer [try]. *)
Definition handle (w : World) (req : request) : M response :=
  shape <- extract_content w req ;;
  match shape with
  | inl early => ret early
  | inr r =>
      r' <- plain_text_case w req r ;;
      analyze_and_respond w r'
  end.

(** The entry point: the response and the state it leaves. *)
Definition redtape_reducer (w : World) (req : request) (st : state)
  : response * state :=
  if negb (String.eqb (method req) "POST") then
    (with_status (jsonify (error_body "Only POST allowed")) 405, st)
  else
    match handle w req st with
    | (Ok r, st') => (r, st')
    | (Raise e, st') =>
        (with_status (jsonify (error_body (str_exn w e))) 500, st')
    end.

(** *** Summaries of the helpers, used to state and prove the properties *)

Definition add_events (st : state) (evs : list event) : state :=
  {| fs := fs st; tmp_count := tmp_count st; trace := trace st ++ evs |}.

Definition res_bind {A B} (r : res A) (k : A -> res B) : res B :=
  match r with
  | Ok a => k a
  | Raise e => Raise e
  end.

(** The text that [extract_text_from_file] builds before trimming it, from
    the lower-cased path and the bytes of the file. *)
Definition untrimmed_text (w : World) (ext : string) (content : bytes)
  : res string :=
  if endswith ext ".txt" then read_text w content
  else if endswith ext ".pdf" then
    res_bind (pdf_pages w content) (fun pages => Ok (pdf_concat pages))
  else if endswith ext ".docx" then docx_text w content
  else Ok "".

Definition file_text (w : World) (ext : string) (content : bytes)
  : res string :=
  res_bind (untrimmed_text w ext content) (fun text => Ok (strip text)).

(** What [extract_text_from_image] returns on an image of these bytes. *)
Definition image_text (w : World) (content : bytes) : res string :=
  res_bind (ocr_fragments w content)
           (fun results => Ok (strip (join " " results))).

(** What [classify_image_with_gemini] returns on an image of these bytes. *)
Definition image_label (w : World) (content : bytes) : res string :=
  res_bind (generate w [Text classify_prompt; Image content])
           (fun text => Ok (strip text)).

Definition images : list string := ["jpg"; "jpeg"; "png"].

(** The outcome of [extract_by_extension] on a temporary file holding
    [content], where [lpath] is the lower-cased path. *)
Definition route (w : World) (texts : list string) (ext lpath : string)
  (content : bytes) : res resolved :=
  if mem ext texts then
    res_bind (file_text w lpath content) (fun t => Ok (t, None))
  else if mem ext images then
    res_bind (image_text w content)
      (fun t =>
         if negb (truthy (strip t)) then
           res_bind (image_label w content) (fun c => Ok (sentinel, Some c))
         else Ok (t, None))
  else Ok ("", None).

(** The calls that [extract_by_extension] makes on that file. *)
Definition route_events (w : World) (texts : list string) (ext path : string)
  (content : bytes) : list event :=
  if mem ext texts then [EvExtractFile path]
  else if mem ext images then
    EvExtractImage path ::
    match image_text w content with
    | Ok t => if negb (truthy (strip t)) then [EvClassify path] else []
    | Raise _ => []
    end
  else [].

(** The life of a temporary file in both file branches: created with
    [suffix], filled with [content], handed to [extract_by_extension] and
    removed.  [json_file_case] and [multipart_case] end with it. *)
Definition temp_section (w : World) (suffix : string) (content : bytes)
  (texts : list string) (ext : string) : M resolved :=
  tmp_path <- named_temporary_file w suffix ;;
  write_file tmp_path content ;;
  r <- extract_by_extension w texts ext tmp_path ;;
  os_remove tmp_path ;;
  ret r.

(** The state in which the extraction step of a file branch starts: after
    the calls [pre], the temporary file [path] holds [content]. *)
Definition state_stored (st : state) (pre : list event) (path : string)
  (content : bytes) : state :=
  {| fs := <[path := content]> (fs st); tmp_count := S (tmp_count st);
     trace := trace st ++ pre ++ [EvTempFile path] |}.

(** The state in which [temp_section] ends when nothing was raised:
    the file is gone. *)
Definition state_released (st : state) (path : string) (evs : list event)
  : state :=
  {| fs := delete path (fs st); tmp_count := S (tmp_count st);
     trace := trace st ++ EvTempFile path :: evs ++ [EvRemove path] |}.

(** The state in which [temp_section] ends when the extraction raised:
    the file is still there. *)
Definition state_leaked (st : state) (path : string) (content : bytes)
  (evs : list event) : state :=
  {| fs := <[path := content]> (fs st); tmp_count := S (tmp_count st);
     trace := trace st ++ EvTempFile path :: evs |}.

(** What [plain_text_case] returns, and the call it makes. *)
Definition fallback (w : World) (req : request) (r : resolved) : resolved :=
  if negb (truthy (fst r)) then
    match utf8_decode w (data req) with
    | Ok decoded =>
        if truthy (strip decoded) then (strip decoded, snd r) else r
    | Raise _ => r
    end
  else r.

Definition fallback_events (r : resolved) : list event :=
  if negb (truthy (fst r)) then [EvDecodeBody] else [].

(** The message that [analyze_grievance] sends for an input of type
    "text". *)
Definition analysis_message (w : World) (input_data : string)
  (category_override : option string) : string :=
  (instructions w
   +:+ match category_override with
       | Some c => if truthy c then category_note c else ""
       | None => ""
       end
   +:+ "

    Complaint:
    " +:+ dq +:+ dq +:+ dq +:+ input_data +:+ dq +:+ dq +:+ dq +:+ "

    ")
  +:+ nl +:+ "Grievance: " +:+ input_data.

Definition no_input : response :=
  with_status (jsonify (error_body "No text or file provided")) 400.

(** What [analyze_and_respond] returns, and the call it makes. *)
Definition outcome (w : World) (r : resolved) : res response :=
  if negb (truthy (fst r)) then Ok no_input
  else
    res_bind (generate w [Text (analysis_message w (fst r) (snd r))])
             (fun result => Ok (sanitize_and_parse w result)).

Definition outcome_events (r : resolved) : list event :=
  if negb (truthy (fst r)) then [] else [EvAnalyze (fst r) (snd r)].

(** The response that the outer [try] makes of the outcome of its body. *)
Definition finish (w : World) (x : res response) : response :=
  match x with
  | Ok r => r
  | Raise e => with_status (jsonify (error_body (str_exn w e))) 500
  end.

(** The payload returned when the reply of the model does not parse. *)
Definition parse_failure (w : World) (clean_result : string) (e : exn)
  : response :=
  {| body := JObj [("error", JStr "Failed to parse JSON");
                   ("raw_response", JStr clean_result);
                   ("exception", JStr (str_exn w e))];
     status := 200 |}.




Definition with_files (req : request) (l : list (string * upload)) : request :=
  {| method := method req; is_json := is_json req; get_json := get_json req;
     files := l; data := data req |}.

(** *** Predicates used to state the properties *)

(** The text of a JSON object is unusable: absent, or a blank [str]. *)
Definition no_text (fields : list (string * json)) : Prop :=
  lookup_field "text" fields = None
  \/ exists s, lookup_field "text" fields = Some (JStr s) /\ strip s = "".

Definition json_texts : list string := ["pdf"; "docx"; "doc"; "txt"].
Definition upload_texts : list string := ["pdf"; "docx"; "txt"].

(** The request supplies a file that can be stored: a JSON body without
    usable text whose [file] decodes and whose [file_type] is a [str], or a
    multipart part "file" with a file name, and the suffix that this gives
    the temporary file makes a file name.  [suffix], [b], [texts] and
    [ext] are what the temporary file section is run with, [pre] the calls
    made before it. *)
Definition file_shape (w : World) (req : request) (suffix : string)
  (b : bytes) (texts : list string) (ext : string) (pre : list event) : Prop :=
  temp_fault w suffix = None
  /\
  ((is_json req = true
   /\ exists fields f d,
       get_json req = JObj fields /\ no_text fields
       /\ lookup_field "file" fields = Some (JStr f) /\ b64decode w f = Ok b
       /\ lookup_field "file_type" fields = Some (JStr d)
       /\ suffix = "." +:+ lower d /\ ext = lower d
       /\ texts = json_texts /\ pre = [EvB64Decode])
  \/ (is_json req = false
      /\ exists u,
          files_get "file" (files req) = Some u /\ filename u <> ""
          /\ suffix = snd (splitext (filename u)) /\ b = content u
          /\ ext = lower (List.last (split "." (filename u)) "")
          /\ texts = upload_texts /\ pre = [])).

(** The override that a resolved pair carries comes with the sentinel. *)
Definition consistent (r : resolved) : Prop :=
  forall c, snd r = Some c -> fst r = sentinel.

(** Calls other than the analysis. *)
Definition quiet (evs : list event) : Prop :=
  forall t o, ~ In (EvAnalyze t o) evs.

End Handler.

(** ** Concrete worlds and requests, used by the examples *)

Module Scenario.
Import PyStr Json Sanitizer Handler.

Definition is_ascii (b : Byte.byte) : bool := (Byte.to_N b <? 128)%N.

(** A world in which the uploaded bytes are plain text (neither a PDF nor a
    DOCX archive), images show no legible text, and the model answers with a
    fenced JSON object. *)
Definition world : World := {|
  b64decode := fun s =>
    if String.eqb s "aGk=" then Ok (list_byte_of_string "hi")
    else Raise (Library "Incorrect padding");
  tmp_stem := fun n => "/tmp/tmp" +:+ pretty n;
  suffix_max := 244;
  read_text := fun b => Ok (string_of_list_byte b);
  pdf_pages := fun _ => Raise (Library "No /Root object! - Is this really a PDF?");
  docx_text := fun _ => Raise (Library "File is not a zip file");
  ocr_fragments := fun _ => Ok [];
  generate := fun parts =>
    match parts with
    | [Text _; Image _] => Ok "flood / water logging"
    | _ => Ok "```json
{}
```"
    end;
  utf8_decode := fun b =>
    if forallb is_ascii b then Ok (string_of_list_byte b)
    else Raise (Library "'utf-8' codec can't decode byte");
  loads := fun s =>
    if String.eqb s "{}" then Ok (JObj [])
    else Raise (Library "Expecting value: line 1 column 1 (char 0)");
  describe := fun f =>
    match f with
    | NotContainer _ => "argument is not iterable"
    | NotSubscriptable _ _ => "object is not subscriptable"
    | MissingKey k => k
    | NoAttribute _ attr => "object has no attribute " +:+ attr
    | NotBytesLike _ => "a bytes-like object is required"
    | NoSuchFile path => "No such file or directory: " +:+ path
    | EmbeddedNull => "embedded null byte"
    | CannotCreate => "No such file or directory"
    end;
  instructions := "Analyze the citizen complaint below."
|}.

(** The same world with a model that answers in prose. *)
Definition prose_world : World := {|
  b64decode := b64decode world;
  tmp_stem := tmp_stem world;
  suffix_max := suffix_max world;
  read_text := read_text world;
  pdf_pages := pdf_pages world;
  docx_text := docx_text world;
  ocr_fragments := ocr_fragments world;
  generate := fun _ => Ok "Sorry, I cannot help with that.";
  utf8_decode := utf8_decode world;
  loads := loads world;
  describe := describe world;
  instructions := instructions world
|}.

Definition start : state := {| fs := ∅; tmp_count := 0; trace := [] |}.

(** A POST request with a JSON body: [text] is the body as sent. *)
Definition json_request (text : string) (d : json) : request :=
  {| method := "POST"; is_json := true; get_json := d; files := [];
     data := list_byte_of_string text |}.

(** A POST request with one multipart file under the key "file". *)
Definition upload_request (name : string) (b : bytes) : request :=
  {| method := "POST"; is_json := false; get_json := JNull;
     files := [("file", {| filename := name; content := b |})];
     data := [] |}.

(** A POST request with a raw body only. *)
Definition raw_request (b : bytes) : request :=
  {| method := "POST"; is_json := false; get_json := JNull; files := [];
     data := b |}.

Definition q (s : string) : string := dq +:+ s +:+ dq.

(** [{"file": "aGk=", "file_type": "pdf"}] *)
Definition pdf_body : string :=
  "{" +:+ q "file" +:+ ": " +:+ q "aGk=" +:+ ", "
  +:+ q "file_type" +:+ ": " +:+ q "pdf" +:+ "}".

Definition pdf_request : request :=
  json_request pdf_body
    (JObj [("file", JStr "aGk="); ("file_type", JStr "pdf")]).

(** [{"file": "aGk=", "file_type": "doc"}] *)
Definition doc_body : string :=
  "{" +:+ q "file" +:+ ": " +:+ q "aGk=" +:+ ", "
  +:+ q "file_type" +:+ ": " +:+ q "doc" +:+ "}".

Definition doc_request : request :=
  json_request doc_body
    (JObj [("file", JStr "aGk="); ("file_type", JStr "doc")]).

(** [{"text": " ", "file": "aGk=", "file_type": "txt"}] *)
Definition blank_text_body : string :=
  "{" +:+ q "text" +:+ ": " +:+ q " " +:+ ", "
  +:+ q "file" +:+ ": " +:+ q "aGk=" +:+ ", "
  +:+ q "file_type" +:+ ": " +:+ q "txt" +:+ "}".

Definition blank_text_request : request :=
  json_request blank_text_body
    (JObj [("text", JStr " "); ("file", JStr "aGk=");
           ("file_type", JStr "txt")]).

Definition txt_state : state :=
  {| fs := {[ "/tmp/tmp0.TXT" := list_byte_of_string "  Garbage not collected
" ]};
     tmp_count := 1; trace := [] |}.

(** [{"file": "aGk="}] *)
Definition lone_file_body : string :=
  "{" +:+ q "file" +:+ ": " +:+ q "aGk=" +:+ "}".

Definition lone_file_request : request :=
  json_request lone_file_body (JObj [("file", JStr "aGk=")]).

(** [{"text": "No water supply", "file": "aGk=", "file_type": "txt"}] *)
Definition text_and_file_body : string :=
  "{" +:+ q "text" +:+ ": " +:+ q "No water supply" +:+ ", "
  +:+ q "file" +:+ ": " +:+ q "aGk=" +:+ ", "
  +:+ q "file_type" +:+ ": " +:+ q "txt" +:+ "}".

Definition text_and_file_request : request :=
  json_request text_and_file_body
    (JObj [("text", JStr "No water supply"); ("file", JStr "aGk=");
           ("file_type", JStr "txt")]).

Definition png_state : state :=
  {| fs := {[ "/tmp/tmp0.png" := list_byte_of_string "pixels" ]};
     tmp_count := 1; trace := [] |}.



End Scenario.

(** ** Answers, predicates and further requests used by the properties *)

Module Cases.
Import PyStr Json Sanitizer Handler Scenario.

(** No backtick in [s]. *)
Definition plain (s : string) : bool :=
  all_chars (fun a => negb (Ascii.eqb "`" a)) s.

Definition not_allowed : response :=
  with_status (jsonify (error_body "Only POST allowed")) 405.

Definition invalid_json : response :=
  with_status (jsonify (error_body "Invalid JSON")) 400.

Definition server_error (w : World) (e : exn) : response :=
  with_status (jsonify (error_body (str_exn w e))) 500.

(** The raw body gives no text: it does not decode, or it is blank. *)
Definition body_unusable (w : World) (req : request) : Prop :=
  forall s, utf8_decode w (data req) = Ok s -> strip s = "".

(** The request with nothing but its raw body. *)
Definition as_raw (req : request) : request :=
  {| method := method req; is_json := false; get_json := JNull; files := [];
     data := data req |}.

(** A page list of a PDF without any text. *)
Definition textless (pages : list (option string)) : Prop :=
  Forall (fun page => page = None \/ page = Some "") pages.

(** A world in which OCR finds two fragments on every image. *)
Definition scan_world : World := {|
  b64decode := b64decode world;
  tmp_stem := tmp_stem world;
  suffix_max := suffix_max world;
  read_text := read_text world;
  pdf_pages := pdf_pages world;
  docx_text := docx_text world;
  ocr_fragments := fun _ => Ok [" pothole"; "ahead "];
  generate := generate world;
  utf8_decode := utf8_decode world;
  loads := loads world;
  describe := describe world;
  instructions := instructions world
|}.

(** A world in which every PDF is a scan: its pages carry no text. *)
Definition blank_world : World := {|
  b64decode := b64decode world;
  tmp_stem := tmp_stem world;
  suffix_max := suffix_max world;
  read_text := read_text world;
  pdf_pages := fun _ => Ok [None; Some ""];
  docx_text := docx_text world;
  ocr_fragments := ocr_fragments world;
  generate := generate world;
  utf8_decode := utf8_decode world;
  loads := loads world;
  describe := describe world;
  instructions := instructions world
|}.

(** A POST request whose only multipart part is named "document". *)
Definition other_part_request : request :=
  {| method := "POST"; is_json := false; get_json := JNull;
     files := [("document", {| filename := "complaint.txt";
                               content := list_byte_of_string "Garbage" |})];
     data := list_byte_of_string " no water " |}.

(** [{"text": 5, "file": "aGk=", "file_type": "txt"}] *)
Definition number_text_request : request :=
  json_request
    ("{" +:+ q "text" +:+ ": 5, " +:+ q "file" +:+ ": " +:+ q "aGk=" +:+ ", "
     +:+ q "file_type" +:+ ": " +:+ q "txt" +:+ "}")
    (JObj [("text", JInt 5); ("file", JStr "aGk=");
           ("file_type", JStr "txt")]).

(** [{"file": "not base64", "file_type": "txt"}] *)
Definition bad_file_request : request :=
  json_request
    ("{" +:+ q "file" +:+ ": " +:+ q "not base64" +:+ ", "
     +:+ q "file_type" +:+ ": " +:+ q "txt" +:+ "}")
    (JObj [("file", JStr "not base64"); ("file_type", JStr "txt")]).

(** [{"file": "aGk=", "file_type": "x/y"}] *)
Definition slash_type_request : request :=
  json_request
    ("{" +:+ q "file" +:+ ": " +:+ q "aGk=" +:+ ", "
     +:+ q "file_type" +:+ ": " +:+ q "x/y" +:+ "}")
    (JObj [("file", JStr "aGk="); ("file_type", JStr "x/y")]).

(** The JSON body [5]. *)
Definition number_request : request := json_request "5" (JInt 5).

(** A state with files and calls of earlier requests, and no temporary name
    drawn yet. *)
Definition used_state : state :=
  {| fs := {[ "/tmp/earlier.pdf" := list_byte_of_string "Left behind" ]};
     tmp_count := 0; trace := [EvDecodeBody; EvAnalyze "Left behind" None] |}.

End Cases.

(** ** Facts about the string primitives *)

Module StrFacts.
Import PyStr.

(** The primitives on the values that Python gives. *)
Example strip_both_ends : strip "  a b  " = "a b".
Proof. reflexivity. Qed.

Example lower_mixed_case : lower "Report.PDF" = "report.pdf".
Proof. reflexivity. Qed.

Example split_keeps_empty_tail : split "." "archive.tar." = ["archive"; "tar"; ""].
Proof. reflexivity. Qed.

Example splitext_last_dot : splitext "dir.d/scan.JPG" = ("dir.d/scan", ".JPG").
Proof. reflexivity. Qed.

Example splitext_leading_dots : splitext "dir/..hidden" = ("dir/..hidden", "").
Proof. reflexivity. Qed.

Example endswith_needs_the_dot : endswith "notatxt" ".txt" = false.
Proof. reflexivity. Qed.

(** *** Appending and prefixes *)

Lemma sapp_nil_r (s : string) : s +:+ "" = s.
Proof. induction s as [|c s IH]; simpl; [reflexivity | now f_equal]. Qed.

Lemma sapp_assoc (a b c : string) : (a +:+ b) +:+ c = a +:+ b +:+ c.
Proof. induction a as [|x a IH]; simpl; [reflexivity | now f_equal]. Qed.

Lemma slength_app (a b : string) :
  String.length (a +:+ b) = String.length a + String.length b.
Proof. induction a as [|x a IH]; simpl; [reflexivity | now f_equal]. Qed.

Lemma startswith_cons (a b : ascii) (s p : string) :
  startswith (String b s) (String a p) = Ascii.eqb a b && startswith s p.
Proof. reflexivity. Qed.

Lemma startswith_nil (s : string) : startswith s "" = true.
Proof. reflexivity. Qed.

Lemma startswith_app (s t p : string) :
  startswith s p = true -> startswith (s +:+ t) p = true.
Proof.
  revert s. induction p as [|a p IH]; intros [|b s]; simpl; try easy.
  intros H. apply andb_true_iff in H as [-> H]. simpl. now apply IH.
Qed.

(** A prefix can be split off. *)
Lemma startswith_split (s p : string) :
  startswith s p = true -> s = p +:+ drop (String.length p) s.
Proof.
  revert s. induction p as [|a p IH]; intros [|b s]; simpl; try easy.
  intros H. apply andb_true_iff in H as [Hab H].
  apply Ascii.eqb_eq in Hab as ->. f_equal. now apply IH.
Qed.

Lemma startswith_self_app (p t : string) : startswith (p +:+ t) p = true.
Proof.
  induction p as [|a p IH]; simpl; [reflexivity |].
  now rewrite Ascii.eqb_refl.
Qed.

Lemma startswith_length (s p : string) :
  startswith s p = true -> String.length p <= String.length s.
Proof.
  intros H. rewrite (startswith_split _ _ H), slength_app. lia.
Qed.

Lemma drop_app_length (p t : string) : drop (String.length p) (p +:+ t) = t.
Proof. induction p as [|a p IH]; simpl; [reflexivity | exact IH]. Qed.

Lemma drop_app (n : nat) (p q : string) :
  n <= String.length p -> drop n (p +:+ q) = drop n p +:+ q.
Proof.
  revert p. induction n as [|n IH]; intros p H; [reflexivity |].
  destruct p as [|c p]; cbn [String.length] in H; [lia |].
  apply IH. lia.
Qed.

Lemma length_drop (n : nat) (s : string) :
  String.length (drop n s) = String.length s - n.
Proof.
  revert s. induction n as [|n IH]; intros [|c s]; simpl; try reflexivity.
  apply IH.
Qed.

Lemma truthy_false (s : string) : truthy s = false <-> s = "".
Proof. now destruct s. Qed.

Lemma truthy_true (s : string) : truthy s = true <-> s <> "".
Proof. now destruct s. Qed.

(** *** [strip] *)

Lemma lstrip_idem (s : string) : lstrip (lstrip s) = lstrip s.
Proof.
  induction s as [|c s IH]; simpl; [reflexivity |].
  destruct (isspace c) eqn:E; [exact IH |]. simpl. now rewrite E.
Qed.

Lemma rstrip_cons (c : ascii) (r : string) :
  rstrip (String c r) =
  if truthy (rstrip r) then String c (rstrip r)
  else if isspace c then "" else String c "".
Proof. simpl. now destruct (rstrip r). Qed.

(** The two sides are stripped independently. *)
Lemma lstrip_rstrip (s : string) : lstrip (rstrip s) = rstrip (lstrip s).
Proof.
  induction s as [|c s IH]; [reflexivity |].
  rewrite rstrip_cons. cbn [lstrip].
  destruct (isspace c) eqn:E.
  - rewrite <- IH. destruct (rstrip s) eqn:R; simpl; [reflexivity |].
    now rewrite E.
  - rewrite rstrip_cons.
    destruct (truthy (rstrip s)); simpl; now rewrite E.
Qed.

Lemma rstrip_idem (s : string) : rstrip (rstrip s) = rstrip s.
Proof.
  induction s as [|c s IH]; [reflexivity |].
  rewrite rstrip_cons.
  destruct (truthy (rstrip s)) eqn:T.
  - rewrite rstrip_cons, IH, T. reflexivity.
  - destruct (isspace c) eqn:E; [reflexivity |]. simpl. now rewrite E.
Qed.

Lemma strip_idem (s : string) : strip (strip s) = strip s.
Proof.
  unfold strip.
  now rewrite <- (lstrip_rstrip (rstrip s)), rstrip_idem, lstrip_idem.
Qed.

Lemma strip_lstrip (s : string) : strip (lstrip s) = strip s.
Proof. unfold strip. now rewrite lstrip_rstrip, lstrip_idem, <- lstrip_rstrip. Qed.

Lemma lstrip_split (s : string) :
  exists l, s = l +:+ lstrip s /\ all_chars isspace l = true.
Proof.
  induction s as [|c s (l & Hl & Hs)]; simpl.
  - now exists "".
  - destruct (isspace c) eqn:E.
    + exists (String c l). simpl. rewrite E, Hs. split; [now f_equal | reflexivity].
    + now exists "".
Qed.

Lemma rstrip_split (s : string) :
  exists r, s = rstrip s +:+ r /\ all_chars isspace r = true.
Proof.
  induction s as [|c s (r & Hr & Hs)].
  - now exists "".
  - rewrite rstrip_cons. destruct (truthy (rstrip s)) eqn:T.
    + exists r. simpl. split; [now f_equal | exact Hs].
    + destruct (rstrip s) eqn:R; [|discriminate]. simpl in Hr. subst r.
      destruct (isspace c) eqn:E.
      * exists (String c s). simpl. now rewrite E, Hs.
      * exists s. now split.
Qed.

Lemma lstrip_spaces (ws s : string) :
  all_chars isspace ws = true -> lstrip (ws +:+ s) = lstrip s.
Proof.
  induction ws as [|c ws IH]; [reflexivity |]. cbn [all_chars String.append lstrip].
  intros H. apply andb_true_iff in H as [-> H]. now apply IH.
Qed.

Lemma length_lstrip (s : string) : String.length (lstrip s) <= String.length s.
Proof.
  induction s as [|c s IH]; simpl; [lia |].
  destruct (isspace c); simpl; lia.
Qed.

Lemma lstrip_head (s : string) : is_space_opt (head_char (lstrip s)) = false.
Proof.
  induction s as [|c s IH]; [reflexivity |]. cbn [lstrip].
  destruct (isspace c) eqn:E; [exact IH | exact E].
Qed.

Lemma rstrip_last (s : string) : is_space_opt (last_char (rstrip s)) = false.
Proof.
  induction s as [|c s IH]; [reflexivity |]. rewrite rstrip_cons.
  destruct (rstrip s) as [|d r] eqn:R; cbn [truthy].
  - destruct (isspace c) eqn:E; [reflexivity | exact E].
  - exact IH.
Qed.

(** What [strip] returns has no white space at either end. *)
Lemma strip_trimmed (s : string) : trimmed (strip s) = true.
Proof.
  unfold trimmed. apply andb_true_iff. split; apply negb_true_iff.
  - apply lstrip_head.
  - unfold strip. rewrite lstrip_rstrip. apply rstrip_last.
Qed.

(** [strip] removes white space only, at both ends. *)
Lemma strip_split (s : string) :
  exists l r, s = l +:+ strip s +:+ r
              /\ all_chars isspace l = true /\ all_chars isspace r = true.
Proof.
  destruct (rstrip_split s) as (r & Hr & Hrs).
  destruct (lstrip_split (rstrip s)) as (l & Hl & Hls).
  exists l, r. split; [|now split].
  unfold strip. rewrite <- sapp_assoc, <- Hl. exact Hr.
Qed.

(** *** [lower] *)

Lemma lower_char_idem (c : ascii) : lower_char (lower_char c) = lower_char c.
Proof. destruct c as [[] [] [] [] [] [] [] []]; reflexivity. Qed.


Lemma lower_char_slash (c : ascii) :
  Ascii.eqb (lower_char c) "/" = Ascii.eqb c "/".
Proof. destruct c as [[] [] [] [] [] [] [] []]; reflexivity. Qed.

Lemma lower_idem (s : string) : lower (lower s) = lower s.
Proof.
  induction s as [|c s IH]; [reflexivity |]. cbn [lower].
  now rewrite lower_char_idem, IH.
Qed.

Lemma lower_app (a b : string) : lower (a +:+ b) = lower a +:+ lower b.
Proof.
  induction a as [|c a IH]; [reflexivity |]. cbn [lower String.append].
  now rewrite IH.
Qed.












Lemma contains_lower (c : ascii) (s : string) :
  (forall a, Ascii.eqb (lower_char a) c = Ascii.eqb a c) ->
  contains c (lower s) = contains c s.
Proof.
  intros H. unfold contains. f_equal.
  induction s as [|a s IH]; [reflexivity |]. cbn [lower all_chars].
  now rewrite H, IH.
Qed.


End StrFacts.

(** ** Facts about the sanitizer *)

Module SanitizerFacts.
Import PyStr Sanitizer StrFacts.

(** The substitution on the values that [re.sub] gives. *)
Example re_sub_two_blocks :
  re_sub "a ```json x``` b ```y``` c" = "a x b y c".
Proof. reflexivity. Qed.

Example re_sub_unclosed : re_sub "```json {}" = "```json {}".
Proof. reflexivity. Qed.

Example re_sub_leftmost : re_sub "``````a```" = "a```".
Proof. reflexivity. Qed.

Example sanitize_tagged_block :
  sanitize ("```json" +:+ String (ascii_of_nat 10) "{}"
            +:+ String (ascii_of_nat 10) "```") = "{}".
Proof. reflexivity. Qed.

(** *** The match at the head, without backtracking *)

Lemma lazy_body_unfold (s : string) :
  lazy_body s =
  if startswith s fence then Some ("", drop 3 s)
  else match s with
       | "" => None
       | String c r =>
           match lazy_body r with
           | Some (body, rest) => Some (String c body, rest)
           | None => None
           end
       end.
Proof. destruct s; reflexivity. Qed.

Lemma startswith_fence_cons (c : ascii) (r : string) :
  startswith (String c r) fence = Ascii.eqb "`" c && startswith r "``".
Proof. reflexivity. Qed.

Lemma not_fence_head (c : ascii) (r : string) :
  Ascii.eqb "`" c = false -> startswith (String c r) fence = false.
Proof. intros H. now rewrite startswith_fence_cons, H. Qed.

Lemma space_not_backtick (c : ascii) :
  isspace c = true -> Ascii.eqb "`" c = false.
Proof.
  destruct (Ascii.eqb "`" c) eqn:E; [|reflexivity].
  apply Ascii.eqb_eq in E as <-. discriminate.
Qed.

Lemma lazy_body_skip (c : ascii) (r : string) :
  Ascii.eqb "`" c = false ->
  lazy_body (String c r) =
  match lazy_body r with
  | Some (body, rest) => Some (String c body, rest)
  | None => None
  end.
Proof.
  intros H. rewrite lazy_body_unfold, not_fence_head by exact H. reflexivity.
Qed.

Lemma has_fence_skip (c : ascii) (r : string) :
  Ascii.eqb "`" c = false -> has_fence (String c r) = has_fence r.
Proof.
  intros H. unfold has_fence. rewrite lazy_body_skip by exact H.
  now destruct (lazy_body r) as [[? ?]|].
Qed.

Lemma has_fence_cons (c : ascii) (r : string) :
  has_fence r = true -> has_fence (String c r) = true.
Proof.
  unfold has_fence. rewrite (lazy_body_unfold (String c r)).
  destruct (startswith (String c r) fence); [reflexivity |].
  now destruct (lazy_body r) as [[? ?]|].
Qed.

Lemma has_fence_head (s : string) :
  startswith s fence = true -> has_fence s = true.
Proof. intros H. unfold has_fence. now rewrite lazy_body_unfold, H. Qed.

Lemma has_fence_drop (n : nat) (s : string) :
  has_fence (drop n s) = true -> has_fence s = true.
Proof.
  revert s. induction n as [|n IH]; intros [|c s]; simpl; try easy.
  intros H. apply has_fence_cons. now apply IH.
Qed.

Lemma has_fence_drop_S (n : nat) (s : string) :
  has_fence (drop (S n) s) = true -> has_fence (drop n s) = true.
Proof.
  revert s. induction n as [|n IH]; intros [|c r]; try easy.
  - apply has_fence_cons.
  - apply (IH r).
Qed.

Lemma has_fence_lstrip (s : string) : has_fence (lstrip s) = has_fence s.
Proof.
  induction s as [|c s IH]; simpl; [reflexivity |].
  destruct (isspace c) eqn:E; [|reflexivity].
  now rewrite has_fence_skip by now apply space_not_backtick.
Qed.

Lemma has_fence_app (p q : string) :
  has_fence p = true -> has_fence (p +:+ q) = true.
Proof.
  unfold has_fence. induction p as [|c p IH]; [discriminate |].
  rewrite (lazy_body_unfold (String c p)).
  rewrite (lazy_body_unfold (String c p +:+ q)).
  destruct (startswith (String c p) fence) eqn:E.
  - now rewrite (startswith_app _ q _ E).
  - destruct (startswith (String c p +:+ q) fence); [reflexivity |].
    cbn [String.append]. destruct (lazy_body p) as [[? ?]|]; [|discriminate].
    intros _. specialize (IH eq_refl).
    now destruct (lazy_body (p +:+ q)) as [[? ?]|].
Qed.

Lemma has_fence_app_r (p q : string) :
  has_fence q = true -> has_fence (p +:+ q) = true.
Proof.
  intros H. induction p as [|c p IH]; [exact H |]. now apply has_fence_cons.
Qed.

Lemma lazy_body_none (s : string) :
  lazy_body s = None <-> has_fence s = false.
Proof. unfold has_fence. now destruct (lazy_body s). Qed.

(** Giving white space back never helps: a fence does not start with white space. *)
Lemma space_star_eq (s : string) : space_star s = lazy_body (lstrip s).
Proof.
  induction s as [|c s IH]; [reflexivity |].
  cbn [space_star lstrip]. destruct (isspace c) eqn:E; [|reflexivity].
  rewrite IH. destruct (lazy_body (lstrip s)) eqn:L; [reflexivity |].
  apply lazy_body_none. rewrite has_fence_skip by now apply space_not_backtick.
  rewrite <- has_fence_lstrip. now apply lazy_body_none.
Qed.

Lemma has_fence_json (t : string) : has_fence ("json" +:+ t) = has_fence t.
Proof. simpl. now rewrite !has_fence_skip. Qed.

Lemma has_fence_skip_tag (s : string) : has_fence (skip_tag s) = has_fence s.
Proof.
  unfold skip_tag. rewrite has_fence_lstrip.
  destruct (startswith s "json") eqn:E; [|reflexivity].
  rewrite (startswith_split _ _ E) at 2. now rewrite has_fence_json.
Qed.

(** Giving the tag back never helps either. *)
Lemma opt_json_eq (s : string) : opt_json s = lazy_body (skip_tag s).
Proof.
  unfold opt_json, skip_tag. destruct (startswith s "json") eqn:E.
  - rewrite !space_star_eq.
    destruct (lazy_body (lstrip (drop 4 s))) eqn:L; [reflexivity |].
    apply lazy_body_none. rewrite has_fence_lstrip.
    rewrite (startswith_split _ _ E), has_fence_json.
    rewrite <- has_fence_lstrip. now apply lazy_body_none.
  - apply space_star_eq.
Qed.

Lemma match_here_eq (s : string) :
  match_here s =
  if startswith s fence then lazy_body (skip_tag (drop 3 s)) else None.
Proof. unfold match_here. now rewrite opt_json_eq. Qed.

(** The pattern matches at the head exactly when a fence opens there and another one follows it. *)
Lemma match_here_none (s : string) :
  match_here s = None <-> startswith s fence && has_fence (drop 3 s) = false.
Proof.
  rewrite match_here_eq. destruct (startswith s fence); simpl; [|easy].
  now rewrite lazy_body_none, has_fence_skip_tag.
Qed.

Lemma lazy_body_split (t body rest : string) :
  lazy_body t = Some (body, rest) -> t = body +:+ fence +:+ rest.
Proof.
  revert body rest. induction t as [|c t IH]; intros body rest.
  - discriminate.
  - rewrite lazy_body_unfold.
    destruct (startswith (String c t) fence) eqn:E.
    + intros [= <- <-]. apply (startswith_split _ _ E).
    + destruct (lazy_body t) as [[b r]|]; [|discriminate].
      intros [= <- <-]. simpl. f_equal. now apply IH.
Qed.

(** [has_fence] decides the occurrence of a fence. *)
Lemma has_fence_iff (s : string) :
  has_fence s = true <-> exists a b, s = a +:+ fence +:+ b.
Proof.
  split.
  - unfold has_fence. destruct (lazy_body s) as [[a b]|] eqn:L; [|discriminate].
    intros _. exists a, b. now apply lazy_body_split.
  - intros (a & b & ->). apply has_fence_app_r, has_fence_head.
    apply startswith_self_app.
Qed.

Lemma length_skip_tag (s : string) :
  String.length (skip_tag s) <= String.length s.
Proof.
  unfold skip_tag. etransitivity; [apply length_lstrip |].
  destruct (startswith s "json"); [rewrite length_drop|]; lia.
Qed.

Lemma match_here_shorter (s body rest : string) :
  match_here s = Some (body, rest) -> String.length rest < String.length s.
Proof.
  rewrite match_here_eq. destruct (startswith s fence); [|discriminate].
  intros H. apply lazy_body_split in H.
  pose proof (length_skip_tag (drop 3 s)) as L.
  rewrite H, !slength_app, length_drop in L. simpl in L. lia.
Qed.

(** *** Texts in which the pattern matches somewhere *)

Lemma matchable_unfold (s : string) :
  matchable s =
  (startswith s fence && has_fence (drop 3 s))
  || match s with "" => false | String _ r => matchable r end.
Proof. destruct s; reflexivity. Qed.

Lemma matchable_cons (c : ascii) (r : string) :
  matchable (String c r) = false -> matchable r = false.
Proof.
  rewrite matchable_unfold. intros H. now apply orb_false_iff in H as [_ H].
Qed.

Lemma matchable_skip (c : ascii) (r : string) :
  Ascii.eqb "`" c = false -> matchable (String c r) = matchable r.
Proof.
  intros H. rewrite matchable_unfold, not_fence_head by exact H. reflexivity.
Qed.

(** Every fence of [drop 3 t] for a suffix [t] of [r] lies in [drop 2 r]. *)
Lemma matchable_tail (r : string) :
  has_fence (drop 2 r) = false -> matchable r = false.
Proof.
  induction r as [|c r IH]; intros H; [reflexivity |].
  rewrite matchable_unfold. apply orb_false_iff. split.
  - apply andb_false_iff. right.
    destruct (has_fence (drop 3 (String c r))) eqn:F; [|reflexivity].
    apply has_fence_drop_S in F. congruence.
  - apply IH. destruct (has_fence (drop 2 r)) eqn:F; [|reflexivity].
    apply has_fence_drop_S in F.
    change (drop 2 (String c r)) with (drop 1 r) in H. congruence.
Qed.

Lemma has_fence_unmatchable (s : string) :
  has_fence s = false -> matchable s = false.
Proof.
  intros H. apply matchable_tail.
  destruct (has_fence (drop 2 s)) eqn:F; [|reflexivity].
  apply has_fence_drop in F. congruence.
Qed.

Lemma matchable_app (p q : string) :
  matchable (p +:+ q) = false -> matchable p = false.
Proof.
  induction p as [|c p IH]; [reflexivity |].
  rewrite (matchable_unfold (String c p)), (matchable_unfold (String c p +:+ q)).
  cbn [String.append]. intros H. apply orb_false_iff in H as [H1 H2].
  rewrite (IH H2), orb_false_r.
  destruct (startswith (String c p) fence) eqn:E; [|reflexivity].
  change (String c (p +:+ q)) with (String c p +:+ q) in H1.
  rewrite (startswith_app _ q _ E) in H1. cbn [andb] in *.
  rewrite drop_app in H1 by apply (startswith_length _ _ E).
  destruct (has_fence (drop 3 (String c p))) eqn:F; [|reflexivity].
  now rewrite (has_fence_app _ q F) in H1.
Qed.

Lemma matchable_lstrip (s : string) :
  matchable s = false -> matchable (lstrip s) = false.
Proof.
  induction s as [|c s IH]; [easy |]. intros H. cbn [lstrip].
  destruct (isspace c); [|exact H]. apply IH. exact (matchable_cons _ _ H).
Qed.

Lemma matchable_strip (s : string) :
  matchable s = false -> matchable (strip s) = false.
Proof.
  intros H. apply matchable_lstrip.
  destruct (rstrip_split s) as (r & Hr & _). rewrite Hr in H.
  exact (matchable_app _ _ H).
Qed.

(** [matchable] decides the occurrence of two fences that do not overlap. *)
Lemma matchable_iff (s : string) :
  matchable s = true <-> exists a b c, s = a +:+ fence +:+ b +:+ fence +:+ c.
Proof.
  split.
  - induction s as [|x s IH]; [discriminate |].
    rewrite matchable_unfold. intros H. apply orb_true_iff in H as [H|H].
    + apply andb_true_iff in H as [H1 H2].
      apply has_fence_iff in H2 as (b & c & H2).
      exists "", b, c. rewrite (startswith_split _ _ H1). cbn [String.length fence].
      now rewrite H2.
    + destruct (IH H) as (a & b & c & ->). now exists (String x a), b, c.
  - intros (a & b & c & ->). induction a as [|x a IH].
    + change ("" +:+ fence +:+ b +:+ fence +:+ c)
        with (fence +:+ (b +:+ fence +:+ c)).
      rewrite matchable_unfold. apply orb_true_iff. left.
      apply andb_true_iff. split; [apply startswith_self_app |].
      change (drop 3 (fence +:+ (b +:+ fence +:+ c)))
        with (b +:+ fence +:+ c).
      apply has_fence_iff. now exists b, c.
    + cbn [String.append]. rewrite matchable_unfold, IH. apply orb_true_r.
Qed.

(** *** The substitution *)

(** Without a match the substitution changes nothing, whatever the fuel. *)
Lemma sub_fuel_unmatchable (n : nat) (s : string) :
  matchable s = false -> sub_fuel n s = s.
Proof.
  revert s. induction n as [|n IH]; intros s H; [reflexivity |].
  cbn [sub_fuel]. rewrite matchable_unfold in H.
  apply orb_false_iff in H as [H1 H2].
  apply match_here_none in H1. rewrite H1.
  destruct s as [|c r]; [reflexivity |]. f_equal. now apply IH.
Qed.

(** The fuel given by [re_sub] is enough: more changes nothing. *)
Lemma sub_fuel_enough (n m : nat) (s : string) :
  String.length s < n -> String.length s < m -> sub_fuel n s = sub_fuel m s.
Proof.
  revert m s. induction n as [|n IH]; intros [|m] s Hn Hm; try lia.
  cbn [sub_fuel]. destruct (match_here s) as [[body rest]|] eqn:M.
  - pose proof (match_here_shorter _ _ _ M). f_equal. apply IH; lia.
  - destruct s as [|c r]; [reflexivity |]. simpl in Hn, Hm.
    f_equal. apply IH; lia.
Qed.

(** A text before the closing fence cannot complete a fence with what
    follows it. *)
Lemma fence_in_body (p y z : string) :
  p <> "" ->
  startswith (p +:+ fence +:+ z) fence = false ->
  startswith (p +:+ y) fence = false.
Proof.
  intros Hp. unfold fence.
  destruct p as [|a p]; [easy |]. cbn [startswith String.append].
  destruct (Ascii.eqb "`" a); cbn [andb]; [|easy].
  destruct p as [|b p]; cbn [startswith String.append].
  { rewrite !Ascii.eqb_refl. easy. }
  destruct (Ascii.eqb "`" b); cbn [andb]; [|easy].
  destruct p as [|c p]; cbn [startswith String.append]; [|easy].
  rewrite !Ascii.eqb_refl. easy.
Qed.

(** Group 2 cannot complete a match with the text that follows it in the output. *)
Lemma body_clean (t body rest y : string) :
  lazy_body t = Some (body, rest) -> matchable (body +:+ y) = matchable y.
Proof.
  revert body rest. induction t as [|c t IH]; intros body rest.
  - discriminate.
  - rewrite lazy_body_unfold.
    destruct (startswith (String c t) fence) eqn:E.
    + now intros [= <- <-].
    + destruct (lazy_body t) as [[b r]|] eqn:L; [|discriminate].
      intros [= <- <-]. cbn [String.append].
      rewrite matchable_unfold, (IH b r eq_refl).
      rewrite (lazy_body_split _ _ _ L) in E.
      change (String c (b +:+ y)) with (String c b +:+ y).
      rewrite (fence_in_body (String c b) y r); [reflexivity | easy | exact E].
Qed.

Lemma sub_fuel_no_fence (n : nat) (a : ascii) (r : string) :
  startswith (String a r) fence = false ->
  sub_fuel (S n) (String a r) = String a (sub_fuel n r).
Proof. intros H. cbn [sub_fuel]. unfold match_here. now rewrite H. Qed.

(** A leading backtick of the output was there in the input. *)
Lemma sub_fuel_head1 (n : nat) (r : string) :
  startswith r "`" = false -> startswith (sub_fuel n r) "`" = false.
Proof.
  intros H. destruct n as [|n]; [exact H |].
  destruct r as [|a r]; [reflexivity |].
  rewrite startswith_cons, startswith_nil, andb_true_r in H.
  rewrite sub_fuel_no_fence by now apply not_fence_head.
  now rewrite startswith_cons, H.
Qed.

(** Two leading backticks of the output were there in the input. *)
Lemma sub_fuel_head (n : nat) (r : string) :
  startswith r "``" = false -> startswith (sub_fuel n r) "``" = false.
Proof.
  intros H. destruct n as [|n]; [exact H |].
  destruct r as [|a r]; [reflexivity |].
  rewrite startswith_cons in H.
  rewrite sub_fuel_no_fence
    by (rewrite startswith_fence_cons;
        destruct (Ascii.eqb "`" a); [|reflexivity];
        destruct r as [|b r]; [reflexivity |];
        rewrite !startswith_cons in *;
        destruct (Ascii.eqb "`" b); [discriminate | reflexivity]).
  rewrite startswith_cons.
  destruct (Ascii.eqb "`" a); [|reflexivity].
  now rewrite sub_fuel_head1.
Qed.

(** The output of the substitution holds no match. *)
Lemma sub_fuel_clean (n : nat) (s : string) :
  String.length s < n -> matchable (sub_fuel n s) = false.
Proof.
  revert s. induction n as [|n IH]; intros s Hn; [lia |].
  cbn [sub_fuel]. destruct (match_here s) as [[body rest]|] eqn:M.
  - pose proof (match_here_shorter _ _ _ M) as L.
    rewrite match_here_eq in M.
    destruct (startswith s fence); [|discriminate].
    rewrite (body_clean _ _ _ _ M). apply IH. lia.
  - destruct s as [|c r]; [reflexivity |].
    apply match_here_none in M. simpl in Hn.
    destruct (Ascii.eqb "`" c) eqn:C.
    + destruct (startswith r "``") eqn:R.
      * (* the head opens a fence that nothing closes: no match further on *)
        rewrite startswith_fence_cons, C, R in M. simpl in M.
        pose proof (matchable_tail r M) as T.
        rewrite (sub_fuel_unmatchable n r T).
        rewrite matchable_unfold, startswith_fence_cons, C, R, T. simpl.
        now rewrite M.
      * rewrite matchable_unfold, startswith_fence_cons.
        rewrite (sub_fuel_head n r R), andb_false_r. simpl. apply IH. lia.
    + rewrite matchable_skip by exact C. apply IH. lia.
Qed.

Lemma re_sub_clean (s : string) : matchable (re_sub s) = false.
Proof. apply sub_fuel_clean. lia. Qed.

Lemma re_sub_unmatchable (s : string) : matchable s = false -> re_sub s = s.
Proof. apply sub_fuel_unmatchable. Qed.

(** *** [sanitize] *)

(** Sanitizing twice is sanitizing once. *)
Lemma sanitize_idempotent (x : string) : sanitize (sanitize x) = sanitize x.
Proof.
  unfold sanitize.
  rewrite (re_sub_unmatchable (strip (re_sub x)))
    by apply matchable_strip, re_sub_clean.
  apply strip_idem.
Qed.

(** Without a pair of fences the text is only trimmed. *)
Lemma sanitize_unfenced (x : string) :
  matchable x = false -> sanitize x = strip x.
Proof. intros H. unfold sanitize. now rewrite re_sub_unmatchable. Qed.

Lemma lstrip_app_fence (c s : string) :
  lstrip (c +:+ fence +:+ s) = lstrip c +:+ fence +:+ s.
Proof.
  induction c as [|a c IH]; [reflexivity |]. cbn [String.append lstrip].
  now destruct (isspace a).
Qed.

(** The closing fence of a payload without fence: the match ends there, up
    to the backticks that end the payload. *)
Lemma lazy_body_closing (c s : string) :
  has_fence c = false ->
  exists body rest,
    lazy_body (c +:+ fence +:+ s) = Some (body, rest +:+ s)
    /\ body +:+ rest = c.
Proof.
  induction c as [|a c IH]; intros H.
  - exists "", "". split; reflexivity.
  - assert (startswith (String a c) fence = false) as Hs.
    { destruct (startswith (String a c) fence) eqn:E; [|reflexivity].
      apply has_fence_head in E. congruence. }
    assert (has_fence c = false) as Hc.
    { destruct (has_fence c) eqn:E; [|reflexivity].
      apply (has_fence_cons a) in E. congruence. }
    destruct (IH Hc) as (body & rest & Hb & Hr).
    rewrite lazy_body_unfold.
    destruct (startswith (String a c +:+ fence +:+ s) fence) eqn:E.
    + exists "", (String a c). split; [|reflexivity]. f_equal. f_equal.
      revert E Hs. unfold fence. cbn [String.append].
      rewrite !startswith_cons.
      destruct (Ascii.eqb_spec "`" a) as [<-|]; [|discriminate].
      cbn [andb]. destruct c as [|b c]; [reflexivity |].
      cbn [String.append]. rewrite !startswith_cons.
      destruct (Ascii.eqb_spec "`" b) as [<-|]; [|discriminate].
      cbn [andb]. destruct c as [|d c]; [reflexivity |].
      cbn [String.append]. rewrite !startswith_cons, !startswith_nil.
      intros ->. discriminate.
    + exists (String a body), rest. cbn [String.append]. rewrite Hb.
      split; [reflexivity | now f_equal].
Qed.

Lemma startswith_json_fence (p s : string) :
  startswith (p +:+ fence +:+ s) "json" = true -> startswith p "json" = true.
Proof.
  unfold fence.
  destruct p as [|a [|b [|c [|d p]]]]; cbn [String.append];
    rewrite ?startswith_cons, ?startswith_nil;
    repeat match goal with
      | |- context [Ascii.eqb ?x "`"] =>
          change (Ascii.eqb x "`") with false
      end;
    rewrite ?andb_false_r, ?andb_false_l; easy.
Qed.

(** A wrapper without tag or with the tag json is removed. *)
Lemma sanitize_fenced (tag ws c : string) :
  tag = "json" \/ (tag = "" /\ startswith (ws +:+ c) "json" = false) ->
  all_chars isspace ws = true ->
  has_fence c = false ->
  sanitize (fence +:+ tag +:+ ws +:+ c +:+ fence) = strip c.
Proof.
  intros Htag Hws Hc.
  assert (skip_tag (tag +:+ ws +:+ c +:+ fence) = lstrip c +:+ fence) as Hskip.
  { unfold skip_tag. destruct Htag as [-> | [-> Hj]].
    - rewrite startswith_self_app.
      change (drop 4 ("json" +:+ ws +:+ c +:+ fence)) with (ws +:+ c +:+ fence).
      rewrite lstrip_spaces by exact Hws.
      rewrite <- (sapp_nil_r fence) at 1. rewrite lstrip_app_fence.
      now rewrite sapp_nil_r.
    - cbn [String.append].
      destruct (startswith (ws +:+ c +:+ fence) "json") eqn:E.
      + rewrite <- sapp_assoc, <- (sapp_nil_r fence) in E.
        apply startswith_json_fence in E. congruence.
      + rewrite lstrip_spaces by exact Hws.
        rewrite <- (sapp_nil_r fence) at 1. rewrite lstrip_app_fence.
        now rewrite sapp_nil_r. }
  assert (has_fence (lstrip c) = false) as Hl
    by now rewrite has_fence_lstrip.
  destruct (lazy_body_closing (lstrip c) "" Hl) as (body & rest & Hb & Hr).
  rewrite !sapp_nil_r in Hb.
  unfold sanitize, re_sub. cbn [sub_fuel].
  rewrite match_here_eq, startswith_self_app.
  change (drop 3 (fence +:+ tag +:+ ws +:+ c +:+ fence))
    with (tag +:+ ws +:+ c +:+ fence).
  rewrite Hskip, Hb.
  rewrite sub_fuel_unmatchable.
  - rewrite Hr. apply strip_lstrip.
  - apply has_fence_unmatchable.
    destruct (has_fence rest) eqn:F; [|reflexivity].
    apply (has_fence_app_r body) in F. congruence.
Qed.

End SanitizerFacts.

(** ** Facts about the handler *)

Module HandlerFacts.
Import PyStr Json Sanitizer Handler Scenario StrFacts SanitizerFacts.

(** *** Runs of the helpers *)

Lemma add_events_nil (st : state) : add_events st [] = st.
Proof. destruct st. unfold add_events. simpl. now rewrite app_nil_r. Qed.

Lemma add_events_app (st : state) (l1 l2 : list event) :
  add_events (add_events st l1) l2 = add_events st (l1 ++ l2).
Proof. unfold add_events. simpl. now rewrite app_assoc. Qed.

(** The laws of the monad, state by state. *)
Lemma bind_ret_l {A B} (a : A) (k : A -> M B) (st : state) :
  bind (ret a) k st = k a st.
Proof. reflexivity. Qed.

Lemma bind_ret_r {A} (m : M A) (st : state) : bind m ret st = m st.
Proof. unfold bind, ret. now destruct (m st) as [[a|e] st']. Qed.

Lemma bind_assoc {A B C} (m : M A) (k : A -> M B) (h : B -> M C) (st : state) :
  bind (bind m k) h st = bind m (fun a => bind (k a) h) st.
Proof. unfold bind. now destruct (m st) as [[a|e] st']. Qed.

(** An exception skips what follows it, up to the handler that catches it. *)
Lemma bind_raise {A B} (e : exn) (k : A -> M B) (st : state) :
  bind (raise e) k st = (Raise e, st).
Proof. reflexivity. Qed.

Lemma catch_raise {A} (e : exn) (h : exn -> M A) (st : state) :
  catch (raise e) h st = h e st.
Proof. reflexivity. Qed.

Lemma log_run (e : event) (st : state) : log e st = (Ok tt, add_events st [e]).
Proof. reflexivity. Qed.

Ltac run := unfold bind, ret, lift, raise, catch, read_file, res_bind in *.

(** Traces are compared with the appends associated to the right. *)
Ltac norm_trace := repeat (progress (rewrite <- ?app_assoc; cbn [app])).

(** On an existing file the helpers compute their summaries and leave the state alone. *)
Lemma extract_text_from_file_run (w : World) (p : string) (b : bytes) (st : state) :
  fs st !! p = Some b ->
  extract_text_from_file w p st = (file_text w (lower p) b, st).
Proof.
  intros H. unfold extract_text_from_file, file_text, untrimmed_text. run.
  destruct (endswith (lower p) ".txt");
    [rewrite H; now destruct (read_text w b) |].
  destruct (endswith (lower p) ".pdf");
    [rewrite H; now destruct (pdf_pages w b) |].
  destruct (endswith (lower p) ".docx");
    [rewrite H; now destruct (docx_text w b) |].
  reflexivity.
Qed.

Lemma extract_text_other (w : World) (path : string) (st : state) :
  endswith (lower path) ".txt" = false ->
  endswith (lower path) ".pdf" = false ->
  endswith (lower path) ".docx" = false ->
  extract_text_from_file w path st = (Ok "", st).
Proof.
  intros H1 H2 H3. unfold extract_text_from_file. now rewrite H1, H2, H3.
Qed.

Lemma extract_text_from_image_run (w : World) (p : string) (b : bytes) (st : state) :
  fs st !! p = Some b ->
  extract_text_from_image w p st = (image_text w b, st).
Proof.
  intros H. unfold extract_text_from_image, image_text. run. rewrite H.
  now destruct (ocr_fragments w b).
Qed.

Lemma classify_image_run (w : World) (p : string) (b : bytes) (st : state) :
  fs st !! p = Some b ->
  classify_image_with_gemini w p st = (image_label w b, st).
Proof.
  intros H. unfold classify_image_with_gemini, image_label. run. rewrite H.
  now destruct (generate w _).
Qed.

(** The branch on the extension: its outcome and the calls it makes. *)
Lemma extract_by_extension_run (w : World) (texts : list string)
  (ext p : string) (b : bytes) (st : state) :
  fs st !! p = Some b ->
  extract_by_extension w texts ext p st =
  (route w texts ext (lower p) b,
   add_events st (route_events w texts ext p b)).
Proof.
  intros H. unfold extract_by_extension, route, route_events.
  destruct (mem ext texts).
  - unfold bind at 1. rewrite log_run. unfold bind at 1.
    rewrite extract_text_from_file_run with (b := b) by exact H.
    now destruct (file_text w (lower p) b).
  - fold images. destruct (mem ext images).
    + unfold bind at 1. rewrite log_run. unfold bind at 1.
      rewrite extract_text_from_image_run with (b := b) by exact H.
      destruct (image_text w b) as [t|e]; [|reflexivity]. cbn [res_bind].
      destruct (negb (truthy (strip t))).
      * unfold bind at 1. rewrite log_run. unfold bind at 1.
        rewrite classify_image_run with (b := b) by exact H.
        rewrite add_events_app.
        now destruct (image_label w b).
      * reflexivity.
    + unfold ret. now rewrite add_events_nil.
Qed.

(** The extraction step of the temporary file section runs in
    [state_stored]. *)
Lemma temp_section_stored (w : World) (suffix : string) (b : bytes)
  (texts : list string) (ext : string) (st : state) (pre : list event) :
  let p := tmp_stem w (tmp_count st) +:+ suffix in
  temp_fault w suffix = None ->
  temp_section w suffix b texts ext (add_events st pre)
  = (r <- extract_by_extension w texts ext p ;;
     os_remove p ;;
     ret r) (state_stored st pre p b).
Proof.
  intros p Hv. unfold temp_section.
  unfold bind at 1. unfold named_temporary_file at 1. rewrite Hv.
  cbn [add_events fs tmp_count trace]. fold p.
  unfold bind at 1. unfold write_file at 1. cbn [fs tmp_count trace].
  rewrite insert_insert_eq, <- app_assoc. reflexivity.
Qed.

(** The extraction step on the stored file returns what [route] says. *)
Lemma stored_route (w : World) (texts : list string) (ext p : string)
  (b : bytes) (st : state) (pre : list event) :
  fst (extract_by_extension w texts ext p (state_stored st pre p b))
  = route w texts ext (lower p) b.
Proof.
  rewrite extract_by_extension_run with (b := b); [reflexivity |].
  apply lookup_insert_eq.
Qed.

(** The helpers read the file system and leave the state alone. *)
Lemma extract_text_from_file_state (w : World) (p : string) (st : state) :
  snd (extract_text_from_file w p st) = st.
Proof.
  unfold extract_text_from_file, bind, lift, ret, read_file.
  destruct (endswith (lower p) ".txt");
    [destruct (fs st !! p) as [b|]; [now destruct (read_text w b) | reflexivity] |].
  destruct (endswith (lower p) ".pdf");
    [destruct (fs st !! p) as [b|]; [now destruct (pdf_pages w b) | reflexivity] |].
  destruct (endswith (lower p) ".docx");
    [destruct (fs st !! p) as [b|]; [now destruct (docx_text w b) | reflexivity] |].
  reflexivity.
Qed.

Lemma extract_text_from_image_state (w : World) (p : string) (st : state) :
  snd (extract_text_from_image w p st) = st.
Proof.
  unfold extract_text_from_image, bind, lift, ret, read_file.
  destruct (fs st !! p) as [b|]; [now destruct (ocr_fragments w b) | reflexivity].
Qed.

Lemma classify_image_state (w : World) (p : string) (st : state) :
  snd (classify_image_with_gemini w p st) = st.
Proof.
  unfold classify_image_with_gemini, bind, lift, ret, read_file.
  destruct (fs st !! p) as [b|]; [now destruct (generate w _) | reflexivity].
Qed.

(** The calls of the branch on the extension, whatever the file system
    holds. *)
Lemma extract_by_extension_calls (w : World) (texts : list string)
  (ext p : string) (st : state) :
  (mem ext texts = true ->
   snd (extract_by_extension w texts ext p st) = add_events st [EvExtractFile p])
  /\ (mem ext texts = false -> mem ext images = true ->
      exists evs,
        snd (extract_by_extension w texts ext p st)
        = add_events st (EvExtractImage p :: evs)
        /\ (evs = [] \/ evs = [EvClassify p]))
  /\ (mem ext texts = false -> mem ext images = false ->
      extract_by_extension w texts ext p st = (Ok ("", None), st)).
Proof.
  unfold extract_by_extension. fold images. repeat split.
  - intros ->. unfold bind at 1. rewrite log_run. unfold bind, ret.
    pose proof (extract_text_from_file_state w p (add_events st [EvExtractFile p])) as H.
    destruct (extract_text_from_file w p _) as [[t|e] st']; exact H.
  - intros -> ->. unfold bind at 1. rewrite log_run. unfold bind at 1.
    pose proof (extract_text_from_image_state w p
                  (add_events st [EvExtractImage p])) as H.
    destruct (extract_text_from_image w p _) as [[t|e] st']; cbn [snd] in H;
      subst st'; [|exists []; split; [reflexivity | now left]].
    destruct (negb (truthy (strip t)));
      [|exists []; split; [reflexivity | now left]].
    exists [EvClassify p]. split; [|now right].
    unfold bind at 1. rewrite log_run, add_events_app. unfold bind, ret.
    pose proof (classify_image_state w p
                  (add_events st ([EvExtractImage p] ++ [EvClassify p]))) as H.
    destruct (classify_image_with_gemini w p _) as [[c|e] st']; exact H.
  - now intros -> ->.
Qed.

(** The temporary file section: the file is removed when the extraction returns and left behind when it raises. *)
Lemma temp_section_run (w : World) (suffix : string) (b : bytes)
  (texts : list string) (ext : string) (st : state) :
  let p := tmp_stem w (tmp_count st) +:+ suffix in
  let evs := route_events w texts ext p b in
  temp_section w suffix b texts ext st =
  match temp_fault w suffix with
  | Some f => (Raise (Builtin f), st)
  | None =>
      match route w texts ext (lower p) b with
      | Ok r => (Ok r, state_released st p evs)
      | Raise e => (Raise e, state_leaked st p b evs)
      end
  end.
Proof.
  intros p evs. unfold temp_section.
  unfold bind at 1. unfold named_temporary_file at 1.
  destruct (temp_fault w suffix) as [f|]; [reflexivity |]. fold p.
  unfold bind at 1. unfold write_file at 1. cbn [fs tmp_count trace].
  unfold bind at 1.
  rewrite extract_by_extension_run with (b := b)
    by (cbn [fs]; apply lookup_insert_eq).
  fold evs. destruct (route w texts ext (lower p) b) as [r|e].
  - unfold bind, os_remove, ret, add_events. cbn [fs tmp_count trace].
    rewrite lookup_insert_eq, insert_insert_eq, delete_insert_eq.
    unfold state_released. do 2 f_equal.
    rewrite <- !app_assoc. reflexivity.
  - unfold add_events, state_leaked. cbn [fs tmp_count trace].
    rewrite insert_insert_eq. do 2 f_equal.
    rewrite <- !app_assoc. reflexivity.
Qed.

Lemma plain_text_case_run (w : World) (req : request) (r : resolved) (st : state) :
  plain_text_case w req r st =
  (Ok (fallback w req r), add_events st (fallback_events r)).
Proof.
  destruct r as [t o]. unfold plain_text_case, fallback, fallback_events.
  cbn [fst snd]. destruct (negb (truthy t)).
  - unfold bind at 1. rewrite log_run. unfold catch, bind, lift, ret.
    destruct (utf8_decode w (data req)) as [d|e]; [|reflexivity].
    now destruct (truthy (strip d)).
  - unfold ret. now rewrite add_events_nil.
Qed.

Lemma analyze_grievance_text (w : World) (t : string) (o : option string) (st : state) :
  analyze_grievance w t "text" o st =
  (generate w [Text (analysis_message w t o)], st).
Proof. reflexivity. Qed.

Lemma analyze_and_respond_run (w : World) (r : resolved) (st : state) :
  analyze_and_respond w r st =
  (outcome w r, add_events st (outcome_events r)).
Proof.
  destruct r as [t o]. unfold analyze_and_respond, outcome, outcome_events.
  cbn [fst snd]. destruct (negb (truthy t)).
  - unfold ret. now rewrite add_events_nil.
  - unfold bind at 1. rewrite log_run. unfold bind.
    rewrite analyze_grievance_text. unfold ret.
    now destruct (generate w _).
Qed.

(** The body of the outer [try], from the outcome of the shape resolution on. *)
Lemma handle_run (w : World) (req : request) (st : state) :
  handle w req st =
  match extract_content w req st with
  | (Ok (inl early), st1) => (Ok early, st1)
  | (Ok (inr r), st1) =>
      (outcome w (fallback w req r),
       add_events st1 (fallback_events r ++ outcome_events (fallback w req r)))
  | (Raise e, st1) => (Raise e, st1)
  end.
Proof.
  unfold handle. unfold bind at 1.
  destruct (extract_content w req st) as [[[early|r]|e] st1]; try reflexivity.
  unfold bind. rewrite plain_text_case_run, analyze_and_respond_run.
  now rewrite add_events_app.
Qed.

Lemma redtape_reducer_post (w : World) (req : request) (st : state) :
  method req = "POST" ->
  redtape_reducer w req st =
  (finish w (fst (handle w req st)), snd (handle w req st)).
Proof.
  intros H. unfold redtape_reducer. rewrite H. cbn [String.eqb negb].
  simpl. now destruct (handle w req st) as [[r|e] st'].
Qed.

(** The run of a POST request whose shape resolution returned a pair. *)
Lemma redtape_reducer_resolved (w : World) (req : request) (st st1 : state)
  (r : resolved) :
  method req = "POST" ->
  extract_content w req st = (Ok (inr r), st1) ->
  redtape_reducer w req st =
  (finish w (outcome w (fallback w req r)),
   add_events st1 (fallback_events r ++ outcome_events (fallback w req r))).
Proof.
  intros Hm H. rewrite redtape_reducer_post by exact Hm.
  rewrite handle_run, H. reflexivity.
Qed.

Lemma fallback_text (w : World) (req : request) (r : resolved) :
  fst r <> "" -> fallback w req r = r /\ fallback_events r = [].
Proof.
  intros H. apply truthy_true in H. unfold fallback, fallback_events.
  now rewrite H.
Qed.

(** *** JSON requests *)

(** A text with a character that is not white space is taken as it is. *)
Lemma json_case_text (w : World) (fields : list (string * json)) (t : string)
  (st : state) :
  lookup_field "text" fields = Some (JStr t) ->
  strip t <> "" ->
  json_case w (JObj fields) st = (Ok (t, None), st).
Proof.
  intros H Ht. apply truthy_true in Ht.
  unfold json_case, bind, lift, ret, py_in, py_getitem, as_str.
  now rewrite H, Ht.
Qed.

(** Without usable text the two file keys decide. *)
Lemma json_case_no_text (w : World) (fields : list (string * json)) (st : state) :
  no_text fields ->
  json_case w (JObj fields) st =
  match lookup_field "file" fields, lookup_field "file_type" fields with
  | Some _, Some _ => json_file_case w (JObj fields) st
  | _, _ => (Ok ("", None), st)
  end.
Proof.
  intros [H | (s & H & Hs)]; apply truthy_false in Hs || idtac;
    unfold json_case, bind, lift, ret, py_in, py_getitem, as_str;
    rewrite H; try rewrite Hs;
    destruct (lookup_field "file" fields); try reflexivity;
    destruct (lookup_field "file_type" fields); reflexivity.
Qed.

(** When one of the file keys is missing the state does not change. *)
Lemma json_case_untouched (w : World) (fields : list (string * json)) (st : state) :
  lookup_field "file" fields = None \/ lookup_field "file_type" fields = None ->
  snd (json_case w (JObj fields) st) = st.
Proof.
  intros H.
  unfold json_case, bind, lift, ret, py_in, py_getitem, as_str.
  destruct (lookup_field "text" fields) as [v|].
  - destruct v; try reflexivity.
    destruct (truthy (strip s)); [reflexivity |].
    destruct H as [-> | H]; [reflexivity |]. rewrite H.
    now destruct (lookup_field "file" fields).
  - destruct H as [-> | H]; [reflexivity |]. rewrite H.
    now destruct (lookup_field "file" fields).
Qed.

Lemma extract_content_json (w : World) (req : request) (st : state) :
  is_json req = true ->
  json_truthy (get_json req) = true ->
  extract_content w req st =
  match json_case w (get_json req) st with
  | (Ok r, st1) => (Ok (inr r), st1)
  | (Raise e, st1) => (Raise e, st1)
  end.
Proof.
  intros H1 H2. unfold extract_content. rewrite H1, H2. reflexivity.
Qed.

Lemma json_file_case_run (w : World) (fields : list (string * json))
  (f d : string) (b : bytes) (st : state) :
  lookup_field "file" fields = Some (JStr f) ->
  b64decode w f = Ok b ->
  lookup_field "file_type" fields = Some (JStr d) ->
  json_file_case w (JObj fields) st =
  temp_section w ("." +:+ lower d) b json_texts (lower d)
               (add_events st [EvB64Decode]).
Proof.
  intros Hf Hb Hd. unfold json_file_case.
  unfold bind at 1. unfold lift at 1. unfold py_getitem at 1. rewrite Hf.
  unfold bind at 1. rewrite log_run.
  unfold bind at 1. unfold lift at 1. unfold py_b64decode. rewrite Hb.
  unfold bind at 1. unfold lift at 1. unfold py_getitem at 1. rewrite Hd.
  unfold bind at 1. unfold lift at 1. unfold as_str.
  reflexivity.
Qed.

(** Every way in which [json_file_case] ends. *)
Lemma json_file_case_cases (w : World) (d : json) (st : state) :
  (exists e pre,
      json_file_case w d st = (Raise e, add_events st pre)
      /\ (pre = [] \/ pre = [EvB64Decode]))
  \/ exists suffix b ext,
      json_file_case w d st =
      temp_section w suffix b json_texts ext (add_events st [EvB64Decode]).
Proof.
  unfold json_file_case, bind, lift, log. fold (add_events st [EvB64Decode]).
  destruct (py_getitem d "file") as [payload|e];
    [|left; exists e, []; rewrite add_events_nil; split; [reflexivity | now left]].
  destruct (py_b64decode w payload) as [b|e];
    [|left; exists e, [EvB64Decode]; split; [reflexivity | now right]].
  destruct (py_getitem d "file_type") as [declared|e];
    [|left; exists e, [EvB64Decode]; split; [reflexivity | now right]].
  destruct (as_str declared "lower") as [ds|e];
    [|left; exists e, [EvB64Decode]; split; [reflexivity | now right]].
  right. exists ("." +:+ lower ds), b, (lower ds). reflexivity.
Qed.

(** Every way in which [json_case] ends. *)
Lemma json_case_cases (w : World) (d : json) (st : state) :
  (exists s, json_case w d st = (Ok (s, None), st))
  \/ (exists e, json_case w d st = (Raise e, st))
  \/ json_case w d st = json_file_case w d st.
Proof.
  unfold json_case, bind, lift, ret.
  destruct (py_in "text" d) as [[|]|?];
    [destruct (py_getitem d "text") as [v|?];
       [destruct (as_str v "strip") as [s|?];
          [destruct (truthy (strip s)) |] |] | |];
    try solve [left; eexists; reflexivity | right; left; eexists; reflexivity];
    (destruct (py_in "file" d) as [[|]|?];
       [destruct (py_in "file_type" d) as [[|]|?] | |];
     solve [left; eexists; reflexivity | right; left; eexists; reflexivity
           | right; right; reflexivity]).
Qed.





(** *** Uploads, and requests of file shape *)

Lemma multipart_case_run (w : World) (req : request) (u : upload) (st : state) :
  files_get "file" (files req) = Some u ->
  filename u <> "" ->
  multipart_case w req st =
  temp_section w (snd (splitext (filename u))) (content u) upload_texts
               (lower (List.last (split "." (filename u)) "")) st.
Proof.
  intros Hu Hn. apply truthy_true in Hn. unfold multipart_case.
  rewrite Hu, Hn. reflexivity.
Qed.

Lemma extract_content_multipart (w : World) (req : request) (st : state) :
  is_json req = false ->
  files req <> [] ->
  extract_content w req st =
  match multipart_case w req st with
  | (Ok r, st1) => (Ok (inr r), st1)
  | (Raise e, st1) => (Raise e, st1)
  end.
Proof.
  intros H1 H2. unfold extract_content. rewrite H1.
  destruct (files req); [easy | reflexivity].
Qed.

(** A request of file shape runs the temporary file section. *)
Lemma extract_content_file_shape (w : World) (req : request) (st : state)
  (suffix : string) (b : bytes) (texts : list string) (ext : string)
  (pre : list event) :
  file_shape w req suffix b texts ext pre ->
  extract_content w req st =
  match temp_section w suffix b texts ext (add_events st pre) with
  | (Ok r, st1) => (Ok (inr r), st1)
  | (Raise e, st1) => (Raise e, st1)
  end.
Proof.
  intros (_ & [(Hj & fields & f & d & Hd & Ht & Hf & Hb & Hty & -> & -> & -> & ->)
              |(Hj & u & Hu & Hn & -> & -> & -> & -> & ->)]).
  - rewrite extract_content_json;
      [| exact Hj | rewrite Hd; destruct fields; [discriminate | reflexivity]].
    rewrite Hd, json_case_no_text by exact Ht. rewrite Hf, Hty.
    now rewrite (json_file_case_run w fields f d b st Hf Hb Hty).
  - rewrite extract_content_multipart;
      [| exact Hj | destruct (files req); [discriminate | easy]].
    rewrite (multipart_case_run w req u st Hu Hn). now rewrite add_events_nil.
Qed.

(** The run of a request of file shape, up to the plain text case. *)
Lemma file_shape_run (w : World) (req : request) (st : state)
  (suffix : string) (b : bytes) (texts : list string) (ext : string)
  (pre : list event) :
  file_shape w req suffix b texts ext pre ->
  let st0 := add_events st pre in
  let p := tmp_stem w (tmp_count st) +:+ suffix in
  let evs := route_events w texts ext p b in
  extract_content w req st =
  match route w texts ext (lower p) b with
  | Ok r => (Ok (inr r), state_released st0 p evs)
  | Raise e => (Raise e, state_leaked st0 p b evs)
  end.
Proof.
  intros H st0 p evs. rewrite (extract_content_file_shape _ _ _ _ _ _ _ _ H).
  fold st0. rewrite temp_section_run, (proj1 H).
  change (tmp_count st0) with (tmp_count st). fold p evs.
  now destruct (route w texts ext (lower p) b).
Qed.

(** The run of a multipart request whose part "file" has a name. *)
Lemma upload_run (w : World) (req : request) (u : upload) (st : state) :
  method req = "POST" ->
  is_json req = false ->
  files_get "file" (files req) = Some u ->
  filename u <> "" ->
  let suffix := snd (splitext (filename u)) in
  let ext := lower (List.last (split "." (filename u)) "") in
  let p := tmp_stem w (tmp_count st) +:+ suffix in
  let evs := route_events w upload_texts ext p (content u) in
  redtape_reducer w req st =
  match temp_fault w suffix with
  | Some f =>
      (with_status (jsonify (error_body (str_exn w (Builtin f)))) 500, st)
  | None =>
      match route w upload_texts ext (lower p) (content u) with
      | Ok r =>
          (finish w (outcome w (fallback w req r)),
           add_events (state_released st p evs)
             (fallback_events r ++ outcome_events (fallback w req r)))
      | Raise e =>
          (with_status (jsonify (error_body (str_exn w e))) 500,
           state_leaked st p (content u) evs)
      end
  end.
Proof.
  intros Hm Hj Hu Hn suffix ext p evs.
  rewrite redtape_reducer_post by exact Hm. rewrite handle_run.
  rewrite extract_content_multipart;
    [| exact Hj | destruct (files req); [discriminate | easy]].
  rewrite (multipart_case_run w req u st Hu Hn), temp_section_run.
  fold suffix ext p evs.
  destruct (temp_fault w suffix); [reflexivity |].
  now destruct (route w upload_texts ext (lower p) (content u)).
Qed.




(** *** What the resolved pair and the trace can be *)

Lemma images_not_texts (texts : list string) (ext : string) :
  texts = json_texts \/ texts = upload_texts ->
  mem ext images = true -> mem ext texts = false.
Proof.
  intros Ht H. unfold mem, images in H. cbn [existsb] in H.
  rewrite orb_false_r in H.
  repeat (apply orb_true_iff in H as [H | H]);
    apply String.eqb_eq in H as ->; now destruct Ht as [-> | ->].
Qed.

Lemma route_consistent (w : World) (texts : list string) (ext lpath : string)
  (b : bytes) (r : resolved) :
  route w texts ext lpath b = Ok r -> consistent r.
Proof.
  unfold route, consistent.
  destruct (mem ext texts).
  - destruct (file_text w lpath b); cbn [res_bind]; [|discriminate].
    now intros [= <-].
  - destruct (mem ext images); [|now intros [= <-]].
    destruct (image_text w b) as [t|]; cbn [res_bind]; [|discriminate].
    destruct (negb (truthy (strip t))); [|now intros [= <-]].
    destruct (image_label w b); cbn [res_bind]; [|discriminate].
    now intros [= <-].
Qed.

Lemma temp_section_consistent (w : World) (suffix : string) (b : bytes)
  (texts : list string) (ext : string) (st st1 : state) (r : resolved) :
  temp_section w suffix b texts ext st = (Ok r, st1) -> consistent r.
Proof.
  rewrite temp_section_run. destruct (temp_fault w suffix); [discriminate |].
  destruct (route w texts ext _ b) eqn:E; [|discriminate].
  intros [= <- _]. exact (route_consistent _ _ _ _ _ _ E).
Qed.

(** An override comes with the sentinel, however the shape was resolved. *)
Lemma extract_content_consistent (w : World) (req : request) (st st1 : state)
  (r : resolved) :
  extract_content w req st = (Ok (inr r), st1) -> consistent r.
Proof.
  unfold extract_content. destruct (is_json req).
  - destruct (negb (json_truthy (get_json req))); [discriminate |].
    unfold bind, ret.
    destruct (json_case_cases w (get_json req) st) as [(s & E)|[(e & E)|E]].
    + rewrite E. now intros [= <- _] c.
    + rewrite E. discriminate.
    + rewrite E.
      destruct (json_file_case_cases w (get_json req) st)
        as [(e & pre & E' & _)|(sfx & b & ext & E')]; rewrite E';
        [discriminate |].
      destruct (temp_section w sfx b json_texts ext _) as [[r'|] st'] eqn:T;
        [|discriminate].
      intros [= <- _]. exact (temp_section_consistent _ _ _ _ _ _ _ _ T).
  - destruct (files req) as [|x l] eqn:F; [now intros [= <- _] c |].
    unfold bind, ret.
    destruct (files_get "file" (files req)) as [u|] eqn:G.
    + destruct (filename u) as [|a n] eqn:N.
      * unfold multipart_case. rewrite G, N. now intros [= <- _] c.
      * rewrite (multipart_case_run w req u st G) by now rewrite N.
        destruct (temp_section w (snd (splitext (filename u))) (content u)
                    upload_texts
                    (lower (List.last (split "." (filename u)) "")) st)
          as [[r'|] st'] eqn:T; [|discriminate].
        intros [= <- _]. exact (temp_section_consistent _ _ _ _ _ _ _ _ T).
    + unfold multipart_case. rewrite G. now intros [= <- _] c.
Qed.

Lemma fallback_consistent (w : World) (req : request) (r : resolved) :
  consistent r -> consistent (fallback w req r).
Proof.
  intros H. unfold fallback. destruct r as [t o]. cbn [fst snd].
  destruct t; cbn [truthy negb]; [|exact H].
  destruct (utf8_decode w (data req)) as [d|]; [|exact H].
  destruct (truthy (strip d)); [|exact H].
  intros c Hc. specialize (H c Hc). discriminate.
Qed.

Lemma route_events_quiet (w : World) (texts : list string) (ext p : string)
  (b : bytes) : quiet (route_events w texts ext p b).
Proof.
  intros t o. unfold route_events.
  destruct (mem ext texts); [cbn; intuition discriminate |].
  destruct (mem ext images); [|cbn; tauto].
  destruct (image_text w b) as [x|]; [|cbn; intuition discriminate].
  destruct (negb (truthy (strip x))); cbn; intuition discriminate.
Qed.

Lemma temp_section_trace (w : World) (suffix : string) (b : bytes)
  (texts : list string) (ext : string) (st : state) :
  exists evs,
    trace (snd (temp_section w suffix b texts ext st)) = (trace st ++ evs)%list
    /\ quiet evs.
Proof.
  rewrite temp_section_run.
  pose proof (route_events_quiet w texts ext
                (tmp_stem w (tmp_count st) +:+ suffix) b) as Q.
  destruct (temp_fault w suffix).
  { exists []. cbn [snd]. rewrite app_nil_r. split; [reflexivity |].
    intros t o []. }
  destruct (route w texts ext _ b); cbn [snd state_released state_leaked trace];
    eexists; (split; [reflexivity |]).
  - intros t o [H | H]; [discriminate |].
    apply in_app_or in H as [H | [H | []]]; [exact (Q t o H) | discriminate].
  - intros t o [H | H]; [discriminate | exact (Q t o H)].
Qed.

(** The shape resolution makes no analysis call. *)
Lemma extract_content_trace (w : World) (req : request) (st : state) :
  exists evs,
    trace (snd (extract_content w req st)) = (trace st ++ evs)%list
    /\ quiet evs.
Proof.
  assert (forall (A : Type) (x : res A),
             exists evs, trace (snd (x, st)) = (trace st ++ evs)%list
                         /\ quiet evs) as Hsame.
  { intros A x. exists []. cbn [snd]. rewrite app_nil_r. split; [reflexivity |].
    intros t o []. }
  assert (forall (m : res resolved * state),
             (exists evs, trace (snd m) = (trace st ++ evs)%list /\ quiet evs) ->
             exists evs,
               trace (snd (match m with
                           | (Ok r, st1) => (Ok (inr r : response + resolved), st1)
                           | (Raise e, st1) => (Raise e, st1)
                           end)) = (trace st ++ evs)%list /\ quiet evs) as Hwrap.
  { intros [[r|e] st1] H; exact H. }
  unfold extract_content. destruct (is_json req).
  - destruct (negb (json_truthy (get_json req))); [apply Hsame |].
    unfold bind at 1. unfold ret. apply Hwrap.
    destruct (json_case_cases w (get_json req) st) as [(s & E)|[(e & E)|E]];
      rewrite E; try apply Hsame.
    destruct (json_file_case_cases w (get_json req) st)
      as [(e & pre & E' & Hpre)|(sfx & b & ext & E')]; rewrite E'.
    + exists pre. split; [reflexivity |].
      destruct Hpre as [-> | ->]; [intros t o [] |].
      intros t o [H | []]; discriminate.
    + destruct (temp_section_trace w sfx b json_texts ext
                  (add_events st [EvB64Decode])) as (evs & Ht & Q).
      exists (EvB64Decode :: evs). split.
      * rewrite Ht. cbn [add_events trace]. now rewrite <- app_assoc.
      * intros t o [H | H]; [discriminate | exact (Q t o H)].
  - destruct (files req) as [|x l] eqn:F; [apply Hsame |].
    unfold bind at 1. unfold ret. apply Hwrap.
    destruct (files_get "file" (files req)) as [u|] eqn:G.
    + destruct (filename u) as [|a n] eqn:N.
      * unfold multipart_case. rewrite G, N. apply Hsame.
      * rewrite (multipart_case_run w req u st G) by now rewrite N.
        apply temp_section_trace.
    + unfold multipart_case. rewrite G. apply Hsame.
Qed.

(** *** C1: the temporary file *)

(** C1 (the code departs from it): for a request of file shape the
    temporary file is removed when the extraction step returns, but when a
    text extractor, the OCR or the classifier raises, [os.remove] is skipped:
    the handler answers 500 and the file stays, holding the uploaded bytes. *)
Theorem temp_file_left_when_extraction_raises (w : World) (req : request)
  (st : state) (suffix : string) (b : bytes) (texts : list string)
  (ext : string) (pre : list event) :
  let p := tmp_stem w (tmp_count st) +:+ suffix in
  let extraction :=
    extract_by_extension w texts ext p (state_stored st pre p b) in
  method req = "POST" ->
  file_shape w req suffix b texts ext pre ->
  (forall r, fst extraction = Ok r ->
             fs (snd (redtape_reducer w req st)) = delete p (fs st)
             /\ In (EvRemove p) (trace (snd (redtape_reducer w req st))))
  /\ (forall e, fst extraction = Raise e ->
                fst (redtape_reducer w req st)
                = {| body := JObj [("error", JStr (str_exn w e))];
                     status := 500 |}
                /\ fs (snd (redtape_reducer w req st)) !! p = Some b
                /\ trace (snd (redtape_reducer w req st))
                   = trace (snd extraction)).
Proof.
  intros p extraction Hm Hshape.
  pose proof (file_shape_run w req st _ _ _ _ _ Hshape) as E.
  cbv zeta in E. fold p in E.
  unfold extraction. rewrite stored_route. split.
  - intros r Hr. rewrite Hr in E.
    rewrite (redtape_reducer_resolved _ _ _ _ _ Hm E). split; [reflexivity |].
    cbn [snd add_events state_released trace].
    apply in_or_app. left. apply in_or_app. right. right.
    apply in_or_app. right. now left.
  - intros e He. rewrite He in E.
    rewrite redtape_reducer_post by exact Hm. rewrite handle_run, E.
    split; [reflexivity |]. split.
    + cbn [snd state_leaked fs]. apply lookup_insert_eq.
    + rewrite extract_by_extension_run with (b := b)
        by apply lookup_insert_eq.
      cbn [snd state_leaked state_stored add_events trace].
      now rewrite <- !app_assoc.
Qed.

Lemma pdf_request_shape :
  file_shape world pdf_request ".pdf" (list_byte_of_string "hi")
             json_texts "pdf" [EvB64Decode].
Proof.
  split; [reflexivity |]. left. split; [reflexivity |].
  exists [("file", JStr "aGk="); ("file_type", JStr "pdf")], "aGk=", "pdf".
  repeat split. now left.
Defined.

Lemma temp_file_left_when_extraction_raises_witness :
  status (fst (redtape_reducer world pdf_request start)) = 500
  /\ fs (snd (redtape_reducer world pdf_request start)) !! "/tmp/tmp0.pdf"
     = Some (list_byte_of_string "hi").
Proof.
  destruct (proj2 (temp_file_left_when_extraction_raises world pdf_request
                     start ".pdf" (list_byte_of_string "hi") json_texts "pdf"
                     [EvB64Decode] eq_refl pdf_request_shape)
              (Library "No /Root object! - Is this really a PDF?") eq_refl)
    as (H1 & H2 & _).
  split; [now rewrite H1 | exact H2].
Defined.

(** *** C2: the order of the shapes *)

(** C2, as stated, fails when the [text] of the JSON body is not empty but
    blank: the file is decoded and extracted, and its text is analysed. *)
Lemma blank_text_does_not_win :
  lookup_field "text" [("text", JStr " "); ("file", JStr "aGk=");
                       ("file_type", JStr "txt")] = Some (JStr " ")
  /\ " " <> ""
  /\ trace (snd (redtape_reducer world blank_text_request start))
     = [EvB64Decode; EvTempFile "/tmp/tmp0.txt"; EvExtractFile "/tmp/tmp0.txt";
        EvRemove "/tmp/tmp0.txt"; EvAnalyze "hi" None].
Proof. split; [reflexivity |]. split; [discriminate |]. vm_compute. reflexivity. Qed.

(** The run of a request of file shape from the extraction step on: what is
    analysed is what the extraction returned, when that is a text. *)
Lemma file_shape_analysed (w : World) (req : request) (st : state)
  (suffix : string) (b : bytes) (texts : list string) (ext : string)
  (pre : list event) :
  let p := tmp_stem w (tmp_count st) +:+ suffix in
  let extraction :=
    extract_by_extension w texts ext p (state_stored st pre p b) in
  method req = "POST" ->
  file_shape w req suffix b texts ext pre ->
  (forall x o, fst extraction = Ok (x, o) -> x <> "" ->
     fst (redtape_reducer w req st) = finish w (outcome w (x, o))
     /\ trace (snd (redtape_reducer w req st))
        = (trace (snd extraction) ++ [EvRemove p; EvAnalyze x o])%list)
  /\ (forall e, fst extraction = Raise e ->
        fst (redtape_reducer w req st)
        = {| body := JObj [("error", JStr (str_exn w e))]; status := 500 |}
        /\ trace (snd (redtape_reducer w req st)) = trace (snd extraction)).
Proof.
  intros p extraction Hm Hshape.
  pose proof (file_shape_run w req st _ _ _ _ _ Hshape) as E.
  cbv zeta in E. fold p in E.
  unfold extraction. rewrite stored_route.
  rewrite extract_by_extension_run with (b := b) by apply lookup_insert_eq.
  cbn [snd add_events state_stored trace]. split.
  - intros x o Hr Hn. rewrite Hr in E.
    rewrite (redtape_reducer_resolved _ _ _ _ _ Hm E).
    destruct (fallback_text w req (x, o) Hn) as [-> ->].
    apply truthy_true in Hn. unfold outcome_events. cbn [fst snd].
    rewrite Hn. cbn [negb add_events state_released trace].
    split; [reflexivity |]. norm_trace. reflexivity.
  - intros e He. rewrite He in E.
    rewrite redtape_reducer_post by exact Hm. rewrite handle_run, E.
    split; [reflexivity |]. cbn [snd state_leaked add_events trace].
    norm_trace. reflexivity.
Qed.

(** A request of file shape first makes the calls [pre] and creates its
    temporary file. *)
Lemma file_shape_opening (w : World) (req : request) (st : state)
  (suffix : string) (b : bytes) (texts : list string) (ext : string)
  (pre : list event) :
  method req = "POST" ->
  file_shape w req suffix b texts ext pre ->
  exists evs,
    trace (snd (redtape_reducer w req st))
    = (trace st ++ pre
       ++ EvTempFile (tmp_stem w (tmp_count st) +:+ suffix) :: evs)%list.
Proof.
  intros Hm Hshape.
  pose proof (file_shape_run w req st _ _ _ _ _ Hshape) as E. cbv zeta in E.
  rewrite redtape_reducer_post by exact Hm. rewrite handle_run, E.
  destruct (route w texts ext _ b) as [r|e];
    cbn [snd add_events state_released state_leaked trace];
    eexists; norm_trace; reflexivity.
Qed.

(** C2, amended: a JSON body whose [text] has a character that is not white
    space wins over everything else: that text, as sent, is analysed, and
    nothing is decoded, stored, extracted or read from the raw body.  A JSON
    request never looks at the uploaded files, and the raw body is read only
    when no text was found before.  A [text] that is blank (empty, or white
    space only) does not count: the two file keys decide as if it were not
    there, and with a file that can be stored the file is decoded and
    extracted and its text, not [text], is what is analysed. *)
Theorem text_wins_unless_blank (w : World) (req : request) (st : state) :
  method req = "POST" ->
  (forall (fields : list (string * json)) (t : string),
      is_json req = true ->
      get_json req = JObj fields ->
      lookup_field "text" fields = Some (JStr t) ->
      strip t <> "" ->
      redtape_reducer w req st =
      (finish w (outcome w (t, None)), add_events st [EvAnalyze t None]))
  /\ (is_json req = true ->
      redtape_reducer w req st = redtape_reducer w (with_files req []) st)
  /\ (forall (r : resolved) (st1 : state),
         extract_content w req st = (Ok (inr r), st1) ->
         fst r <> "" ->
         redtape_reducer w req st =
         (finish w (outcome w r), add_events st1 [EvAnalyze (fst r) (snd r)]))
  /\ (forall (fields : list (string * json)) (t f d : string) (b : bytes),
         is_json req = true ->
         get_json req = JObj fields ->
         lookup_field "text" fields = Some (JStr t) ->
         strip t = "" ->
         json_case w (JObj fields) st
         = match lookup_field "file" fields,
                 lookup_field "file_type" fields with
           | Some _, Some _ => json_file_case w (JObj fields) st
           | _, _ => (Ok ("", None), st)
           end
         /\ (lookup_field "file" fields = Some (JStr f) ->
             b64decode w f = Ok b ->
             lookup_field "file_type" fields = Some (JStr d) ->
             temp_fault w ("." +:+ lower d) = None ->
             let p := tmp_stem w (tmp_count st) +:+ "." +:+ lower d in
             let extraction :=
               extract_by_extension w json_texts (lower d) p
                 (state_stored st [EvB64Decode] p b) in
             (exists evs,
                 trace (snd (redtape_reducer w req st))
                 = (trace st ++ EvB64Decode :: EvTempFile p :: evs)%list)
             /\ (forall x o, fst extraction = Ok (x, o) -> x <> "" ->
                   fst (redtape_reducer w req st)
                   = finish w (outcome w (x, o))
                   /\ trace (snd (redtape_reducer w req st))
                      = (trace (snd extraction)
                         ++ [EvRemove p; EvAnalyze x o])%list)
             /\ (forall e, fst extraction = Raise e ->
                   fst (redtape_reducer w req st)
                   = {| body := JObj [("error", JStr (str_exn w e))];
                        status := 500 |}
                   /\ trace (snd (redtape_reducer w req st))
                      = trace (snd extraction)))).
Proof.
  intros Hm. split; [|split; [|split]].
  - intros fields t Hj Hd Ht Hs.
    assert (extract_content w req st = (Ok (inr (t, None)), st)) as E.
    { rewrite extract_content_json;
        [| exact Hj | rewrite Hd; now destruct fields].
      now rewrite Hd, (json_case_text w fields t st Ht Hs). }
    rewrite (redtape_reducer_resolved _ _ _ _ _ Hm E).
    assert (t <> "") as Hn by (intros ->; now apply Hs).
    destruct (fallback_text w req (t, None) Hn) as [-> ->].
    apply truthy_true in Hn. unfold outcome_events. cbn [fst snd].
    now rewrite Hn.
  - intros Hj. unfold redtape_reducer, handle, extract_content.
    cbn [method is_json get_json files data with_files]. rewrite Hj.
    reflexivity.
  - intros r st1 E Hn.
    rewrite (redtape_reducer_resolved _ _ _ _ _ Hm E).
    destruct (fallback_text w req r Hn) as [-> ->].
    apply truthy_true in Hn. unfold outcome_events. now rewrite Hn.
  - intros fields t f d b Hj Hd Ht Hs.
    assert (no_text fields) as Hno by (right; now exists t).
    split; [exact (json_case_no_text w fields st Hno) |].
    intros Hf Hb Hty Hv p extraction.
    assert (file_shape w req ("." +:+ lower d) b json_texts (lower d)
              [EvB64Decode]) as Hshape.
    { split; [exact Hv |]. left. split; [exact Hj |].
      exists fields, f, d. now repeat split. }
    split.
    + exact (file_shape_opening w req st _ _ _ _ _ Hm Hshape).
    + exact (file_shape_analysed w req st _ _ _ _ _ Hm Hshape).
Qed.

Lemma text_wins_unless_blank_witness :
  redtape_reducer world text_and_file_request start =
  (finish world (outcome world ("No water supply", None)),
   add_events start [EvAnalyze "No water supply" None])
  /\ fst (redtape_reducer world blank_text_request start)
     = finish world (outcome world ("hi", None)).
Proof.
  split.
  - apply (proj1 (text_wins_unless_blank world text_and_file_request start
                    eq_refl)
             [("text", JStr "No water supply"); ("file", JStr "aGk=");
              ("file_type", JStr "txt")] "No water supply");
      [reflexivity | reflexivity | reflexivity | discriminate].
  - destruct (proj2 (proj2 (proj2 (text_wins_unless_blank world
                                      blank_text_request start eq_refl)))
                [("text", JStr " "); ("file", JStr "aGk=");
                 ("file_type", JStr "txt")] " " "aGk=" "txt"
                (list_byte_of_string "hi") eq_refl eq_refl eq_refl eq_refl)
      as (_ & H).
    destruct (H eq_refl eq_refl eq_refl eq_refl) as (_ & H1 & _).
    exact (proj1 (H1 "hi" None eq_refl ltac:(discriminate))).
Defined.

(** *** C3: the raw body after a file *)

(** C3, as stated, fails when the extraction yields the empty string: the
    raw body (here the JSON text itself) becomes the grievance text. *)
Lemma empty_extraction_reads_raw_body :
  file_shape world doc_request ".doc" (list_byte_of_string "hi")
             json_texts "doc" [EvB64Decode]
  /\ fst (extract_by_extension world json_texts "doc" "/tmp/tmp0.doc"
            (state_stored start [EvB64Decode] "/tmp/tmp0.doc"
               (list_byte_of_string "hi")))
     = Ok ("", None)
  /\ trace (snd (redtape_reducer world doc_request start))
     = [EvB64Decode; EvTempFile "/tmp/tmp0.doc"; EvExtractFile "/tmp/tmp0.doc";
        EvRemove "/tmp/tmp0.doc"; EvDecodeBody; EvAnalyze doc_body None].
Proof.
  split; [|split; vm_compute; reflexivity].
  split; [reflexivity |]. left. split; [reflexivity |].
  exists [("file", JStr "aGk="); ("file_type", JStr "doc")], "aGk=", "doc".
  repeat split. now left.
Qed.

(** C3, amended: for a request of file shape (its file can be stored: the
    suffix makes a file name) whose extraction returns a text, the raw body
    is not read when that text is not empty (the text is analysed as it
    is); when the text is empty the raw body is decoded and its trimmed
    text, if any, is analysed instead. *)
Theorem raw_body_read_only_after_empty_extraction (w : World) (req : request)
  (st : state) (suffix : string) (b : bytes) (texts : list string)
  (ext : string) (pre : list event) (t : string) (o : option string) :
  let p := tmp_stem w (tmp_count st) +:+ suffix in
  let extraction :=
    extract_by_extension w texts ext p (state_stored st pre p b) in
  method req = "POST" ->
  file_shape w req suffix b texts ext pre ->
  fst extraction = Ok (t, o) ->
  (t <> "" ->
   fst (redtape_reducer w req st) = finish w (outcome w (t, o))
   /\ trace (snd (redtape_reducer w req st))
      = (trace (snd extraction) ++ [EvRemove p; EvAnalyze t o])%list)
  /\ (t = "" ->
      exists evs,
        trace (snd (redtape_reducer w req st))
        = (trace (snd extraction) ++ EvRemove p :: EvDecodeBody :: evs)%list
        /\ forall s, utf8_decode w (data req) = Ok s -> strip s <> "" ->
             evs = [EvAnalyze (strip s) o]
             /\ fst (redtape_reducer w req st)
                = finish w (outcome w (strip s, o))).
Proof.
  intros p extraction Hm Hshape Hroute.
  unfold extraction in *. rewrite stored_route in Hroute.
  rewrite extract_by_extension_run with (b := b) by apply lookup_insert_eq.
  pose proof (file_shape_run w req st _ _ _ _ _ Hshape) as E.
  cbv zeta in E. fold p in E. rewrite Hroute in E.
  rewrite (redtape_reducer_resolved _ _ _ _ _ Hm E).
  cbn [fst snd add_events state_released state_stored trace]. split.
  - intros Hn. destruct (fallback_text w req (t, o) Hn) as [-> ->].
    apply truthy_true in Hn. unfold outcome_events. cbn [fst snd].
    rewrite Hn. cbn [negb]. split; [reflexivity |].
    norm_trace. reflexivity.
  - intros ->. exists (outcome_events (fallback w req ("", o))).
    split; [norm_trace; reflexivity |].
    intros s Hs Hn. apply truthy_true in Hn.
    unfold fallback. cbn [fst snd truthy negb]. rewrite Hs, Hn.
    split; [|reflexivity]. unfold outcome_events. cbn [fst snd].
    now rewrite Hn.
Qed.

Lemma txt_upload_shape :
  file_shape world
    (upload_request "complaint.txt" (list_byte_of_string "Garbage"))
    ".txt" (list_byte_of_string "Garbage") upload_texts "txt" [].
Proof.
  split; [reflexivity |]. right. split; [reflexivity |].
  eexists. split; [reflexivity |]. repeat split. discriminate.
Defined.

Lemma raw_body_read_only_after_empty_extraction_witness :
  trace (snd (redtape_reducer world
                (upload_request "complaint.txt" (list_byte_of_string "Garbage"))
                start))
  = [EvTempFile "/tmp/tmp0.txt"; EvExtractFile "/tmp/tmp0.txt";
     EvRemove "/tmp/tmp0.txt"; EvAnalyze "Garbage" None].
Proof.
  destruct (raw_body_read_only_after_empty_extraction world
              (upload_request "complaint.txt" (list_byte_of_string "Garbage"))
              start ".txt" (list_byte_of_string "Garbage") upload_texts
              "txt" [] "Garbage" None eq_refl txt_upload_shape eq_refl)
    as [H _].
  destruct H as [_ H]; [discriminate |].
  rewrite H. reflexivity.
Defined.

(** *** C4: the classifier fallback *)

(** C4: when the OCR of the temporary image yields a text that is empty or
    blank, the classifier is called on that image and the resolved text is
    the sentinel (both file branches); whenever an override is set, after
    the shape is resolved, after the plain text case and in every analysis
    call, the text is the sentinel, which is not empty.  For a request that
    brings such an image, as a JSON file or as an upload, the handler makes
    exactly these calls: it stores the image, runs OCR, calls the classifier,
    removes the file and asks for the analysis of the sentinel under the
    label of the classifier; when the classifier raises, the answer is 500. *)
Theorem ocr_empty_triggers_classifier (w : World) :
  (forall (texts : list string) (ext p : string) (st : state) (t : string),
      texts = json_texts \/ texts = upload_texts ->
      mem ext images = true ->
      extract_text_from_image w p st = (Ok t, st) ->
      strip t = "" ->
      extract_by_extension w texts ext p st =
      (res_bind (fst (classify_image_with_gemini w p st))
                (fun c => Ok (sentinel, Some c)),
       add_events st [EvExtractImage p; EvClassify p]))
  /\ (forall (req : request) (st st1 : state) (t : string) (c : string),
         extract_content w req st = (Ok (inr (t, Some c)), st1) ->
         t = sentinel /\ t <> ""
         /\ fallback w req (t, Some c) = (sentinel, Some c))
  /\ (forall (req : request) (st : state) (t c : string),
         method req = "POST" ->
         In (EvAnalyze t (Some c)) (trace (snd (redtape_reducer w req st))) ->
         In (EvAnalyze t (Some c)) (trace st) \/ t = sentinel)
  /\ (forall (req : request) (st : state) (suffix : string) (b : bytes)
             (texts : list string) (ext : string) (pre : list event)
             (t : string),
         let p := tmp_stem w (tmp_count st) +:+ suffix in
         let st1 := state_stored st pre p b in
         method req = "POST" ->
         file_shape w req suffix b texts ext pre ->
         mem ext images = true ->
         extract_text_from_image w p st1 = (Ok t, st1) ->
         strip t = "" ->
         (forall c,
             fst (classify_image_with_gemini w p st1) = Ok c ->
             fst (redtape_reducer w req st)
             = finish w (outcome w (sentinel, Some c))
             /\ trace (snd (redtape_reducer w req st))
                = (trace st ++ pre
                   ++ [EvTempFile p; EvExtractImage p; EvClassify p;
                       EvRemove p; EvAnalyze sentinel (Some c)])%list)
         /\ (forall e,
               fst (classify_image_with_gemini w p st1) = Raise e ->
               fst (redtape_reducer w req st)
               = {| body := JObj [("error", JStr (str_exn w e))];
                    status := 500 |}
               /\ trace (snd (redtape_reducer w req st))
                  = (trace st ++ pre
                     ++ [EvTempFile p; EvExtractImage p; EvClassify p])%list)).
Proof.
  split; [|split; [|split]].
  4:{ intros req st suffix b texts ext pre t p st1 Hm Hshape Hi Hocr Hs.
      assert (texts = json_texts \/ texts = upload_texts) as Ht.
      { destruct Hshape
          as (_ & [(_ & ? & ? & ? & ? & ? & ? & ? & ? & ? & ? & -> & _)
                  |(_ & ? & ? & ? & ? & ? & ? & -> & _)]);
          [now left | now right]. }
      assert (fs st1 !! p = Some b) as Hp by apply lookup_insert_eq.
      rewrite (extract_text_from_image_run _ _ _ _ Hp) in Hocr.
      injection Hocr as Hocr.
      assert (extract_by_extension w texts ext p st1
              = (res_bind (fst (classify_image_with_gemini w p st1))
                          (fun c => Ok (sentinel, Some c)),
                 add_events st1 [EvExtractImage p; EvClassify p])) as Hx.
      { rewrite (extract_by_extension_run _ _ _ _ _ _ Hp).
        rewrite (classify_image_run _ _ _ _ Hp). cbn [fst].
        unfold route, route_events.
        rewrite (images_not_texts texts ext Ht Hi), Hi, Hocr. cbn [res_bind].
        now rewrite Hs. }
      destruct (file_shape_analysed w req st _ _ _ _ _ Hm Hshape) as (A1 & A2).
      fold p st1 in A1, A2. rewrite Hx in A1, A2. cbn [fst snd] in A1, A2.
      split.
      - intros c Hc. rewrite Hc in A1. cbn [res_bind] in A1.
        destruct (A1 sentinel (Some c) eq_refl ltac:(discriminate)) as (R1 & R2).
        split; [exact R1 |]. rewrite R2.
        unfold st1. cbn [add_events state_stored trace]. norm_trace.
        reflexivity.
      - intros e He. rewrite He in A2. cbn [res_bind] in A2.
        destruct (A2 e eq_refl) as (R1 & R2).
        split; [exact R1 |]. rewrite R2.
        unfold st1. cbn [add_events state_stored trace]. norm_trace.
        reflexivity. }
  - intros texts ext p st t Ht Hi Hocr Hs.
    destruct (fs st !! p) as [b|] eqn:Hb;
      [|unfold extract_text_from_image, bind, read_file in Hocr;
        rewrite Hb in Hocr; discriminate].
    rewrite extract_by_extension_run with (b := b) by exact Hb.
    rewrite extract_text_from_image_run with (b := b) in Hocr by exact Hb.
    injection Hocr as Hocr.
    rewrite classify_image_run with (b := b) by exact Hb. cbn [fst].
    unfold route, route_events.
    rewrite (images_not_texts texts ext Ht Hi), Hi, Hocr. cbn [res_bind].
    now rewrite Hs.
  - intros req st st1 t c E.
    pose proof (extract_content_consistent _ _ _ _ _ E c eq_refl) as H.
    cbn [fst] in H. subst t. repeat split. discriminate.
  - intros req st t c Hm Hin.
    rewrite redtape_reducer_post in Hin by exact Hm. cbn [snd] in Hin.
    rewrite handle_run in Hin.
    destruct (extract_content_trace w req st) as (evs & Ht & Q).
    destruct (extract_content w req st) as [[[early|r]|e] st1] eqn:E;
      cbn [snd] in Ht, Hin.
    + rewrite Ht in Hin. apply in_app_or in Hin as [Hin | Hin];
        [now left | destruct (Q _ _ Hin)].
    + cbn [add_events trace] in Hin. rewrite Ht in Hin.
      apply in_app_or in Hin as [Hin | Hin].
      * apply in_app_or in Hin as [Hin | Hin];
          [now left | destruct (Q _ _ Hin)].
      * right. apply in_app_or in Hin as [Hin | Hin].
        -- unfold fallback_events in Hin.
           destruct (negb (truthy (fst r))); [|destruct Hin].
           destruct Hin as [Hin | []]. discriminate.
        -- unfold outcome_events in Hin.
           destruct (negb (truthy (fst (fallback w req r)))); [destruct Hin |].
           destruct Hin as [Hin | []]. injection Hin as H1 H2.
           pose proof (fallback_consistent w req r
                         (extract_content_consistent _ _ _ _ _ E) c H2) as H.
           congruence.
    + rewrite Ht in Hin. apply in_app_or in Hin as [Hin | Hin];
        [now left | destruct (Q _ _ Hin)].
Qed.

Lemma png_upload_shape :
  file_shape world
    (upload_request "photo.png" (list_byte_of_string "pixels"))
    ".png" (list_byte_of_string "pixels") upload_texts "png" [].
Proof.
  split; [reflexivity |]. right. split; [reflexivity |].
  eexists. split; [reflexivity |]. repeat split. discriminate.
Defined.

Lemma ocr_empty_triggers_classifier_witness :
  fst (redtape_reducer world
         (upload_request "photo.png" (list_byte_of_string "pixels")) start)
  = finish world (outcome world (sentinel, Some "flood / water logging"))
  /\ trace (snd (redtape_reducer world
                   (upload_request "photo.png" (list_byte_of_string "pixels"))
                   start))
     = [EvTempFile "/tmp/tmp0.png"; EvExtractImage "/tmp/tmp0.png";
        EvClassify "/tmp/tmp0.png"; EvRemove "/tmp/tmp0.png";
        EvAnalyze sentinel (Some "flood / water logging")].
Proof.
  exact (proj1 (proj2 (proj2 (proj2 (ocr_empty_triggers_classifier world)))
                  (upload_request "photo.png" (list_byte_of_string "pixels"))
                  start ".png" (list_byte_of_string "pixels") upload_texts
                  "png" [] "" eq_refl png_upload_shape eq_refl eq_refl eq_refl)
           "flood / water logging" eq_refl).
Defined.

(** *** C5: the sanitizer *)

(** C5, as stated, fails for a tag other than [json]: the tag stays in the
    text, which no longer parses to what the bare payload parses to. *)
Lemma sanitize_keeps_other_tag :
  let fenced := fence +:+ "python" +:+ nl +:+ "{}" +:+ nl +:+ fence in
  sanitize fenced = "python" +:+ nl +:+ "{}"
  /\ sanitize "{}" = "{}"
  /\ sanitize_and_parse world fenced <> sanitize_and_parse world "{}".
Proof. vm_compute. repeat split. discriminate. Qed.

(** C5, amended: a fence without tag or with the tag [json] is removed, so
    that the fenced payload is sanitized (and parsed) like the bare one;
    sanitizing is idempotent; a text without a pair of fences is only
    trimmed, and parsed as it is when it is already trimmed. *)
Theorem sanitize_fence_idempotent :
  (forall (w : World) (tag ws c : string),
      tag = "json" \/ (tag = "" /\ startswith (ws +:+ c) "json" = false) ->
      all_chars isspace ws = true ->
      has_fence c = false ->
      let fenced := fence +:+ tag +:+ ws +:+ c +:+ fence in
      sanitize fenced = strip c
      /\ sanitize fenced = sanitize c
      /\ sanitize_and_parse w fenced = sanitize_and_parse w c)
  /\ (forall x : string, sanitize (sanitize x) = sanitize x)
  /\ (forall (w : World) (x : string),
         matchable x = false ->
         sanitize x = strip x
         /\ (strip x = x ->
             sanitize_and_parse w x =
             match loads w x with
             | Ok parsed => jsonify parsed
             | Raise e => parse_failure w x e
             end)).
Proof.
  split; [|split].
  - intros w tag ws c Htag Hws Hc fenced.
    assert (sanitize fenced = strip c) as E1
      by now apply sanitize_fenced.
    assert (sanitize c = strip c) as E2
      by now apply sanitize_unfenced, has_fence_unmatchable.
    split; [exact E1 |]. split; [congruence |].
    unfold sanitize_and_parse. now rewrite E1, E2.
  - apply sanitize_idempotent.
  - intros w x Hx. pose proof (sanitize_unfenced x Hx) as E.
    split; [exact E |]. intros Hs. unfold sanitize_and_parse.
    rewrite E, Hs. reflexivity.
Qed.

Lemma sanitize_fence_idempotent_witness :
  let fenced := fence +:+ "json" +:+ nl +:+ ("{}" +:+ nl) +:+ fence in
  (sanitize fenced = "{}"
   /\ sanitize fenced = sanitize ("{}" +:+ nl)
   /\ sanitize_and_parse world fenced = sanitize_and_parse world ("{}" +:+ nl))
  /\ sanitize "{}" = "{}"
  /\ sanitize_and_parse world "{}" = jsonify (JObj []).
Proof.
  split.
  - apply (proj1 sanitize_fence_idempotent world "json" nl ("{}" +:+ nl)).
    + left. reflexivity.
    + reflexivity.
    + reflexivity.
  - destruct (proj2 (proj2 sanitize_fence_idempotent) world "{}" eq_refl)
      as [H1 H2].
    split; [exact H1 | exact (H2 eq_refl)].
Defined.

(** *** C6: errors *)

(** C6, as stated, fails on its second half: a raw body that is not UTF-8
    raises in [decode], which is caught on the spot and dropped; the answer
    is the 400 of a request without input, not a 500. *)
Lemma undecodable_body_answers_400 :
  utf8_decode world (data (raw_request [Byte.xff]))
  = Raise (Library "'utf-8' codec can't decode byte")
  /\ redtape_reducer world (raw_request [Byte.xff]) start
     = (no_input, add_events start [EvDecodeBody])
  /\ status no_input = 400.
Proof. repeat split. Qed.

(** C6, amended: a reply whose sanitized text does not parse is answered
    with status 200 and a body that carries the marker, the sanitized text
    and the message of the parser; an exception that leaves the body of the
    outer [try] is answered with status 500 and its message alone, and the
    exceptions of shape resolution, decoding, extraction, OCR,
    classification and analysis all leave it; only the failure to decode the
    raw body is dropped where it occurs. *)
Theorem errors_reported_by_kind (w : World) (req : request) (st : state) :
  method req = "POST" ->
  (forall (r r' : resolved) (st1 st2 : state) (result : string) (e : exn),
      extract_content w req st = (Ok (inr r), st1) ->
      plain_text_case w req r st1 = (Ok r', st2) ->
      fst r' <> "" ->
      fst (analyze_grievance w (fst r') "text" (snd r') st2) = Ok result ->
      loads w (sanitize result) = Raise e ->
      fst (redtape_reducer w req st)
      = {| body := JObj [("error", JStr "Failed to parse JSON");
                         ("raw_response", JStr (sanitize result));
                         ("exception", JStr (str_exn w e))];
           status := 200 |})
  /\ (forall (e : exn) (st' : state),
         handle w req st = (Raise e, st') ->
         redtape_reducer w req st
         = ({| body := JObj [("error", JStr (str_exn w e))]; status := 500 |},
            st'))
  /\ (forall (e : exn) (st1 : state),
         extract_content w req st = (Raise e, st1) ->
         handle w req st = (Raise e, st1))
  /\ (forall (suffix : string) (b : bytes) (texts : list string)
             (ext : string) (pre : list event) (e : exn),
         file_shape w req suffix b texts ext pre ->
         let p := tmp_stem w (tmp_count st) +:+ suffix in
         fst (extract_by_extension w texts ext p (state_stored st pre p b))
         = Raise e ->
         fst (handle w req st) = Raise e)
  /\ (forall (r r' : resolved) (st1 st2 : state) (e : exn),
         extract_content w req st = (Ok (inr r), st1) ->
         plain_text_case w req r st1 = (Ok r', st2) ->
         fst r' <> "" ->
         fst (analyze_grievance w (fst r') "text" (snd r') st2) = Raise e ->
         fst (handle w req st) = Raise e)
  /\ (forall (r : resolved) (st1 : state) (e : exn),
         utf8_decode w (data req) = Raise e ->
         plain_text_case w req r st1
         = (Ok r,
            add_events st1 (if truthy (fst r) then [] else [EvDecodeBody]))).
Proof.
  intros Hm. repeat split.
  - intros r r' st1 st2 result e E Hp Hn Hg Hl.
    rewrite plain_text_case_run in Hp. injection Hp as <- _.
    rewrite analyze_grievance_text in Hg. cbn [fst] in Hg.
    rewrite (redtape_reducer_resolved _ _ _ _ _ Hm E). cbn [fst].
    apply truthy_true in Hn. unfold outcome. rewrite Hn, Hg. cbn.
    unfold sanitize_and_parse. now rewrite Hl.
  - intros e st' H. rewrite redtape_reducer_post by exact Hm.
    now rewrite H.
  - intros e st1 E. now rewrite handle_run, E.
  - intros suffix b texts ext pre e Hshape p Hr.
    rewrite stored_route in Hr.
    rewrite handle_run, (file_shape_run w req st _ _ _ _ _ Hshape).
    cbv zeta. fold p. now rewrite Hr.
  - intros r r' st1 st2 e E Hp Hn Hg.
    rewrite plain_text_case_run in Hp. injection Hp as <- _.
    rewrite analyze_grievance_text in Hg. cbn [fst] in Hg.
    rewrite handle_run, E. cbn [fst].
    apply truthy_true in Hn. unfold outcome. now rewrite Hn, Hg.
  - intros r st1 e H. rewrite plain_text_case_run.
    unfold fallback, fallback_events. rewrite H.
    now destruct (truthy (fst r)).
Qed.

Lemma errors_reported_by_kind_witness :
  fst (redtape_reducer prose_world
         (raw_request (list_byte_of_string "no water")) start)
  = {| body := JObj [("error", JStr "Failed to parse JSON");
                     ("raw_response", JStr "Sorry, I cannot help with that.");
                     ("exception",
                      JStr "Expecting value: line 1 column 1 (char 0)")];
       status := 200 |}.
Proof.
  apply (proj1 (errors_reported_by_kind prose_world
                  (raw_request (list_byte_of_string "no water")) start
                  eq_refl)
           ("", None) ("no water", None) start
           (add_events start [EvDecodeBody])
           "Sorry, I cannot help with that."
           (Library "Expecting value: line 1 column 1 (char 0)")).
  - reflexivity.
  - reflexivity.
  - discriminate.
  - reflexivity.
  - reflexivity.
Defined.

(** *** C7: the text extractor *)

(** C7: the text extractor returns the text it built with the white space
    at both ends removed, and nothing else; on a path that ends in none of
    .txt, .pdf, .docx (in any case) it returns the empty string, reads no
    file and raises nothing. *)
Theorem extract_text_from_file_trims (w : World) (path : string) (st : state) :
  (forall (b : bytes) (raw : string),
      fs st !! path = Some b ->
      untrimmed_text w (lower path) b = Ok raw ->
      exists t l r,
        extract_text_from_file w path st = (Ok t, st)
        /\ raw = l +:+ t +:+ r
        /\ all_chars isspace l = true /\ all_chars isspace r = true
        /\ trimmed t = true)
  /\ (endswith (lower path) ".txt" = false ->
      endswith (lower path) ".pdf" = false ->
      endswith (lower path) ".docx" = false ->
      extract_text_from_file w path st = (Ok "", st)).
Proof.
  split.
  - intros b raw Hb Hraw.
    destruct (strip_split raw) as (l & r & H & Hl & Hr).
    exists (strip raw), l, r. split; [|split; [exact H |]].
    + rewrite extract_text_from_file_run with (b := b) by exact Hb.
      unfold file_text. now rewrite Hraw.
    + split; [exact Hl |]. split; [exact Hr | apply strip_trimmed].
  - apply extract_text_other.
Qed.

Lemma extract_text_from_file_trims_witness :
  (exists t l r,
      extract_text_from_file world "/tmp/tmp0.TXT" txt_state = (Ok t, txt_state)
      /\ "  Garbage not collected" +:+ nl = l +:+ t +:+ r
      /\ all_chars isspace l = true /\ all_chars isspace r = true
      /\ trimmed t = true)
  /\ extract_text_from_file world "/tmp/tmp0.doc" txt_state = (Ok "", txt_state).
Proof.
  split.
  - apply (proj1 (extract_text_from_file_trims world "/tmp/tmp0.TXT" txt_state)
             (list_byte_of_string ("  Garbage not collected" +:+ nl))).
    + vm_compute. reflexivity.
    + reflexivity.
  - apply (proj2 (extract_text_from_file_trims world "/tmp/tmp0.doc" txt_state));
      reflexivity.
Defined.

(** *** C8: routing by extension *)

(** C8 (the code departs from it): a multipart upload declared [doc] is
    handed to no extractor, while the same extension in a JSON body goes to
    the text extractor; the other extensions are routed alike in both
    shapes. *)
Theorem multipart_skips_doc (w : World) (p : string) (st : state) :
  extract_by_extension w ["pdf"; "docx"; "txt"] "doc" p st
  = (Ok ("", None), st)
  /\ snd (extract_by_extension w ["pdf"; "docx"; "doc"; "txt"] "doc" p st)
     = add_events st [EvExtractFile p]
  /\ Forall (fun ext =>
               snd (extract_by_extension w ["pdf"; "docx"; "doc"; "txt"] ext p st)
               = add_events st [EvExtractFile p]
               /\ snd (extract_by_extension w ["pdf"; "docx"; "txt"] ext p st)
                  = add_events st [EvExtractFile p])
            ["pdf"; "docx"; "txt"]
  /\ Forall (fun ext =>
               extract_by_extension w ["pdf"; "docx"; "doc"; "txt"] ext p st
               = extract_by_extension w ["pdf"; "docx"; "txt"] ext p st
               /\ exists evs,
                   snd (extract_by_extension w ["pdf"; "docx"; "txt"] ext p st)
                   = add_events st (EvExtractImage p :: evs))
            ["jpg"; "jpeg"; "png"]
  /\ trace (snd (redtape_reducer world
                   (upload_request "complaint.doc"
                      (list_byte_of_string "Garbage")) start))
     = [EvTempFile "/tmp/tmp0.doc"; EvRemove "/tmp/tmp0.doc"; EvDecodeBody]
  /\ fst (redtape_reducer world
            (upload_request "complaint.doc" (list_byte_of_string "Garbage"))
            start)
     = {| body := JObj [("error", JStr "No text or file provided")];
          status := 400 |}.
Proof.
  split; [reflexivity |].
  split; [now apply extract_by_extension_calls |].
  split.
  { repeat match goal with
           | |- Forall _ (_ :: _) => constructor 2
           | |- Forall _ [] => constructor 1
           end; split; now apply extract_by_extension_calls. }
  split; [|split; reflexivity].
  repeat match goal with
         | |- Forall _ (_ :: _) => constructor 2
         | |- Forall _ [] => constructor 1
         end;
    (split; [reflexivity |]);
    match goal with
    | |- exists evs, snd (extract_by_extension _ _ ?ext _ _) = _ =>
        destruct (proj1 (proj2 (extract_by_extension_calls w upload_texts ext
                                  p st)) eq_refl eq_refl) as (evs & H & _);
        now exists evs
    end.
Qed.

(** *** C9: the two keys of a JSON file *)

(** C9: a JSON object that lacks one of the keys [file] and [file_type]
    leaves the state untouched (nothing is decoded, no file is created);
    when moreover its text is absent or blank, the handler goes on to
    decode the raw body, whose trimmed text, if any, is what is analysed. *)
Theorem json_file_needs_both_keys (w : World) (req : request) (st : state)
  (fields : list (string * json)) :
  method req = "POST" ->
  is_json req = true ->
  get_json req = JObj fields ->
  fields <> [] ->
  lookup_field "file" fields = None \/ lookup_field "file_type" fields = None ->
  snd (json_case w (JObj fields) st) = st
  /\ (no_text fields ->
      extract_content w req st = (Ok (inr ("", None)), st)
      /\ exists r,
          trace (snd (redtape_reducer w req st))
          = (trace st ++ EvDecodeBody :: r)%list
          /\ forall s, utf8_decode w (data req) = Ok s -> strip s <> "" ->
               r = [EvAnalyze (strip s) None]
               /\ fst (redtape_reducer w req st) =
                  finish w (outcome w (strip s, None))).
Proof.
  intros Hm Hj Hd Hne Hkeys. split; [now apply json_case_untouched |].
  intros Ht.
  assert (extract_content w req st = (Ok (inr ("", None)), st)) as E.
  { rewrite extract_content_json; [| exact Hj | rewrite Hd; now destruct fields].
    rewrite Hd, json_case_no_text by exact Ht.
    destruct Hkeys as [-> | ->]; [reflexivity |].
    now destruct (lookup_field "file" fields). }
  split; [exact E |].
  rewrite (redtape_reducer_resolved _ _ _ _ _ Hm E).
  exists (outcome_events (fallback w req ("", None))).
  split; [reflexivity |]. intros s Hs Hn. apply truthy_true in Hn.
  unfold fallback. cbn [fst snd truthy negb]. rewrite Hs, Hn.
  split; [|reflexivity]. unfold outcome_events. cbn [fst snd].
  now rewrite Hn.
Qed.

Lemma json_file_needs_both_keys_witness :
  snd (json_case world (JObj [("file", JStr "aGk=")]) start) = start
  /\ extract_content world lone_file_request start
     = (Ok (inr ("", None)), start)
  /\ trace (snd (redtape_reducer world lone_file_request start))
     = [EvDecodeBody; EvAnalyze lone_file_body None].
Proof.
  destruct (json_file_needs_both_keys world lone_file_request start
              [("file", JStr "aGk=")]) as [H1 H2].
  - reflexivity.
  - reflexivity.
  - reflexivity.
  - discriminate.
  - right. reflexivity.
  - split; [exact H1 |].
    destruct H2 as (E & r & Hr & Hs); [left; reflexivity |].
    split; [exact E |].
    destruct (Hs lone_file_body) as [-> _];
      [reflexivity | discriminate | exact Hr].
Defined.

(** *** C10: the case of the extension *)



End HandlerFacts.

(** ** Further facts about the string primitives *)

Module StringLaws.
Import PyStr StrFacts.

Lemma length_rstrip (s : string) : String.length (rstrip s) <= String.length s.
Proof.
  destruct (rstrip_split s) as (r & Hr & _).
  rewrite Hr at 2. rewrite slength_app. lia.
Qed.

Lemma length_strip (s : string) : String.length (strip s) <= String.length s.
Proof.
  unfold strip. pose proof (length_lstrip (rstrip s)).
  pose proof (length_rstrip s). lia.
Qed.

Lemma all_chars_app (f : ascii -> bool) (a b : string) :
  all_chars f (a +:+ b) = all_chars f a && all_chars f b.
Proof.
  induction a as [|c a IH]; [reflexivity |]. cbn [String.append all_chars].
  now rewrite IH, andb_assoc.
Qed.

Lemma lstrip_blank (s : string) : lstrip s = "" <-> all_chars isspace s = true.
Proof.
  induction s as [|c s IH]; [easy |]. cbn [lstrip all_chars].
  destruct (isspace c); [exact IH | easy].
Qed.

Lemma rstrip_blank (s : string) : all_chars isspace s = true -> rstrip s = "".
Proof.
  induction s as [|c s IH]; [easy |]. cbn [all_chars]. intros H.
  apply andb_true_iff in H as [Hc Hs]. rewrite rstrip_cons, (IH Hs).
  cbn [truthy]. now rewrite Hc.
Qed.

(** A text trims to nothing exactly when it is white space throughout. *)
Lemma strip_blank (s : string) : strip s = "" <-> all_chars isspace s = true.
Proof.
  split.
  - intros H. destruct (strip_split s) as (l & r & Hs & Hl & Hr).
    rewrite H in Hs. rewrite Hs, all_chars_app. cbn [String.append].
    now rewrite Hl, Hr.
  - intros H. unfold strip. now rewrite rstrip_blank.
Qed.

Lemma join_cons (sep p : string) (ps : list string) :
  ps <> [] -> join sep (p :: ps) = p +:+ sep +:+ join sep ps.
Proof. destruct ps; [congruence | reflexivity]. Qed.

Lemma join_blank (l : list string) :
  all_chars isspace (join " " l) = forallb (all_chars isspace) l.
Proof.
  induction l as [|p ps IH]; [reflexivity |].
  destruct ps as [|p' ps].
  - cbn [join forallb]. now rewrite andb_true_r.
  - rewrite join_cons by discriminate. rewrite !all_chars_app, IH.
    cbn [forallb]. reflexivity.
Qed.

Lemma take_drop (n : nat) (s : string) : take n s +:+ drop n s = s.
Proof.
  revert s. induction n as [|n IH]; intros [|c s]; cbn; try reflexivity.
  now rewrite IH.
Qed.

(** *** [endswith] *)

Lemma drop_add (s t : string) (k : nat) :
  drop (String.length s + k) (s +:+ t) = drop k t.
Proof. induction s as [|c s IH]; [reflexivity | exact IH]. Qed.

Lemma endswith_app_r (s t p : string) :
  String.length p <= String.length t ->
  endswith (s +:+ t) p = endswith t p.
Proof.
  intros H. unfold endswith. rewrite slength_app.
  replace (String.length s + String.length t - String.length p)
    with (String.length s + (String.length t - String.length p)) by lia.
  rewrite drop_add.
  destruct (Nat.leb_spec (String.length p) (String.length t)); [|lia].
  destruct (Nat.leb_spec (String.length p) (String.length s + String.length t));
    [reflexivity | lia].
Qed.

Lemma last_char_app (s t : string) :
  t <> "" -> last_char (s +:+ t) = last_char t.
Proof.
  intros H. induction s as [|c s IH]; [reflexivity |].
  cbn [String.append last_char]. rewrite IH.
  destruct (s +:+ t) eqn:E; [|reflexivity].
  destruct s; [cbn in E; congruence | discriminate].
Qed.

Lemma drop_suffix (n : nat) (s : string) :
  exists pre, s = pre +:+ drop n s.
Proof. exists (take n s). symmetry. apply take_drop. Qed.

Lemma endswith_last (s p : string) :
  endswith s p = true -> p <> "" -> last_char s = last_char p.
Proof.
  unfold endswith. intros H Hp. apply andb_true_iff in H as [_ H].
  apply String.eqb_eq in H.
  destruct (drop_suffix (String.length s - String.length p) s) as (pre & E).
  rewrite H in E. rewrite E. now apply last_char_app.
Qed.

End StringLaws.

(** ** The extension of a file name *)

Module ExtensionLaws.
Import PyStr StrFacts StringLaws.

Open Scope Z_scope.

Lemma rfind_from_lb (c : ascii) (s : string) (i : Z) :
  0 <= i -> -1 <= rfind_from c s i.
Proof.
  revert i. induction s as [|a r IH]; intros i Hi; cbn [rfind_from]; [lia |].
  destruct (Z.leb_spec 0 (rfind_from c r (i + 1))); [lia |].
  destruct (Ascii.eqb a c); lia.
Qed.

Lemma rfind_from_ge (c : ascii) (s : string) (i : Z) :
  0 <= rfind_from c s i -> i <= rfind_from c s i.
Proof.
  revert i. induction s as [|a r IH]; intros i; cbn [rfind_from]; [lia |].
  destruct (Z.leb_spec 0 (rfind_from c r (i + 1))) as [H|H].
  - intros _. specialize (IH _ H). lia.
  - destruct (Ascii.eqb a c); lia.
Qed.

Lemma split_cons (sep : ascii) (s : string) :
  exists h t, split sep s = h :: t.
Proof.
  induction s as [|a r (h & t & IH)]; [now exists "", [] |].
  cbn [split]. destruct (Ascii.eqb a sep); [now eexists _, _ |].
  rewrite IH. now eexists _, _.
Qed.

(** Without the separator there is one segment, the text itself. *)
Lemma split_absent (c : ascii) (s : string) (i : Z) :
  0 <= i -> rfind_from c s i < 0 -> split c s = [s].
Proof.
  revert i. induction s as [|a r IH]; intros i Hi; cbn [rfind_from split];
    [reflexivity |].
  destruct (Z.leb_spec 0 (rfind_from c r (i + 1))) as [H|H]; [lia |].
  destruct (Ascii.eqb a c); [lia |]. intros _.
  now rewrite (IH (i + 1)) by lia.
Qed.

(** With the separator there are at least two segments. *)
Lemma split_present (c : ascii) (s : string) (i : Z) :
  0 <= rfind_from c s i -> exists h h' t, split c s = h :: h' :: t.
Proof.
  revert i. induction s as [|a r IH]; intros i; cbn [rfind_from split]; [lia |].
  destruct (Z.leb_spec 0 (rfind_from c r (i + 1))) as [H|H].
  - intros _. destruct (IH _ H) as (h & h' & t & E). rewrite E.
    destruct (Ascii.eqb a c); now eexists _, _, _.
  - destruct (Ascii.eqb a c); [|lia]. intros _.
    destruct (split_cons c r) as (h & t & E). rewrite E. now eexists _, _, _.
Qed.

(** From the last separator on, a text is the separator and the last
    segment. *)
Lemma rfind_drop (c : ascii) (s : string) (i : Z) :
  0 <= i -> 0 <= rfind_from c s i ->
  drop (Z.to_nat (rfind_from c s i - i)) s
  = String c (List.last (split c s) ""%string).
Proof.
  revert i. induction s as [|a r IH]; intros i Hi; cbn [rfind_from split];
    [lia |].
  destruct (Z.leb_spec 0 (rfind_from c r (i + 1))) as [H|H].
  - intros _. pose proof (rfind_from_ge _ _ _ H) as Hge.
    replace (Z.to_nat (rfind_from c r (i + 1) - i))
      with (S (Z.to_nat (rfind_from c r (i + 1) - (i + 1)))) by lia.
    cbn [drop]. rewrite IH by lia. f_equal.
    destruct (split_present _ _ _ H) as (h & h' & t & E). rewrite E.
    destruct (Ascii.eqb a c); reflexivity.
  - destruct (Ascii.eqb_spec a c) as [->|]; [|lia]. intros _.
    rewrite Z.sub_diag. cbn [Z.to_nat drop].
    now rewrite (split_absent c r (i + 1)) by lia.
Qed.

(** The two ways in which the multipart branch reads the extension of a file
    name agree whenever [os.path.splitext] finds one: it is the dot and the
    last dot-separated segment. *)
Lemma splitext_last_segment (name : string) :
  snd (splitext name) <> ""%string ->
  snd (splitext name) = String "." (List.last (split "." name) ""%string).
Proof.
  unfold splitext, rfind.
  pose proof (rfind_from_lb "/" name 0 ltac:(lia)) as Hsep.
  destruct (Z.ltb_spec (rfind_from "/" name 0) (rfind_from "." name 0)) as [H|H];
    [|easy].
  destruct (all_chars _ _); [easy |]. intros _. cbn [snd].
  rewrite <- (rfind_drop "." name 0) by lia. now rewrite Z.sub_0_r.
Qed.

(** Behind the last occurrence of a character there is none. *)
Lemma rfind_after (c : ascii) (s : string) (i : Z) (n : nat) :
  0 <= i -> rfind_from c s i < i + Z.of_nat n ->
  contains c (drop n s) = false.
Proof.
  unfold contains. revert i n.
  induction s as [|a r IH]; intros i n Hi; [now destruct n |].
  cbn [rfind_from].
  destruct (Z.leb_spec 0 (rfind_from c r (i + 1))) as [H|H].
  - pose proof (rfind_from_ge _ _ _ H) as Hge. intros Hlt.
    destruct n as [|m]; [lia |]. cbn [drop].
    apply (IH (i + 1)); lia.
  - destruct (Ascii.eqb_spec a c) as [->|Hne]; intros Hlt.
    + destruct n as [|m]; [lia |]. cbn [drop]. apply (IH (i + 1)); lia.
    + destruct n as [|m].
      * cbn [drop all_chars]. apply Ascii.eqb_neq in Hne. rewrite Hne.
        cbn [negb andb]. apply (IH (i + 1) 0%nat); lia.
      * cbn [drop]. apply (IH (i + 1)); lia.
Qed.

(** The extension that [os.path.splitext] finds holds no path separator. *)
Lemma splitext_no_slash (name : string) :
  contains "/" (snd (splitext name)) = false.
Proof.
  unfold splitext, rfind.
  pose proof (rfind_from_lb "/" name 0 ltac:(lia)) as Hsep.
  destruct (Z.ltb_spec (rfind_from "/" name 0) (rfind_from "." name 0)) as [H|H];
    [|reflexivity].
  destruct (all_chars _ _); [reflexivity |]. cbn [snd].
  apply (rfind_after "/" name 0); lia.
Qed.

Close Scope Z_scope.

End ExtensionLaws.

(** ** Further facts about the sanitizer *)

Module SanitizerLaws.
Import PyStr Sanitizer Handler Cases StrFacts SanitizerFacts StringLaws.

(** *** The size of the sanitized reply *)

(** A match takes away its two fences at least. *)
Lemma match_here_length (s body rest : string) :
  match_here s = Some (body, rest) ->
  String.length body + String.length rest + 6 <= String.length s.
Proof.
  rewrite match_here_eq. destruct (startswith s fence); [|discriminate].
  intros H. apply lazy_body_split in H.
  pose proof (length_skip_tag (drop 3 s)) as L.
  rewrite H, !slength_app, length_drop in L. simpl in L. lia.
Qed.

Lemma sub_fuel_length (n : nat) (s : string) :
  String.length (sub_fuel n s) <= String.length s.
Proof.
  revert s. induction n as [|n IH]; intros s; cbn [sub_fuel]; [lia |].
  destruct (match_here s) as [[body rest]|] eqn:M.
  - apply match_here_length in M. rewrite slength_app.
    specialize (IH rest). lia.
  - destruct s as [|c r]; [simpl; lia |]. simpl. specialize (IH r). lia.
Qed.

Lemma sub_fuel_shrinks (n : nat) (s : string) :
  matchable s = true -> String.length s < n ->
  String.length (sub_fuel n s) + 6 <= String.length s.
Proof.
  revert s. induction n as [|n IH]; intros s Hm Hn; [lia |]. cbn [sub_fuel].
  destruct (match_here s) as [[body rest]|] eqn:M.
  - apply match_here_length in M. rewrite slength_app.
    pose proof (sub_fuel_length n rest). lia.
  - apply match_here_none in M. rewrite matchable_unfold, M in Hm.
    destruct s as [|c r]; [discriminate |]. cbn [orb] in Hm.
    simpl in Hn |- *. specialize (IH r Hm). lia.
Qed.

(** X18: what the sanitizer returns is never longer than the reply, has no white
    space at either end and holds no fenced block any more; a reply with a
    fenced block loses its two fences at least. *)
Theorem sanitize_shrinks (x : string) :
  String.length (sanitize x) <= String.length x
  /\ trimmed (sanitize x) = true
  /\ matchable (sanitize x) = false
  /\ (matchable x = true -> String.length (sanitize x) + 6 <= String.length x).
Proof.
  unfold sanitize. pose proof (length_strip (re_sub x)) as L.
  pose proof (sub_fuel_length (S (String.length x)) x) as L'.
  fold (re_sub x) in L'.
  split; [lia |]. split; [apply strip_trimmed |].
  split; [apply matchable_strip, re_sub_clean |].
  intros Hm. pose proof (sub_fuel_shrinks (S (String.length x)) x Hm) as S.
  fold (re_sub x) in S. lia.
Qed.

(** *** Text around a fenced block *)

Lemma plain_cons (a : ascii) (s : string) :
  plain (String a s) = true -> Ascii.eqb "`" a = false /\ plain s = true.
Proof.
  unfold plain. cbn [all_chars]. intros H.
  apply andb_true_iff in H as [H1 H2]. apply negb_true_iff in H1. now split.
Qed.

Lemma plain_lstrip (s : string) : plain s = true -> plain (lstrip s) = true.
Proof.
  induction s as [|a s IH]; [easy |]. intros H. cbn [lstrip].
  destruct (isspace a); [|exact H]. apply IH. now apply plain_cons in H.
Qed.

Lemma re_sub_cons (a : ascii) (r : string) :
  Ascii.eqb "`" a = false -> re_sub (String a r) = String a (re_sub r).
Proof.
  intros H. unfold re_sub. cbn [String.length].
  now rewrite sub_fuel_no_fence by now apply not_fence_head.
Qed.

Lemma re_sub_plain_app (pre s : string) :
  plain pre = true -> re_sub (pre +:+ s) = pre +:+ re_sub s.
Proof.
  induction pre as [|a pre IH]; [reflexivity |]. intros H.
  apply plain_cons in H as [Ha Hp]. cbn [String.append].
  now rewrite re_sub_cons, IH.
Qed.

Lemma lazy_body_plain (c post : string) :
  plain c = true -> lazy_body (c +:+ fence +:+ post) = Some (c, post).
Proof.
  induction c as [|a c IH]; [reflexivity |]. intros H.
  apply plain_cons in H as [Ha Hp]. cbn [String.append].
  now rewrite lazy_body_skip, IH.
Qed.

Lemma skip_tag_block (tag ws c post : string) :
  tag = "json" \/ (tag = "" /\ startswith (ws +:+ c) "json" = false) ->
  all_chars isspace ws = true ->
  skip_tag (tag +:+ ws +:+ c +:+ fence +:+ post) = lstrip c +:+ fence +:+ post.
Proof.
  intros Htag Hws. unfold skip_tag. destruct Htag as [-> | [-> Hj]].
  - rewrite startswith_self_app.
    change (drop 4 ("json" +:+ ws +:+ c +:+ fence +:+ post))
      with (ws +:+ c +:+ fence +:+ post).
    rewrite lstrip_spaces by exact Hws. apply lstrip_app_fence.
  - cbn [String.append].
    destruct (startswith (ws +:+ c +:+ fence +:+ post) "json") eqn:E.
    + rewrite <- sapp_assoc in E. apply startswith_json_fence in E. congruence.
    + rewrite lstrip_spaces by exact Hws. apply lstrip_app_fence.
Qed.

(** X19: a fenced block is unwrapped wherever it stands, and the text before and
    behind it is kept: a reply that wraps its JSON in prose does not become
    JSON by sanitizing.  The scan goes on behind the block. *)
Theorem prose_around_block_kept (pre tag ws c post : string) :
  plain pre = true ->
  tag = "json" \/ (tag = "" /\ startswith (ws +:+ c) "json" = false) ->
  all_chars isspace ws = true ->
  plain c = true ->
  re_sub (pre +:+ fence +:+ tag +:+ ws +:+ c +:+ fence +:+ post)
  = pre +:+ lstrip c +:+ re_sub post
  /\ sanitize (pre +:+ fence +:+ tag +:+ ws +:+ c +:+ fence +:+ post)
     = strip (pre +:+ lstrip c +:+ re_sub post).
Proof.
  intros Hpre Htag Hws Hc.
  assert (re_sub (pre +:+ fence +:+ tag +:+ ws +:+ c +:+ fence +:+ post)
          = pre +:+ lstrip c +:+ re_sub post) as H.
  { rewrite re_sub_plain_app by exact Hpre. f_equal.
    assert (match_here (fence +:+ tag +:+ ws +:+ c +:+ fence +:+ post)
            = Some (lstrip c, post)) as M.
    { rewrite match_here_eq, startswith_self_app.
      change (drop 3 (fence +:+ tag +:+ ws +:+ c +:+ fence +:+ post))
        with (tag +:+ ws +:+ c +:+ fence +:+ post).
      rewrite (skip_tag_block _ _ _ _ Htag Hws).
      apply lazy_body_plain. now apply plain_lstrip. }
    pose proof (match_here_shorter _ _ _ M) as L.
    unfold re_sub at 1. cbn [sub_fuel]. rewrite M. f_equal.
    apply sub_fuel_enough; lia. }
  split; [exact H |]. unfold sanitize. now rewrite H.
Qed.

Lemma prose_around_block_kept_witness :
  sanitize ("Here you go: " +:+ fence +:+ "json" +:+ nl +:+ "{}"
            +:+ fence +:+ " Anything else?")
  = "Here you go: {} Anything else?".
Proof.
  rewrite (proj2 (prose_around_block_kept "Here you go: " "json" nl "{}"
                    " Anything else?" eq_refl (or_introl eq_refl) eq_refl
                    eq_refl)).
  reflexivity.
Defined.

End SanitizerLaws.

(** ** Further properties of the handler *)

Module HandlerLaws.
Import PyStr Json Sanitizer Handler Scenario Cases.
Import StrFacts SanitizerFacts HandlerFacts StringLaws ExtensionLaws.

(** *** The reader that [extract_text_from_file] picks *)

Lemma untrimmed_by_suffix (w : World) (x : string) (b : bytes) :
  untrimmed_text w (x +:+ ".txt") b = read_text w b
  /\ untrimmed_text w (x +:+ ".pdf") b
     = res_bind (pdf_pages w b) (fun pages => Ok (pdf_concat pages))
  /\ untrimmed_text w (x +:+ ".docx") b = docx_text w b
  /\ untrimmed_text w (x +:+ ".doc") b = Ok "".
Proof.
  unfold untrimmed_text.
  rewrite (endswith_app_r x ".txt" ".txt"), (endswith_app_r x ".pdf" ".txt"),
    (endswith_app_r x ".pdf" ".pdf"), (endswith_app_r x ".docx" ".txt"),
    (endswith_app_r x ".docx" ".pdf"), (endswith_app_r x ".docx" ".docx"),
    (endswith_app_r x ".doc" ".txt"), (endswith_app_r x ".doc" ".pdf")
    by (cbn; lia).
  repeat split.
  change (endswith ".doc" ".txt") with false.
  change (endswith ".doc" ".pdf") with false. cbv iota.
  destruct (endswith (x +:+ ".doc") ".docx") eqn:E; [|reflexivity].
  apply endswith_last in E; [|discriminate].
  rewrite last_char_app in E by discriminate. discriminate.
Qed.

(** The suffix of the temporary file, lower-cased, is the dot and the
    extension on which the handler branches. *)
Lemma shape_suffix (w : World) (req : request) (suffix : string) (b : bytes)
  (texts : list string) (ext : string) (pre : list event) :
  file_shape w req suffix b texts ext pre ->
  suffix <> "" ->
  lower suffix = "." +:+ ext.
Proof.
  intros (_ & [(_ & fields & f & d & _ & _ & _ & _ & _ & -> & -> & _)
              |(_ & u & _ & _ & -> & _ & -> & _)]) Hs.
  - rewrite lower_app, lower_idem. reflexivity.
  - rewrite (splitext_last_segment _ Hs). reflexivity.
Qed.

Lemma stored_file_text (w : World) (req : request) (st : state)
  (suffix : string) (b : bytes) (texts : list string) (ext : string)
  (pre : list event) :
  let p := tmp_stem w (tmp_count st) +:+ suffix in
  file_shape w req suffix b texts ext pre ->
  suffix <> "" ->
  extract_text_from_file w p (state_stored st pre p b)
  = (file_text w (lower (tmp_stem w (tmp_count st)) +:+ "." +:+ ext) b,
     state_stored st pre p b).
Proof.
  intros p Hshape Hs.
  rewrite (extract_text_from_file_run w p b) by apply lookup_insert_eq.
  unfold p. now rewrite lower_app, (shape_suffix _ _ _ _ _ _ _ Hshape Hs).
Qed.

(** X12: both file branches hand the stored file to the reader that matches the
    extension they branched on, provided the temporary file got a suffix
    (always so for a JSON file; for an upload, when [os.path.splitext] finds
    an extension in its name). *)
Theorem reader_matches_extension (w : World) (req : request) (st : state)
  (suffix : string) (b : bytes) (texts : list string) (ext : string)
  (pre : list event) :
  let p := tmp_stem w (tmp_count st) +:+ suffix in
  let st1 := state_stored st pre p b in
  file_shape w req suffix b texts ext pre ->
  suffix <> "" ->
  (ext = "txt" ->
   extract_text_from_file w p st1
   = (res_bind (read_text w b) (fun t => Ok (strip t)), st1))
  /\ (ext = "pdf" ->
      extract_text_from_file w p st1
      = (res_bind (pdf_pages w b)
           (fun pages => Ok (strip (pdf_concat pages))), st1))
  /\ (ext = "docx" ->
      extract_text_from_file w p st1
      = (res_bind (docx_text w b) (fun t => Ok (strip t)), st1)).
Proof.
  intros p st1 Hshape Hs. unfold st1, p.
  rewrite (stored_file_text _ _ _ _ _ _ _ _ Hshape Hs). unfold file_text.
  destruct (untrimmed_by_suffix w (lower (tmp_stem w (tmp_count st))) b)
    as (H1 & H2 & H3 & _).
  repeat split; intros ->.
  - change ("." +:+ "txt") with ".txt". now rewrite H1.
  - change ("." +:+ "pdf") with ".pdf". rewrite H2.
    now destruct (pdf_pages w b).
  - change ("." +:+ "docx") with ".docx". now rewrite H3.
Qed.

Lemma upload_request_shape (w : World) (name : string) (b : bytes) :
  name <> "" ->
  temp_fault w (snd (splitext name)) = None ->
  file_shape w (upload_request name b) (snd (splitext name)) b upload_texts
             (lower (List.last (split "." name) "")) [].
Proof.
  intros H Hv. split; [exact Hv |]. right. split; [reflexivity |].
  exists {| filename := name; content := b |}. now repeat split.
Defined.

Lemma json_file_shape (w : World) (text f d : string) (b : bytes) :
  b64decode w f = Ok b ->
  temp_fault w ("." +:+ lower d) = None ->
  file_shape w
    (json_request text (JObj [("file", JStr f); ("file_type", JStr d)]))
    ("." +:+ lower d) b json_texts (lower d) [EvB64Decode].
Proof.
  intros H Hv. split; [exact Hv |]. left. split; [reflexivity |].
  exists [("file", JStr f); ("file_type", JStr d)], f, d.
  repeat split; [now left | exact H].
Defined.

Lemma reader_matches_extension_witness :
  extract_text_from_file world "/tmp/tmp0.txt"
    (state_stored start [] "/tmp/tmp0.txt" (list_byte_of_string "Garbage"))
  = (Ok "Garbage",
     state_stored start [] "/tmp/tmp0.txt" (list_byte_of_string "Garbage")).
Proof.
  apply (proj1 (reader_matches_extension world
                  (upload_request "complaint.txt" (list_byte_of_string "Garbage"))
                  start ".txt" (list_byte_of_string "Garbage") upload_texts
                  "txt" []
                  (upload_request_shape world "complaint.txt" _
                     ltac:(discriminate) eq_refl)
                  ltac:(discriminate))).
  reflexivity.
Defined.

(** *** Requests that resolve no text *)

Lemma resolved_empty_raw (w : World) (req : request) (st st1 : state) :
  method req = "POST" ->
  extract_content w req st = (Ok (inr ("", None)), st1) ->
  fst (redtape_reducer w req st) = fst (redtape_reducer w (as_raw req) st)
  /\ snd (redtape_reducer w req st)
     = add_events st1
         (EvDecodeBody :: outcome_events (fallback w req ("", None))).
Proof.
  intros Hm E. rewrite (redtape_reducer_resolved _ _ _ _ _ Hm E).
  rewrite (redtape_reducer_resolved w (as_raw req) st st ("", None) Hm eq_refl).
  now split.
Qed.

(** X11: a JSON file declared as [doc] is stored, handed to the text extractor
    and removed, but no reader is run on it: whatever it holds, the request
    is answered as if it had brought its raw body alone. *)
Theorem json_doc_never_read (w : World) (req : request) (st : state)
  (suffix : string) (b : bytes) (texts : list string) (pre : list event) :
  let p := tmp_stem w (tmp_count st) +:+ ".doc" in
  method req = "POST" ->
  is_json req = true ->
  file_shape w req suffix b texts "doc" pre ->
  extract_content w req st
  = (Ok (inr ("", None)),
     state_released (add_events st [EvB64Decode]) p [EvExtractFile p])
  /\ fst (redtape_reducer w req st) = fst (redtape_reducer w (as_raw req) st).
Proof.
  intros p Hm Hj Hshape.
  pose proof (file_shape_run w req st _ _ _ _ _ Hshape) as E. cbv zeta in E.
  destruct Hshape
    as (_ & [(_ & fields & f & d & _ & _ & _ & _ & _ & -> & Hd & -> & ->)
            |(Hn & _)]); [|congruence].
  rewrite <- Hd in E. change ("." +:+ "doc") with ".doc" in E. fold p in E.
  unfold route, route_events, file_text in E.
  change (mem "doc" json_texts) with true in E. cbv iota in E.
  unfold p in E at 1. rewrite lower_app in E.
  change (lower ".doc") with ".doc" in E.
  destruct (untrimmed_by_suffix w (lower (tmp_stem w (tmp_count st))) b)
    as (_ & _ & _ & H4).
  rewrite H4 in E. cbn [res_bind] in E. change (strip "") with "" in E.
  split; [exact E |]. now apply (resolved_empty_raw _ _ _ _ Hm E).
Qed.

Lemma json_doc_never_read_witness :
  extract_content world doc_request start
  = (Ok (inr ("", None)),
     state_released (add_events start [EvB64Decode]) "/tmp/tmp0.doc"
       [EvExtractFile "/tmp/tmp0.doc"])
  /\ fst (redtape_reducer world doc_request start)
     = fst (redtape_reducer world (as_raw doc_request) start).
Proof.
  exact (json_doc_never_read world doc_request start ".doc"
           (list_byte_of_string "hi") json_texts [EvB64Decode] eq_refl eq_refl
           (json_file_shape world doc_body "aGk=" "doc" _ eq_refl eq_refl)).
Defined.

(** *** The pages of a PDF *)

Lemma pdf_fold (pages : list (option string)) (acc : string) :
  fold_left
    (fun text page_text =>
       match page_text with
       | Some t => if truthy t then text +:+ t +:+ nl else text
       | None => text
       end)
    pages acc
  = acc +:+ pdf_concat pages.
Proof.
  unfold pdf_concat. revert acc.
  induction pages as [|page pages IH]; intros acc; cbn [fold_left].
  - now rewrite sapp_nil_r.
  - rewrite IH, (IH (match page with Some t => _ | None => _ end)).
    rewrite <- sapp_assoc. f_equal.
    destruct page as [t|]; [destruct (truthy t) |];
      now rewrite ?sapp_nil_r.
Qed.

Lemma pdf_concat_page (page : option string) (pages : list (option string)) :
  pdf_concat (page :: pages)
  = match page with
    | Some t => if truthy t then t +:+ nl else ""
    | None => ""
    end +:+ pdf_concat pages.
Proof.
  unfold pdf_concat at 1. cbn [fold_left]. rewrite pdf_fold.
  now destruct page as [t|]; [destruct (truthy t) |].
Qed.

Lemma pdf_concat_textless (pages : list (option string)) :
  textless pages -> pdf_concat pages = "".
Proof.
  induction 1 as [|page pages [-> | ->] _ IH]; [reflexivity | |];
    now rewrite pdf_concat_page, IH.
Qed.

(** X13: the text of a PDF is the text of its pages in order, every page that has
    text followed by a line feed; a page without text adds nothing. *)
Theorem pdf_concat_by_page :
  (forall front rest : list (option string),
      pdf_concat (front ++ rest)%list = pdf_concat front +:+ pdf_concat rest)
  /\ (forall (t : string) (rest : list (option string)),
         t <> "" -> pdf_concat (Some t :: rest) = t +:+ nl +:+ pdf_concat rest)
  /\ (forall rest : list (option string),
         pdf_concat (None :: rest) = pdf_concat rest
         /\ pdf_concat (Some "" :: rest) = pdf_concat rest).
Proof.
  repeat split.
  - intros front rest. induction front as [|page front IH]; [reflexivity |].
    cbn [app]. now rewrite !pdf_concat_page, IH, sapp_assoc.
  - intros t rest Ht. rewrite pdf_concat_page.
    apply truthy_true in Ht. rewrite Ht. now rewrite sapp_assoc.
Qed.

Lemma pdf_concat_by_page_witness :
  pdf_concat ([Some "a"] ++ [None; Some "b"])%list
  = pdf_concat [Some "a"] +:+ pdf_concat [None; Some "b"]
  /\ pdf_concat [Some "a"; None; Some "b"]
     = "a" +:+ nl +:+ pdf_concat [None; Some "b"].
Proof.
  destruct pdf_concat_by_page as (H1 & H2 & _). split.
  - apply H1.
  - apply H2. discriminate.
Defined.

(** X14: a PDF none of whose pages has text gives the empty text, in both file
    branches: the request is then answered as if it had brought its raw body
    alone. *)
Theorem textless_pdf_gives_no_text (w : World) (req : request) (st : state)
  (suffix : string) (b : bytes) (texts : list string) (pre : list event)
  (pages : list (option string)) :
  let p := tmp_stem w (tmp_count st) +:+ suffix in
  method req = "POST" ->
  file_shape w req suffix b texts "pdf" pre ->
  suffix <> "" ->
  pdf_pages w b = Ok pages ->
  textless pages ->
  extract_by_extension w texts "pdf" p (state_stored st pre p b)
  = (Ok ("", None), add_events (state_stored st pre p b) [EvExtractFile p])
  /\ fst (redtape_reducer w req st) = fst (redtape_reducer w (as_raw req) st)
  /\ fs (snd (redtape_reducer w req st)) = delete p (fs st).
Proof.
  intros p Hm Hshape Hs Hpages Hblank.
  pose proof (stored_file_text w req st _ _ _ _ _ Hshape Hs) as Hread.
  cbv zeta in Hread. fold p in Hread. unfold file_text in Hread.
  change ("." +:+ "pdf") with ".pdf" in Hread.
  rewrite (proj1 (proj2 (untrimmed_by_suffix w _ b))), Hpages in Hread.
  cbn [res_bind] in Hread. rewrite (pdf_concat_textless _ Hblank) in Hread.
  change (strip "") with "" in Hread.
  assert (mem "pdf" texts = true) as Hmem
    by (destruct Hshape
          as (_ & [(_ & ? & ? & ? & ? & ? & ? & ? & ? & ? & ? & -> & _)
                  |(_ & ? & ? & ? & ? & ? & ? & -> & _)]);
        reflexivity).
  assert (extract_by_extension w texts "pdf" p (state_stored st pre p b)
          = (Ok ("", None),
             add_events (state_stored st pre p b) [EvExtractFile p])) as Hx.
  { pose proof (extract_by_extension_run w texts "pdf" p b
                  (state_stored st pre p b) (lookup_insert_eq _ _ _)) as R.
    pose proof (extract_text_from_file_run w p b (state_stored st pre p b)
                  (lookup_insert_eq _ _ _)) as F.
    rewrite Hread in F. injection F as F.
    unfold route, route_events in R. rewrite Hmem, <- F in R. exact R. }
  split; [exact Hx |].
  pose proof (file_shape_run w req st _ _ _ _ _ Hshape) as E. cbv zeta in E.
  fold p in E.
  rewrite <- (stored_route w texts "pdf" p b st pre), Hx in E. cbn [fst] in E.
  destruct (resolved_empty_raw _ _ _ _ Hm E) as (R1 & R2).
  split; [exact R1 |]. rewrite R2. reflexivity.
Qed.

Lemma textless_pdf_gives_no_text_witness :
  fst (redtape_reducer blank_world pdf_request start)
  = fst (redtape_reducer blank_world (as_raw pdf_request) start)
  /\ fs (snd (redtape_reducer blank_world pdf_request start))
     = delete "/tmp/tmp0.pdf" (fs start).
Proof.
  refine (proj2 (textless_pdf_gives_no_text blank_world pdf_request start ".pdf"
                   (list_byte_of_string "hi") json_texts [EvB64Decode]
                   [None; Some ""] eq_refl
                   (json_file_shape blank_world pdf_body "aGk=" "pdf" _ eq_refl
                      eq_refl)
                   ltac:(discriminate) eq_refl _)).
  constructor; [now left | constructor; [now right | constructor]].
Defined.

(** *** OCR and the classifier *)

(** X15: the classifier is asked exactly when OCR finds nothing but white space:
    every fragment is blank (or there is none).  Otherwise the fragments,
    joined by single spaces and trimmed, are the grievance text and no
    classification is made. *)
Theorem classifier_iff_ocr_blank (w : World) (texts : list string)
  (ext p : string) (b : bytes) (st : state) (frags : list string) :
  texts = json_texts \/ texts = upload_texts ->
  mem ext images = true ->
  fs st !! p = Some b ->
  ocr_fragments w b = Ok frags ->
  (forallb (all_chars isspace) frags = true ->
   extract_by_extension w texts ext p st
   = (res_bind (fst (classify_image_with_gemini w p st))
               (fun c => Ok (sentinel, Some c)),
      add_events st [EvExtractImage p; EvClassify p]))
  /\ (forallb (all_chars isspace) frags = false ->
      extract_by_extension w texts ext p st
      = (Ok (strip (join " " frags), None), add_events st [EvExtractImage p])).
Proof.
  intros Ht Hi Hp Ho.
  rewrite (extract_by_extension_run _ _ _ _ _ _ Hp).
  rewrite (classify_image_run _ _ _ _ Hp). cbn [fst].
  unfold route, route_events, image_text.
  rewrite (images_not_texts _ _ Ht Hi), Hi, Ho. cbn [res_bind].
  rewrite strip_idem. rewrite <- join_blank.
  split; intros Hb.
  - apply strip_blank in Hb. rewrite Hb. reflexivity.
  - destruct (strip (join " " frags)) eqn:E; [|reflexivity].
    apply strip_blank in E. congruence.
Qed.

Lemma classifier_iff_ocr_blank_witness :
  extract_by_extension scan_world upload_texts "png" "/tmp/tmp0.png" png_state
  = (Ok ("pothole ahead", None),
     add_events png_state [EvExtractImage "/tmp/tmp0.png"]).
Proof.
  exact (proj2 (classifier_iff_ocr_blank scan_world upload_texts "png"
                  "/tmp/tmp0.png" (list_byte_of_string "pixels") png_state
                  [" pothole"; "ahead "] (or_intror eq_refl) eq_refl eq_refl
                  eq_refl) eq_refl).
Defined.

(** *** Every way in which the shape resolution ends *)

Lemma json_case_ends (w : World) (d : json) (st : state) :
  (exists fields s,
      d = JObj fields /\ lookup_field "text" fields = Some (JStr s)
      /\ strip s <> "" /\ json_case w d st = (Ok (s, None), st))
  \/ json_case w d st = (Ok ("", None), st)
  \/ (exists e, json_case w d st = (Raise e, st))
  \/ json_case w d st = json_file_case w d st.
Proof.
  unfold json_case, bind, lift, ret.
  destruct (py_in "text" d) as [[|]|e] eqn:Hin;
    [| |right; right; left; now exists e].
  - destruct (py_getitem d "text") as [v|e] eqn:Hget;
      [|right; right; left; now exists e].
    destruct (as_str v "strip") as [s|e] eqn:Hs;
      [|right; right; left; now exists e].
    destruct (truthy (strip s)) eqn:T.
    + left. destruct d; try discriminate. cbn [py_getitem] in Hget.
      destruct (lookup_field "text" fields) as [v'|] eqn:L; [|discriminate].
      injection Hget as ->. destruct v; try discriminate.
      injection Hs as ->. exists fields, s.
      split; [reflexivity |]. split; [exact L |].
      split; [now apply truthy_true | reflexivity].
    + right.
      destruct (py_in "file" d) as [[|]|e];
        [destruct (py_in "file_type" d) as [[|]|e] | |];
        solve [left; reflexivity | right; left; eexists; reflexivity
              | right; right; reflexivity].
  - right.
    destruct (py_in "file" d) as [[|]|e];
      [destruct (py_in "file_type" d) as [[|]|e] | |];
      solve [left; reflexivity | right; left; eexists; reflexivity
            | right; right; reflexivity].
Qed.

Lemma extract_content_ends (w : World) (req : request) (st : state) :
  (is_json req = true /\ json_truthy (get_json req) = false
   /\ extract_content w req st = (Ok (inl invalid_json), st))
  \/ (exists s,
         extract_content w req st = (Ok (inr (s, None)), st)
         /\ (s = ""
             \/ (is_json req = true /\ json_truthy (get_json req) = true
                 /\ exists fields,
                     get_json req = JObj fields
                     /\ lookup_field "text" fields = Some (JStr s)
                     /\ strip s <> "")))
  \/ (exists e pre,
         extract_content w req st = (Raise e, add_events st pre)
         /\ (pre = [] \/ pre = [EvB64Decode]))
  \/ (exists suffix b texts ext pre,
         (texts = json_texts \/ texts = upload_texts)
         /\ (pre = [] \/ pre = [EvB64Decode])
         /\ extract_content w req st
            = match temp_section w suffix b texts ext (add_events st pre) with
              | (Ok r, st1) => (Ok (inr r), st1)
              | (Raise e, st1) => (Raise e, st1)
              end).
Proof.
  unfold extract_content. destruct (is_json req) eqn:J.
  - destruct (json_truthy (get_json req)) eqn:T; cbn [negb];
      [|left; now repeat split].
    right. unfold bind, ret.
    destruct (json_case_ends w (get_json req) st)
      as [(fields & s & Hd & Hl & Hs & E)|[E|[(e & E)|E]]]; rewrite E.
    + left. exists s. split; [reflexivity |]. right.
      split; [reflexivity |]. split; [reflexivity |]. now exists fields.
    + left. exists "". split; [reflexivity | now left].
    + right. left. exists e, []. rewrite add_events_nil. now split; [|left].
    + right.
      destruct (json_file_case_cases w (get_json req) st)
        as [(e & pre & E' & Hpre)|(sfx & b & ext & E')]; rewrite E'.
      * left. exists e, pre. now split.
      * right. exists sfx, b, json_texts, ext, [EvB64Decode].
        split; [now left |]. split; [now right | reflexivity].
  - right. destruct (files req) as [|x l] eqn:F.
    { left. exists "". split; [reflexivity | now left]. }
    unfold bind, ret.
    destruct (files_get "file" (files req)) as [u|] eqn:G.
    + destruct (String.eqb_spec (filename u) "") as [N|N].
      * unfold multipart_case. rewrite G, N.
        left. exists "". split; [reflexivity | now left].
      * rewrite (multipart_case_run w req u st G N).
        right. right. exists (snd (splitext (filename u))), (content u),
          upload_texts, (lower (List.last (split "." (filename u)) "")), [].
        rewrite add_events_nil.
        split; [now right |]. split; [now left | reflexivity].
    + unfold multipart_case. rewrite G.
      left. exists "". split; [reflexivity | now left].
Qed.

(** Every way in which the entry point ends. *)
Lemma redtape_reducer_ends (w : World) (req : request) (st : state) :
  (method req <> "POST" /\ redtape_reducer w req st = (not_allowed, st))
  \/ (method req = "POST"
      /\ ((is_json req = true /\ json_truthy (get_json req) = false
           /\ redtape_reducer w req st = (invalid_json, st))
          \/ (exists e st1,
                 extract_content w req st = (Raise e, st1)
                 /\ redtape_reducer w req st = (server_error w e, st1))
          \/ (exists r st1,
                 extract_content w req st = (Ok (inr r), st1)
                 /\ redtape_reducer w req st
                    = (finish w (outcome w (fallback w req r)),
                       add_events st1
                         (fallback_events r
                          ++ outcome_events (fallback w req r)))))).
Proof.
  destruct (String.eqb_spec (method req) "POST") as [Hm|Hm].
  - right. split; [exact Hm |].
    rewrite (redtape_reducer_post _ _ _ Hm), handle_run.
    destruct (extract_content_ends w req st)
      as [(J & T & E)|[(s & E & _)|[(e & pre & E & _)
         |(sfx & b & texts & ext & pre & _ & _ & E)]]].
    + left. rewrite E. now repeat split.
    + right. right. exists (s, None), st. rewrite E. now split.
    + right. left. exists e, (add_events st pre). rewrite E. now split.
    + right. rewrite E.
      destruct (temp_section w sfx b texts ext (add_events st pre))
        as [[r|e] st1].
      * right. exists r, st1. now split.
      * left. exists e, st1. now split.
  - left. split; [exact Hm |]. unfold redtape_reducer.
    destruct (String.eqb_spec (method req) "POST"); [contradiction |].
    reflexivity.
Qed.

Lemma status_sanitize_and_parse (w : World) (result : string) :
  status (sanitize_and_parse w result) = 200.
Proof.
  unfold sanitize_and_parse. now destruct (loads w (sanitize result)).
Qed.

(** What the outer [try] makes of the analysis step. *)
Lemma finish_outcome (w : World) (r : resolved) :
  (fst r = "" /\ finish w (outcome w r) = no_input)
  \/ (fst r <> ""
      /\ ((exists result,
              generate w [Text (analysis_message w (fst r) (snd r))] = Ok result
              /\ finish w (outcome w r) = sanitize_and_parse w result)
          \/ (exists e,
                 generate w [Text (analysis_message w (fst r) (snd r))] = Raise e
                 /\ finish w (outcome w r) = server_error w e))).
Proof.
  unfold outcome. destruct (fst r) eqn:F; cbn [truthy negb].
  - left. now split.
  - right. split; [discriminate |].
    destruct (generate w _) as [result|e]; cbn [res_bind finish].
    + left. now exists result.
    + right. now exists e.
Qed.

(** *** The answers of the entry point *)

(** X1: every answer is one of five: the 405 of a request that is not a POST,
    the two 400 answers, a 500 carrying the text of an exception, or what
    the reply of the model was parsed into, with status 200.  The status is
    405 exactly for requests that are not a POST. *)
Theorem response_classes (w : World) (req : request) (st : state) :
  let r := fst (redtape_reducer w req st) in
  ((method req <> "POST" /\ r = not_allowed)
   \/ (method req = "POST"
       /\ (r = invalid_json \/ r = no_input
           \/ (exists e, r = server_error w e)
           \/ (exists result, r = sanitize_and_parse w result))))
  /\ In (status r) [200; 400; 405; 500]
  /\ (status r = 405 <-> method req <> "POST")
  /\ (status r = 200 <-> exists result, r = sanitize_and_parse w result).
Proof.
  intros r.
  assert ((method req <> "POST" /\ r = not_allowed)
          \/ (method req = "POST"
              /\ (r = invalid_json \/ r = no_input
                  \/ (exists e, r = server_error w e)
                  \/ (exists result, r = sanitize_and_parse w result)))) as H.
  { unfold r.
    destruct (redtape_reducer_ends w req st)
      as [(Hm & E)|(Hm & [(_ & _ & E)|[(e & st1 & _ & E)|(x & st1 & _ & E)]])];
      rewrite E; cbn [fst].
    - left. now split.
    - right. split; [exact Hm |]. now left.
    - right. split; [exact Hm |]. right. right. left. now exists e.
    - right. split; [exact Hm |].
      destruct (finish_outcome w (fallback w req x))
        as [(_ & F)|(_ & [(res & _ & F)|(e & _ & F)])]; rewrite F.
      + right. now left.
      + right. right. right. now exists res.
      + right. right. left. now exists e. }
  split; [exact H |].
  destruct H as [(Hm & ->)|(Hm & [-> | [-> | [(e & ->)|(res & ->)]]])];
    rewrite ?status_sanitize_and_parse; cbn [status not_allowed invalid_json
      no_input server_error with_status In].
  - split; [tauto |]. split; [tauto |]. split; [discriminate |].
    intros (res & E). apply (f_equal status) in E.
    rewrite status_sanitize_and_parse in E. discriminate.
  - split; [tauto |]. split; [split; [discriminate | tauto] |].
    split; [discriminate |].
    intros (res & E). apply (f_equal status) in E.
    rewrite status_sanitize_and_parse in E. discriminate.
  - split; [tauto |]. split; [split; [discriminate | tauto] |].
    split; [discriminate |].
    intros (res & E). apply (f_equal status) in E.
    rewrite status_sanitize_and_parse in E. discriminate.
  - split; [tauto |]. split; [split; [discriminate | tauto] |].
    split; [discriminate |].
    intros (res & E). apply (f_equal status) in E.
    rewrite status_sanitize_and_parse in E. discriminate.
  - split; [tauto |]. split; [split; [discriminate | tauto] |].
    split; [intros _; now exists res | intros _; reflexivity].
Qed.

(** X2: a JSON request whose parsed body is falsy ([None] for a body that does
    not parse, an empty object, array or string, zero, [false]) is answered
    400 "Invalid JSON" with nothing read, stored or called; and that answer
    is given to no other request. *)
Theorem invalid_json_iff (w : World) (req : request) (st : state) :
  (fst (redtape_reducer w req st) = invalid_json
   <-> method req = "POST" /\ is_json req = true
       /\ json_truthy (get_json req) = false)
  /\ (fst (redtape_reducer w req st) = invalid_json ->
      snd (redtape_reducer w req st) = st).
Proof.
  assert (forall x, sanitize_and_parse w x <> invalid_json) as Hs.
  { intros x E. apply (f_equal status) in E.
    rewrite status_sanitize_and_parse in E. discriminate. }
  assert (forall x, finish w (outcome w x) <> invalid_json) as Hf.
  { intros x.
    destruct (finish_outcome w x) as [(_ & F)|(_ & [(res & _ & F)|(e & _ & F)])];
      rewrite F; [discriminate | apply Hs | discriminate]. }
  destruct (redtape_reducer_ends w req st)
    as [(Hm & E)|(Hm & [(J & T & E)|[(e & st1 & X & E)|(x & st1 & X & E)]])];
    rewrite E; cbn [fst snd].
  - split; [|discriminate]. split; [discriminate | tauto].
  - split; [|reflexivity]. split; [now repeat split | reflexivity].
  - split; [|discriminate]. split; [discriminate |].
    intros (_ & J & T). unfold extract_content in X. rewrite J, T in X.
    discriminate.
  - split; [|intros F; now apply Hf in F]. split; [intros F; now apply Hf in F |].
    intros (_ & J & T). unfold extract_content in X. rewrite J, T in X.
    discriminate.
Qed.

(** *** The analysis call *)

Lemma fallback_events_quiet (r : resolved) : quiet (fallback_events r).
Proof.
  intros t o. unfold fallback_events.
  destruct (negb (truthy (fst r))); cbn; intuition discriminate.
Qed.

Lemma quiet_app (l1 l2 : list event) : quiet l1 -> quiet l2 -> quiet (l1 ++ l2).
Proof.
  intros H1 H2 t o H. apply in_app_or in H as [H | H];
    [exact (H1 t o H) | exact (H2 t o H)].
Qed.

Lemma quiet_nil : quiet [].
Proof. intros t o []. Qed.

(** X4: the model is asked for an analysis at most once per request, as the
    last call, and never about an empty text; the answer is then made of its
    reply.  A request answered 400 or 405 asks for no analysis. *)
Theorem model_called_once (w : World) (req : request) (st : state) :
  exists evs,
    trace (snd (redtape_reducer w req st)) = (trace st ++ evs)%list
    /\ ((quiet evs /\ status (fst (redtape_reducer w req st)) <> 200)
        \/ exists evs0 t o,
            evs = (evs0 ++ [EvAnalyze t o])%list /\ quiet evs0 /\ t <> ""
            /\ fst (redtape_reducer w req st)
               = finish w
                   (res_bind (fst (analyze_grievance w t "text" o st))
                      (fun result => Ok (sanitize_and_parse w result)))
            /\ (status (fst (redtape_reducer w req st)) = 200
                \/ status (fst (redtape_reducer w req st)) = 500)).
Proof.
  destruct (redtape_reducer_ends w req st)
    as [(Hm & E)|(Hm & [(_ & _ & E)|[(e & st1 & X & E)|(r & st1 & X & E)]])];
    rewrite E; cbn [fst snd].
  - exists []. rewrite app_nil_r. split; [reflexivity |]. left.
    split; [apply quiet_nil | discriminate].
  - exists []. rewrite app_nil_r. split; [reflexivity |]. left.
    split; [apply quiet_nil | discriminate].
  - destruct (extract_content_trace w req st) as (evs & Ht & Q).
    rewrite X in Ht. exists evs. split; [exact Ht |]. left.
    split; [exact Q | discriminate].
  - destruct (extract_content_trace w req st) as (evs & Ht & Q).
    rewrite X in Ht. cbn [snd] in Ht. cbn [add_events trace]. rewrite Ht.
    pose proof (fallback_events_quiet r) as Qf.
    destruct (fallback w req r) as [t o]. unfold outcome_events, outcome.
    cbn [fst snd]. destruct t as [|a t]; cbn [truthy negb].
    + exists (evs ++ fallback_events r)%list.
      rewrite app_nil_r, app_assoc. split; [reflexivity |]. left.
      split; [now apply quiet_app | discriminate].
    + exists (evs ++ fallback_events r ++ [EvAnalyze (String a t) o])%list.
      rewrite <- app_assoc. split; [reflexivity |]. right.
      exists (evs ++ fallback_events r)%list, (String a t), o.
      rewrite <- app_assoc. split; [reflexivity |].
      split; [now apply quiet_app |]. split; [discriminate |].
      rewrite analyze_grievance_text. cbn [fst].
      split; [reflexivity |].
      destruct (generate w _) as [result|e]; cbn [res_bind finish].
      * left. apply status_sanitize_and_parse.
      * now right.
Qed.

(** *** The files that a request touches *)

Lemma extract_content_files (w : World) (req : request) (st : state) :
  let st1 := snd (extract_content w req st) in
  (fs st1 = fs st /\ tmp_count st1 = tmp_count st)
  \/ exists suffix,
      tmp_count st1 = S (tmp_count st)
      /\ (fs st1 = delete (tmp_stem w (tmp_count st) +:+ suffix) (fs st)
          \/ exists b,
              fs st1 = <[tmp_stem w (tmp_count st) +:+ suffix := b]> (fs st)).
Proof.
  intros st1. unfold st1.
  destruct (extract_content_ends w req st)
    as [(_ & _ & E)|[(s & E & _)|[(e & pre & E & _)
       |(sfx & b & texts & ext & pre & _ & _ & E)]]]; rewrite E.
  - now left.
  - now left.
  - now left.
  - rewrite temp_section_run.
    destruct (temp_fault w sfx); [now left |]. right. exists sfx.
    change (tmp_count (add_events st pre)) with (tmp_count st).
    destruct (route w texts ext _ b); cbn [snd state_released state_leaked
      fs tmp_count add_events].
    + split; [reflexivity | now left].
    + split; [reflexivity | right; now exists b].
Qed.

Lemma redtape_reducer_files (w : World) (req : request) (st : state) :
  (fs (snd (redtape_reducer w req st)) = fs st
   /\ tmp_count (snd (redtape_reducer w req st)) = tmp_count st)
  \/ (fs (snd (redtape_reducer w req st)) = fs (snd (extract_content w req st))
      /\ tmp_count (snd (redtape_reducer w req st))
         = tmp_count (snd (extract_content w req st))).
Proof.
  destruct (redtape_reducer_ends w req st)
    as [(Hm & E)|(Hm & [(_ & _ & E)|[(e & st1 & X & E)|(r & st1 & X & E)]])];
    rewrite E; cbn [snd]; [now left | now left | |];
    right; rewrite X; now split.
Qed.

(** X5: a request changes no file but its own temporary file: a name drawn
    with the counter of the incoming state.  That file is gone when the
    extraction returned, and stays with some content otherwise; without a
    file to store, the file system and the counter are as before. *)
Theorem only_own_temp_file (w : World) (req : request) (st : state) :
  let st' := snd (redtape_reducer w req st) in
  ((fs st' = fs st /\ tmp_count st' = tmp_count st)
   \/ exists suffix,
       tmp_count st' = S (tmp_count st)
       /\ (fs st' = delete (tmp_stem w (tmp_count st) +:+ suffix) (fs st)
           \/ exists b,
               fs st' = <[tmp_stem w (tmp_count st) +:+ suffix := b]> (fs st)))
  /\ forall path,
      (forall suffix, path <> tmp_stem w (tmp_count st) +:+ suffix) ->
      fs st' !! path = fs st !! path.
Proof.
  intros st'.
  assert ((fs st' = fs st /\ tmp_count st' = tmp_count st)
          \/ exists suffix,
              tmp_count st' = S (tmp_count st)
              /\ (fs st' = delete (tmp_stem w (tmp_count st) +:+ suffix) (fs st)
                  \/ exists b,
                      fs st'
                      = <[tmp_stem w (tmp_count st) +:+ suffix := b]> (fs st)))
    as H.
  { unfold st'. destruct (redtape_reducer_files w req st) as [H|(H1 & H2)];
      [now left |]. rewrite H1, H2. apply extract_content_files. }
  split; [exact H |]. intros path Hp.
  destruct H as [(-> & _)|(sfx & _ & [-> | (b & ->)])]; [reflexivity | |].
  - apply lookup_delete_ne. apply not_eq_sym, Hp.
  - apply lookup_insert_ne. apply not_eq_sym, Hp.
Qed.

(** *** Requests without a file to store *)

(** X7: a request that is not JSON and has no multipart part named "file", or
    one without a file name, is served from its raw body alone: the trimmed
    UTF-8 text of the body is analysed, and a body that does not decode or
    is blank is answered 400 without a call to the model. *)
Theorem request_without_file_part (w : World) (req : request) (st : state) :
  method req = "POST" ->
  is_json req = false ->
  files_get "file" (files req) = None
  \/ (exists u, files_get "file" (files req) = Some u /\ filename u = "") ->
  redtape_reducer w req st = redtape_reducer w (as_raw req) st
  /\ (forall s, utf8_decode w (data req) = Ok s -> strip s <> "" ->
      redtape_reducer w req st
      = (finish w (outcome w (strip s, None)),
         add_events st [EvDecodeBody; EvAnalyze (strip s) None]))
  /\ (body_unusable w req ->
      redtape_reducer w req st = (no_input, add_events st [EvDecodeBody])).
Proof.
  intros Hm Hj Hf.
  assert (extract_content w req st = (Ok (inr ("", None)), st)) as E.
  { assert (multipart_case w req st = (Ok ("", None), st)) as Hc
      by (unfold multipart_case; destruct Hf as [-> | (u & -> & ->)];
          reflexivity).
    unfold extract_content. rewrite Hj.
    destruct (files req); [reflexivity |]. unfold bind. now rewrite Hc. }
  rewrite (redtape_reducer_resolved _ _ _ _ _ Hm E).
  rewrite (redtape_reducer_resolved w (as_raw req) st st ("", None) Hm eq_refl).
  split; [reflexivity |]. unfold fallback, fallback_events. cbn [fst snd truthy negb].
  split.
  - intros s Hs Hn. rewrite Hs. apply truthy_true in Hn. rewrite Hn.
    unfold outcome_events. cbn [fst snd]. apply truthy_true in Hn.
    destruct (strip s); [congruence | reflexivity].
  - intros Hb. unfold body_unusable in Hb.
    destruct (utf8_decode w (data req)) as [s|e]; [|reflexivity].
    rewrite (Hb s eq_refl). reflexivity.
Qed.

Lemma request_without_file_part_witness :
  redtape_reducer world other_part_request start
  = (finish world (outcome world ("no water", None)),
     add_events start [EvDecodeBody; EvAnalyze "no water" None]).
Proof.
  refine (proj1 (proj2 (request_without_file_part world other_part_request
                          start eq_refl eq_refl
                          (or_introl eq_refl)))
            " no water " eq_refl _).
  discriminate.
Defined.

(** X3: the 400 "No text or file provided" is given exactly to the POST
    requests whose shape yields no text and whose raw body yields none
    either. *)
Theorem no_input_iff (w : World) (req : request) (st : state) :
  fst (redtape_reducer w req st) = no_input
  <-> method req = "POST"
      /\ (exists st1, extract_content w req st = (Ok (inr ("", None)), st1))
      /\ body_unusable w req.
Proof.
  assert (forall x, sanitize_and_parse w x <> no_input) as Hs.
  { intros x E. apply (f_equal status) in E.
    rewrite status_sanitize_and_parse in E. discriminate. }
  destruct (redtape_reducer_ends w req st)
    as [(Hm & E)|(Hm & [(J & T & E)|[(e & st1 & X & E)|(x & st1 & X & E)]])];
    rewrite E; cbn [fst].
  - split; [discriminate | tauto].
  - split; [discriminate |]. intros (_ & (st1 & X) & _).
    unfold extract_content in X. rewrite J, T in X. discriminate.
  - split; [discriminate |]. intros (_ & (st2 & X') & _). congruence.
  - split.
    + intros F. split; [exact Hm |].
      destruct (finish_outcome w (fallback w req x))
        as [(F0 & _)|(_ & [(res & _ & F')|(e & _ & F')])];
        [|rewrite F' in F; now apply Hs in F |rewrite F' in F; discriminate].
      pose proof (extract_content_consistent _ _ _ _ _ X) as Hc.
      destruct x as [t o]. unfold fallback in F0. cbn [fst snd] in F0.
      destruct t; cbn [truthy negb fst] in F0; [|discriminate].
      split.
      * exists st1. rewrite X. do 3 f_equal.
        destruct o as [c|]; [|reflexivity].
        specialize (Hc c eq_refl). discriminate.
      * intros s Hd. rewrite Hd in F0.
        destruct (strip s); [reflexivity | discriminate].
    + intros (_ & (st2 & X') & Hb). rewrite X' in X. injection X as <- _.
      unfold fallback. cbn [fst snd truthy negb]. unfold body_unusable in Hb.
      destruct (utf8_decode w (data req)) as [s|e]; [|reflexivity].
      rewrite (Hb s eq_refl). reflexivity.
Qed.

(** *** The texts that reach the model *)

Lemma route_trimmed (w : World) (texts : list string) (ext lpath : string)
  (b : bytes) (r : resolved) :
  route w texts ext lpath b = Ok r ->
  trimmed (fst r) = true /\ forall c, snd r = Some c -> trimmed c = true.
Proof.
  unfold route, file_text, image_text, image_label.
  destruct (mem ext texts).
  - destruct (untrimmed_text w lpath b); cbn [res_bind]; [|discriminate].
    intros [= <-]. split; [apply strip_trimmed | discriminate].
  - destruct (mem ext images); [|intros [= <-]; split; [reflexivity | discriminate]].
    destruct (ocr_fragments w b) as [frags|]; cbn [res_bind]; [|discriminate].
    destruct (negb (truthy (strip (strip (join " " frags))))).
    + destruct (generate w _) as [reply|]; cbn [res_bind]; [|discriminate].
      intros [= <-]. split; [reflexivity |].
      intros c [= <-]. apply strip_trimmed.
    + intros [= <-]. split; [apply strip_trimmed | discriminate].
Qed.

Lemma fallback_trimmed (w : World) (req : request) (r : resolved) :
  fst r = "" ->
  trimmed (fst (fallback w req r)) = true /\ snd (fallback w req r) = snd r.
Proof.
  intros H. unfold fallback. rewrite H. cbn [truthy negb].
  destruct (utf8_decode w (data req)) as [d|]; [|now rewrite H].
  destruct (truthy (strip d)); [|now rewrite H].
  split; [apply strip_trimmed | reflexivity].
Qed.

(** X16: the text handed to the model has no white space at either end, unless
    it is the [text] of a JSON object, which is passed as sent; a category
    override is always trimmed. *)
Theorem analysed_text_trimmed (w : World) (req : request) (st st1 st2 : state)
  (r r' : resolved) :
  extract_content w req st = (Ok (inr r), st1) ->
  plain_text_case w req r st1 = (Ok r', st2) ->
  (trimmed (fst r') = true
   \/ (is_json req = true
       /\ exists fields,
           get_json req = JObj fields
           /\ lookup_field "text" fields = Some (JStr (fst r'))
           /\ strip (fst r') <> ""))
  /\ (forall c, snd r' = Some c -> trimmed c = true).
Proof.
  intros X P. rewrite plain_text_case_run in P. injection P as <- _.
  assert ((trimmed (fst r) = true
           /\ forall c, snd r = Some c -> trimmed c = true)
          \/ (is_json req = true /\ snd r = None
              /\ exists fields,
                  get_json req = JObj fields
                  /\ lookup_field "text" fields = Some (JStr (fst r))
                  /\ strip (fst r) <> "")) as H.
  { destruct (extract_content_ends w req st)
      as [(_ & _ & E)|[(s & E & Hs)|[(e & pre & E & _)
         |(sfx & b & texts & ext & pre & _ & _ & E)]]];
      rewrite E in X; try discriminate.
    - injection X as <- _.
      destruct Hs as [-> | (J & _ & fields & Hg & Hl & Hn)].
      + left. split; [reflexivity | discriminate].
      + right. split; [exact J |]. split; [reflexivity |]. now exists fields.
    - rewrite temp_section_run in X.
      destruct (temp_fault w sfx); [discriminate |].
      destruct (route w texts ext _ b) as [x|] eqn:R; [|discriminate].
      injection X as <- _. left. exact (route_trimmed _ _ _ _ _ _ R). }
  destruct H as [(Ht & Ho)|(J & Ho & fields & Hg & Hl & Hn)].
  - destruct (String.eqb_spec (fst r) "") as [Hr|Hr].
    + destruct (fallback_trimmed w req r Hr) as (F1 & F2).
      split; [now left |]. now rewrite F2.
    + destruct (fallback_text w req r Hr) as (-> & _). split; [now left | exact Ho].
  - assert (fst r <> "") as Hr by (intros Hr; now rewrite Hr in Hn).
    destruct (fallback_text w req r Hr) as (-> & _).
    split; [|rewrite Ho; discriminate]. right. split; [exact J |].
    now exists fields.
Qed.

Lemma analysed_text_trimmed_witness :
  trimmed "no water" = true
  \/ (is_json other_part_request = true
      /\ exists fields,
          get_json other_part_request = JObj fields
          /\ lookup_field "text" fields = Some (JStr "no water")
          /\ strip "no water" <> "").
Proof.
  exact (proj1 (analysed_text_trimmed world other_part_request start start
                  (add_events start [EvDecodeBody]) ("", None)
                  ("no water", None) eq_refl eq_refl)).
Defined.

(** *** Fields of the wrong type *)

(** X9: a JSON object whose [text] is not a string is answered 500 before any
    other field is looked at, whatever file it brings. *)
Theorem text_must_be_string (w : World) (req : request) (st : state)
  (fields : list (string * json)) (v : json) :
  method req = "POST" ->
  is_json req = true ->
  get_json req = JObj fields ->
  lookup_field "text" fields = Some v ->
  (forall s, v <> JStr s) ->
  redtape_reducer w req st
  = (server_error w (Builtin (NoAttribute v "strip")), st).
Proof.
  intros Hm Hj Hg Hl Hv.
  assert (json_truthy (get_json req) = true) as Ht.
  { rewrite Hg. destruct fields; [discriminate | reflexivity]. }
  rewrite (redtape_reducer_post _ _ _ Hm), handle_run.
  rewrite (extract_content_json _ _ _ Hj Ht), Hg.
  unfold json_case, bind, lift. cbn [py_in py_getitem]. rewrite Hl.
  destruct v; try reflexivity. now destruct (Hv s).
Qed.

Lemma text_must_be_string_witness :
  redtape_reducer world number_text_request start
  = ({| body := JObj [("error", JStr "object has no attribute strip")];
        status := 500 |}, start).
Proof.
  refine (text_must_be_string world number_text_request start _ (JInt 5)
            eq_refl eq_refl eq_refl eq_refl _).
  discriminate.
Defined.

(** X10: a JSON file that does not decode, or whose [file_type] is not a
    string, is answered 500 before a temporary file is created: nothing is
    left behind. *)
Theorem undecodable_file_stores_nothing (w : World) (req : request)
  (st : state) (fields : list (string * json)) (payload declared : json)
  (e : exn) :
  method req = "POST" ->
  is_json req = true ->
  get_json req = JObj fields ->
  no_text fields ->
  lookup_field "file" fields = Some payload ->
  lookup_field "file_type" fields = Some declared ->
  py_b64decode w payload = Raise e
  \/ ((exists b, py_b64decode w payload = Ok b)
      /\ as_str declared "lower" = Raise e) ->
  redtape_reducer w req st
  = (server_error w e, add_events st [EvB64Decode]).
Proof.
  intros Hm Hj Hg Hn Hf Hd He.
  assert (json_truthy (get_json req) = true) as Ht.
  { rewrite Hg. destruct fields; [discriminate | reflexivity]. }
  rewrite (redtape_reducer_post _ _ _ Hm), handle_run.
  rewrite (extract_content_json _ _ _ Hj Ht), Hg.
  rewrite (json_case_no_text _ _ _ Hn), Hf, Hd.
  unfold json_file_case, bind, lift. rewrite log_run.
  cbn [py_getitem]. rewrite Hf.
  destruct He as [-> | ((b & ->) & He)]; [reflexivity |].
  rewrite Hd, He. reflexivity.
Qed.

Lemma undecodable_file_stores_nothing_witness :
  redtape_reducer world bad_file_request start
  = ({| body := JObj [("error", JStr "Incorrect padding")]; status := 500 |},
     add_events start [EvB64Decode]).
Proof.
  exact (undecodable_file_stores_nothing world bad_file_request start _
           (JStr "not base64") (JStr "txt") (Library "Incorrect padding")
           eq_refl eq_refl eq_refl (or_introl eq_refl) eq_refl eq_refl
           (or_introl eq_refl)).
Defined.

(** *** JSON bodies that are not objects *)

(** X8: a JSON body that is an array, a string, a number or [true] never
    supplies a text or a file: the request is answered 500, or served from
    its raw body alone, and no temporary file is created.  A number or
    [true] is always answered 500. *)
Theorem json_body_must_be_object (w : World) (req : request) (st : state) :
  method req = "POST" ->
  is_json req = true ->
  json_truthy (get_json req) = true ->
  (forall fields, get_json req <> JObj fields) ->
  ((exists e pre,
       redtape_reducer w req st = (server_error w e, add_events st pre))
   \/ redtape_reducer w req st = redtape_reducer w (as_raw req) st)
  /\ ((forall items, get_json req <> JArr items) ->
      (forall s, get_json req <> JStr s) ->
      redtape_reducer w req st
      = (server_error w (Builtin (NotContainer (get_json req))), st)).
Proof.
  intros Hm Hj Ht Hobj.
  assert (forall k, py_getitem (get_json req) k
                    = Raise (Builtin (NotSubscriptable (get_json req) k)))
    as Hget.
  { intros k. destruct (get_json req) as [| | | | | |fields]; try reflexivity.
    now destruct (Hobj fields). }
  assert (forall e pre,
             extract_content w req st = (Raise e, add_events st pre) ->
             redtape_reducer w req st = (server_error w e, add_events st pre))
    as Hraise.
  { intros e pre E. rewrite (redtape_reducer_post _ _ _ Hm), handle_run, E.
    reflexivity. }
  assert (extract_content w req st = (Ok (inr ("", None)), st) ->
          redtape_reducer w req st = redtape_reducer w (as_raw req) st)
    as Hraw.
  { intros E. rewrite (redtape_reducer_resolved _ _ _ _ _ Hm E).
    now rewrite (redtape_reducer_resolved w (as_raw req) st st ("", None) Hm
                   eq_refl). }
  assert (forall x st1,
             json_case w (get_json req) st = (x, st1) ->
             extract_content w req st
             = match x with
               | Ok r => (Ok (inr r), st1)
               | Raise e => (Raise e, st1)
               end) as Hx.
  { intros x st1 E. now rewrite (extract_content_json _ _ _ Hj Ht), E. }
  split.
  - destruct (py_in "text" (get_json req)) as [[|]|e] eqn:H1.
    + left. eexists _, []. apply Hraise. rewrite add_events_nil.
      apply (Hx (Raise _)). unfold json_case, bind, lift.
      now rewrite H1, Hget.
    + destruct (py_in "file" (get_json req)) as [[|]|e] eqn:H2.
      * destruct (py_in "file_type" (get_json req)) as [[|]|e] eqn:H3.
        -- left. eexists _, []. apply Hraise. rewrite add_events_nil.
           apply (Hx (Raise _)).
           unfold json_case, json_file_case, bind, lift, ret.
           now rewrite H1, H2, H3, Hget.
        -- right. apply Hraw. apply (Hx (Ok _)).
           unfold json_case, bind, lift, ret. now rewrite H1, H2, H3.
        -- left. eexists _, []. apply Hraise. rewrite add_events_nil.
           apply (Hx (Raise _)). unfold json_case, bind, lift, ret.
           now rewrite H1, H2, H3.
      * right. apply Hraw. apply (Hx (Ok _)).
        unfold json_case, bind, lift, ret. now rewrite H1, H2.
      * left. eexists _, []. apply Hraise. rewrite add_events_nil.
        apply (Hx (Raise _)). unfold json_case, bind, lift, ret.
        now rewrite H1, H2.
    + left. eexists _, []. apply Hraise. rewrite add_events_nil.
      apply (Hx (Raise _)). unfold json_case, bind, lift. now rewrite H1.
  - intros Harr Hstr.
    rewrite <- (add_events_nil st) at 2. apply Hraise.
    rewrite add_events_nil. apply (Hx (Raise _)).
    unfold json_case, bind, lift.
    destruct (get_json req) as [| | | |s|items|fields]; try reflexivity.
    + now destruct (Hstr s).
    + now destruct (Harr items).
    + now destruct (Hobj fields).
Qed.

Lemma json_body_must_be_object_witness :
  redtape_reducer world number_request start
  = ({| body := JObj [("error", JStr "argument is not iterable")];
        status := 500 |}, start).
Proof.
  exact (proj2 (json_body_must_be_object world number_request start eq_refl
                  eq_refl eq_refl ltac:(discriminate))
           ltac:(discriminate) ltac:(discriminate)).
Defined.

(** *** A suffix that makes no file name *)

(** X20: a file whose temporary name cannot be created is answered 500 with
    the error of the creation: nothing is stored or extracted and the raw
    body is not read.  For a JSON file this is so whenever the declared type
    holds a path separator; the suffix of an upload never holds one, so an
    upload is refused only for a NUL or an extension that is too long. *)
Theorem unfit_suffix_answers_500 (w : World) (req : request) (st : state)
  (f : fault) :
  method req = "POST" ->
  (forall (fields : list (string * json)) (payload d : string) (b : bytes),
      is_json req = true ->
      get_json req = JObj fields ->
      no_text fields ->
      lookup_field "file" fields = Some (JStr payload) ->
      b64decode w payload = Ok b ->
      lookup_field "file_type" fields = Some (JStr d) ->
      temp_fault w ("." +:+ lower d) = Some f ->
      redtape_reducer w req st
      = (server_error w (Builtin f), add_events st [EvB64Decode]))
  /\ (forall u : upload,
         is_json req = false ->
         files_get "file" (files req) = Some u ->
         filename u <> "" ->
         temp_fault w (snd (splitext (filename u))) = Some f ->
         redtape_reducer w req st = (server_error w (Builtin f), st))
  /\ (forall d : string,
         contains "/" d = true ->
         exists f', temp_fault w ("." +:+ lower d) = Some f')
  /\ (forall name : string, contains "/" (snd (splitext name)) = false).
Proof.
  intros Hm. split; [|split; [|split]].
  - intros fields payload d b Hj Hg Hno Hf Hb Hty Hv.
    assert (json_truthy (get_json req) = true) as Ht.
    { rewrite Hg. destruct fields; [discriminate | reflexivity]. }
    rewrite (redtape_reducer_post _ _ _ Hm), handle_run.
    rewrite (extract_content_json _ _ _ Hj Ht), Hg.
    rewrite (json_case_no_text _ _ _ Hno), Hf, Hty.
    rewrite (json_file_case_run w fields payload d b st Hf Hb Hty).
    now rewrite temp_section_run, Hv.
  - intros u Hj Hu Hn Hv. rewrite (upload_run w req u st Hm Hj Hu Hn).
    cbv zeta. now rewrite Hv.
  - intros d Hd. unfold temp_fault.
    destruct (contains Ascii.zero ("." +:+ lower d)); [now eexists |].
    assert (contains "/" ("." +:+ lower d) = contains "/" d) as E.
    { rewrite <- (contains_lower "/" d) by apply lower_char_slash.
      reflexivity. }
    rewrite E, Hd. now eexists.
  - apply splitext_no_slash.
Qed.

Lemma unfit_suffix_answers_500_witness :
  redtape_reducer world slash_type_request start
  = ({| body := JObj [("error", JStr "No such file or directory")];
        status := 500 |}, add_events start [EvB64Decode]).
Proof.
  exact (proj1 (unfit_suffix_answers_500 world slash_type_request start
                  CannotCreate eq_refl)
           [("file", JStr "aGk="); ("file_type", JStr "x/y")] "aGk=" "x/y"
           (list_byte_of_string "hi") eq_refl eq_refl (or_introl eq_refl)
           eq_refl eq_refl eq_refl eq_refl).
Defined.

(** *** Independence of what came before *)

Lemma temp_section_fst (w : World) (suffix : string) (b : bytes)
  (texts : list string) (ext : string) (st st' : state) :
  tmp_count st = tmp_count st' ->
  fst (temp_section w suffix b texts ext st)
  = fst (temp_section w suffix b texts ext st').
Proof.
  intros H. rewrite !temp_section_run, H.
  destruct (temp_fault w suffix); [reflexivity |].
  now destruct (route w texts ext _ b).
Qed.

Lemma json_file_case_fst (w : World) (d : json) (st st' : state) :
  tmp_count st = tmp_count st' ->
  fst (json_file_case w d st) = fst (json_file_case w d st').
Proof.
  intros H. unfold json_file_case, bind, lift.
  destruct (py_getitem d "file") as [payload|e]; [|reflexivity].
  rewrite !log_run.
  destruct (py_b64decode w payload) as [b|e]; [|reflexivity].
  destruct (py_getitem d "file_type") as [declared|e]; [|reflexivity].
  destruct (as_str declared "lower") as [ds|e]; [|reflexivity].
  apply (temp_section_fst w ("." +:+ lower ds) b json_texts (lower ds)
           (add_events st [EvB64Decode]) (add_events st' [EvB64Decode])).
  exact H.
Qed.

Lemma json_case_fst (w : World) (d : json) (st st' : state) :
  tmp_count st = tmp_count st' ->
  fst (json_case w d st) = fst (json_case w d st').
Proof.
  intros H. pose proof (json_file_case_fst w d st st' H) as F.
  unfold json_case, bind, lift, ret.
  destruct (py_in "text" d) as [[|]|?];
    [destruct (py_getitem d "text") as [v|?];
       [destruct (as_str v "strip") as [s|?];
          [destruct (truthy (strip s)) |] |] | |];
    try reflexivity;
    (destruct (py_in "file" d) as [[|]|?];
       [destruct (py_in "file_type" d) as [[|]|?] | |];
     solve [reflexivity | exact F]).
Qed.

Lemma extract_content_fst (w : World) (req : request) (st st' : state) :
  tmp_count st = tmp_count st' ->
  fst (extract_content w req st) = fst (extract_content w req st').
Proof.
  intros H. unfold extract_content. destruct (is_json req).
  - destruct (negb (json_truthy (get_json req))); [reflexivity |].
    unfold bind, ret. pose proof (json_case_fst w (get_json req) st st' H) as F.
    destruct (json_case w (get_json req) st) as [[r|e] st1],
      (json_case w (get_json req) st') as [[r'|e'] st1'];
      cbn [fst] in F |- *; congruence.
  - destruct (files req) as [|x l] eqn:Hf; [reflexivity |].
    unfold bind, ret.
    assert (fst (multipart_case w req st) = fst (multipart_case w req st'))
      as F.
    { destruct (files_get "file" (files req)) as [u|] eqn:G.
      - destruct (String.eqb_spec (filename u) "") as [N|N].
        + unfold multipart_case. now rewrite G, N.
        + rewrite !(multipart_case_run w req u _ G N).
          now apply temp_section_fst.
      - unfold multipart_case. now rewrite G. }
    destruct (multipart_case w req st) as [[r|e] st1],
      (multipart_case w req st') as [[r'|e'] st1'];
      cbn [fst] in F |- *; congruence.
Qed.

(** X6: the answer to a request does not depend on the files that are there or
    on the calls made before: only the temporary name that the request draws
    can matter. *)
Theorem answer_ignores_history (w : World) (req : request) (st st' : state) :
  tmp_count st = tmp_count st' ->
  fst (redtape_reducer w req st) = fst (redtape_reducer w req st').
Proof.
  intros H. pose proof (extract_content_fst w req st st' H) as F.
  unfold redtape_reducer.
  destruct (negb (String.eqb (method req) "POST")); [reflexivity |].
  rewrite !handle_run.
  destruct (extract_content w req st) as [[[early|r]|e] st1],
    (extract_content w req st') as [[[early'|r']|e'] st1'];
    cbn [fst] in F; try discriminate; injection F as <-; try reflexivity.
  now destruct (outcome w (fallback w req r)).
Qed.

Lemma answer_ignores_history_witness :
  fst (redtape_reducer world
         (upload_request "complaint.txt" (list_byte_of_string "Garbage"))
         used_state)
  = fst (redtape_reducer world
           (upload_request "complaint.txt" (list_byte_of_string "Garbage"))
           start).
Proof.
  exact (answer_ignores_history world
           (upload_request "complaint.txt" (list_byte_of_string "Garbage"))
           used_state start eq_refl).
Defined.

End HandlerLaws.
